(** * dss-to-cnf: pathname decomposition, event-key resolution and the
      extraction / conversion driver, embedded from the Python sources

    Sources embedded here:
    - [src/utils/dss_tools.py]: [get_path_part], [remove_date],
      [custom_f_part_parser], [extract_data_from_dss];
    - [src/utils/aws_tools.py]: [check_file_exists], [list_keys];
    - [src/dss_to_zarr.py]: [main].

    Python [str] values are modelled by [string] (sequences of bytes).  All
    the separators and strip characters the code uses are ASCII, so on UTF-8
    text the byte-level operations below agree with Python's code-point-level
    ones. *)

From Stdlib Require Import Ascii String.
From stdpp Require Import base option list strings gmap.

(** ** Python values, exceptions and results *)

(** The values an option of the [params] dict can hold (JSON scalars), plus
    [None] (the default of [parser_string_part]) and the empty list ([main]'s
    default for [zarr_output_prefix]). *)
Inductive pyval :=
| PNone
| PBool (b : bool)
| PStr (s : string)
| PEmptyList.

Global Instance pyval_eq_dec : EqDecision pyval.
Proof. solve_decision. Defined.

(** [str(v)], as an f-string renders a value. *)
Definition py_str (v : pyval) : string :=
  match v with
  | PNone => "None"
  | PBool true => "True"
  | PBool false => "False"
  | PStr s => s
  | PEmptyList => "[]"
  end.

(** Truth value of [v] in [if v:]. *)
Definition truthy (v : pyval) : bool :=
  match v with
  | PNone => false
  | PBool b => b
  | PStr s => negb (String.eqb s "")
  | PEmptyList => false
  end.

(** The Python exception classes that occur. *)
Inductive exn_class :=
| CValueError | CKeyError | CIndexError | CTypeError | CNotImplementedError
| CException.

Global Instance exn_class_eq_dec : EqDecision exn_class.
Proof. solve_decision. Defined.

(** One constructor per [raise] site of the sources (carrying the values the
    message is formatted from), plus the implicit errors of indexing and of
    the external libraries. *)
Inductive exn :=
| ValueError_part (part : string)
    (* get_path_part: "`part` must be in [...], replace `{part}` ..." *)
| IndexError
    (* list index out of range *)
| ValueError_parts (parts : list string)
    (* custom_f_part_parser: "Expected 2 parts [year,event] in the FPART, got {parts}" *)
| ValueError_year (part_1 : string) (string_part : pyval)
    (* custom_f_part_parser: "Year {part_1} does not match expected year {string_part}" *)
| ValueError_not_dss (key : string)
    (* check_file_exists: "{key} is not a DSS file" *)
| KeyError_no_access (key : string) (bucket : pyval)
    (* check_file_exists: "cannot access file {key} in bucket {bucket}. ..." *)
| TypeError_path (key : pyval)
    (* pathlib.Path(key) on a value that is not a str *)
| KeyError_param (k : string)
    (* params[k] on a missing key *)
| NotImplementedError_multi_bucket
    (* main: "multi-bucket support not implemented! ..." *)
| ValueError_env (name : string)
    (* main: "{name} not found in environment variables" *)
| TypeError_unhashable (name : pyval)
    (* main: the dict display {c_part_variable: da} on a list *)
| External (c : exn_class) (msg : string).
    (* raised inside s3fs / pydsstools / datatree / numpy / xarray *)

Definition class_of (e : exn) : exn_class :=
  match e with
  | ValueError_part _ | ValueError_parts _ | ValueError_year _ _
  | ValueError_not_dss _ | ValueError_env _ => CValueError
  | IndexError => CIndexError
  | KeyError_no_access _ _ | KeyError_param _ => CKeyError
  | TypeError_path _ | TypeError_unhashable _ => CTypeError
  | NotImplementedError_multi_bucket => CNotImplementedError
  | External c _ => c
  end.

(** Result of a call: a value, or a raised exception. *)
Inductive outcome (A : Type) :=
| Returns (a : A)
| Raises (e : exn).
Arguments Returns {A} a.
Arguments Raises {A} e.

Global Instance outcome_ret : MRet outcome := fun A a => Returns a.
Global Instance outcome_bind : MBind outcome := fun A B k m =>
  match m with
  | Returns a => k a
  | Raises e => Raises e
  end.

(** What a call into an external library answers: a value, or an exception
    of its own (its class and message). *)
Inductive answer (A : Type) :=
| Answer (a : A)
| Fault (c : exn_class) (msg : string).
Arguments Answer {A} a.
Arguments Fault {A} c msg.

Definition of_answer {A} (r : answer A) : outcome A :=
  match r with
  | Answer a => Returns a
  | Fault c msg => Raises (External c msg)
  end.

(** ** String operations of Python used by the sources *)

Definition ch_slash : ascii := "/"%char.
Definition ch_dash : ascii := "-"%char.

(** [s.split(sep)] for a one-character separator. *)
Fixpoint split (sep : ascii) (s : string) : list string :=
  match s with
  | EmptyString => [EmptyString]
  | String a s' =>
      if Ascii.eqb a sep then EmptyString :: split sep s'
      else match split sep s' with
           | seg :: segs => String a seg :: segs
           | [] => [String a EmptyString]
           end
  end.

(** Scanning part of [s.replace(old, new)] for a non-empty [old]: matches are
    taken left to right and do not overlap; [skip] counts the characters of
    the current match that are still to be dropped. *)
Fixpoint replace_from (old new : string) (skip : nat) (s : string) : string :=
  match s with
  | EmptyString => EmptyString
  | String a s' =>
      match skip with
      | S k => replace_from old new k s'
      | O =>
          if String.prefix old s
          then new +:+ replace_from old new (String.length old - 1) s'
          else String a (replace_from old new 0 s')
      end
  end.

(** [new] after every character (the empty pattern matches between any two
    characters). *)
Fixpoint follow_each (new s : string) : string :=
  match s with
  | EmptyString => EmptyString
  | String a s' => String a (new +:+ follow_each new s')
  end.

(** [s.replace(old, new)]. *)
Definition replace (old new s : string) : string :=
  match old with
  | EmptyString => new +:+ follow_each new s
  | String _ _ => replace_from old new 0 s
  end.

(** [c in chars]. *)
Fixpoint in_chars (c : ascii) (chars : string) : bool :=
  match chars with
  | EmptyString => false
  | String a chars' => Ascii.eqb c a || in_chars c chars'
  end.

(** [s.lstrip(chars)]: drops the longest prefix made of characters of the
    SET [chars]. *)
Fixpoint lstrip (chars s : string) : string :=
  match s with
  | EmptyString => EmptyString
  | String a s' => if in_chars a chars then lstrip chars s' else s
  end.

(** [s.endswith(suffix)]: some tail of [s] is [suffix]. *)
Fixpoint endswith (s suffix : string) : bool :=
  String.eqb s suffix ||
  match s with
  | EmptyString => false
  | String _ s' => endswith s' suffix
  end.

(** [s[i:]] for a non-negative [i]. *)
Fixpoint drop_chars (i : nat) (s : string) : string :=
  match i, s with
  | O, _ => s
  | S _, EmptyString => EmptyString
  | S i', String _ s' => drop_chars i' s'
  end.

(** [l[i]] for a non-negative index. *)
Definition py_index {A} (l : list A) (i : nat) : outcome A :=
  match l !! i with
  | Some x => Returns x
  | None => Raises IndexError
  end.

(** [l.index(x)]: the first position of [x]. *)
Fixpoint list_index (x : string) (l : list string) : option nat :=
  match l with
  | [] => None
  | y :: l' => if String.eqb x y then Some 0%nat else S <$> list_index x l'
  end.

(** ** utils/dss_tools.py *)

Definition path_parts : list string := ["A"; "B"; "C"; "D"; "E"; "F"; "G"; "H"].

(** [get_path_part(pathname, part)]. *)
Definition get_path_part (pathname part : string) : outcome string :=
  if negb (bool_decide (part ∈ path_parts)) then Raises (ValueError_part part)
  else
    match list_index part path_parts with
    | None => Raises (ValueError_part part)
    | Some position =>
        seg ← py_index (split ch_slash pathname) (position + 1);
        Returns (replace " " "_" seg)
    end.

(** The iteration order of [list(set(xs))] depends on string hashes; the
    code may rely only on what every order guarantees: no repetition, and the
    same members as [xs]. *)
Class SetOrder := {
  list_of_set : list string -> list string;
  list_of_set_NoDup : forall xs, NoDup (list_of_set xs);
  list_of_set_elem : forall xs x, x ∈ list_of_set xs <-> x ∈ xs;
}.

(** One admissible order, which shows that the interface is inhabited. *)
Program Definition remove_dups_order : SetOrder :=
  {| list_of_set := remove_dups |}.
Next Obligation. intros xs. apply NoDup_remove_dups. Qed.
Next Obligation. intros xs x. apply elem_of_remove_dups. Qed.

(** Body of the loop of [remove_date] for one pathname. *)
Definition remove_part_d (pathname : string) : outcome string :=
  d ← py_index (split ch_slash pathname) 4;
  Returns (replace d "" pathname).

(** The loop of [remove_date]: the list [no_part_d_pathnames]. *)
Fixpoint no_part_d_pathnames (pathnames : list string) : outcome (list string) :=
  match pathnames with
  | [] => Returns []
  | pathname :: rest =>
      stem ← remove_part_d pathname;
      stems ← no_part_d_pathnames rest;
      Returns (stem :: stems)
  end.

(** [remove_date(pathnames)]. *)
Definition remove_date `{SetOrder} (pathnames : list string) : outcome (list string) :=
  stems ← no_part_d_pathnames pathnames;
  Returns (list_of_set stems).

(** [custom_f_part_parser(f_part, string_part)]. *)
Definition custom_f_part_parser (f_part : string) (string_part : pyval) : outcome string :=
  let parts := split ch_dash (lstrip "RUN:" f_part) in
  if negb (length parts =? 2)%nat then Raises (ValueError_parts parts)
  else
    match parts with
    | [part_1; part_2] =>
        if negb (bool_decide (string_part = PStr part_1))
        then Raises (ValueError_year part_1 string_part)
        else Returns part_2
    | _ => Raises (ValueError_parts parts)
    end.

(** ** Python dicts keyed by strings, in insertion order *)

Definition dict (V : Type) := list (string * V).

(** [d.get(k)]. *)
Fixpoint dict_get {V} (k : string) (d : dict V) : option V :=
  match d with
  | [] => None
  | (k', v) :: d' => if String.eqb k k' then Some v else dict_get k d'
  end.

(** [d[k] = v]: an existing key keeps its place, a new one goes last. *)
Fixpoint dict_set {V} (k : string) (v : V) (d : dict V) : dict V :=
  match d with
  | [] => [(k, v)]
  | (k', v') :: d' =>
      if String.eqb k k' then (k, v) :: d' else (k', v') :: dict_set k v d'
  end.

(** [list(d.keys())]. *)
Definition dict_keys {V} (d : dict V) : list string := d.*1.

(** [if event not in d.keys(): d[event] = {}] then
    [d[event][element] = v]. *)
Definition store_entry {V} (event element : string) (v : V) (d : dict (dict V))
    : dict (dict V) :=
  let d1 := if negb (bool_decide (event ∈ dict_keys d)) then dict_set event [] d else d in
  dict_set event (dict_set element v (default [] (dict_get event d1))) d1.

(** [d[event][element]] of a nested dict. *)
Definition dict_get2 {V} (event element : string) (d : dict (dict V)) : option V :=
  inner ← dict_get event d; dict_get element inner.

(** ** pathlib (POSIX flavour), as far as [check_file_exists] uses it *)

(** [Path(key).name]: the last component of [key] that is neither empty nor
    [.]; empty when there is none. *)
Definition path_name (key : string) : string :=
  default "" (last (filter (fun x => x <> "" /\ x <> ".") (split ch_slash key))).

(** [s.rfind(c)]: the last position of [c] in [s]. *)
Fixpoint rfind (c : ascii) (s : string) : option nat :=
  match s with
  | EmptyString => None
  | String a s' =>
      match rfind c s' with
      | Some i => Some (S i)
      | None => if Ascii.eqb a c then Some 0%nat else None
      end
  end.

(** [Path(key).suffix]: [name[i:]] for [i = name.rfind('.')] when
    [0 < i < len(name) - 1], else empty. *)
Definition path_suffix (key : string) : string :=
  let name := path_name key in
  match rfind "."%char name with
  | Some i =>
      if (0 <? i)%nat && (i <? String.length name - 1)%nat
      then drop_chars i name
      else ""
  | None => ""
  end.

(** ** The outside world: object store, container reader, array libraries *)

Section World.

(** A series of values read from the container, and an assembled labelled
    array; both are produced and consumed by external libraries only. *)
Variables (Series DataArray : Type).

(** [xr.Dataset(data_vars, attrs)]. *)
Record Dataset := {
  data_vars : list (pyval * DataArray);
  attrs : list (string * string);
}.

(** A [DataTree] node: its name, its dataset and its children. *)
#[local] Unset Elimination Schemes.
Inductive DataTree :=
| Node (name : pyval) (data : Dataset) (children : list DataTree).
#[local] Set Elimination Schemes.

(** What [main] returns when it reaches its end. *)
Record main_result := {
  zarr_s3_key : string;
  success : list string;
  failures : list string;
}.

(** Observable actions, in program order. *)
Inductive event :=
| LogError (e : exn)                        (* logging.error(e) *)
| LogInfo (msg : string)                    (* logging.info(msg) *)
| HeadObject (bucket : pyval) (key : string) (* s3_client.head_object *)
| FsGet (dss_key : string)                  (* fs.get(dss_key, tmpfile) *)
| GetPathnameList (pattern : string)        (* hec_dss.getPathnameList *)
| ReadTs (pathname : string)                (* fid.read_ts(pathname) *)
| ToZarr (dest : string) (tree : DataTree) (mode : string). (* dt.to_zarr *)

(** The answers of the external world.  Each external call is a function of
    its arguments; what it returns or raises is not constrained. *)
Record World := {
  (* os.environ once load_dotenv has run *)
  environ : gmap string string;
  (* head_object(Bucket, Key) returns without raising *)
  head_object_ok : pyval -> string -> bool;
  (* fs.get(dss_key, local file) *)
  fs_get : string -> answer unit;
  (* HecDss.Open(local copy of dss_key).getPathnameList(pattern) *)
  getPathnameList : string -> string -> answer (list string);
  (* HecDss.Open(local copy of dss_key).read_ts(pathname).values *)
  read_ts : string -> string -> answer Series;
  (* DataTree(name=...) accepts the name *)
  new_node : pyval -> answer unit;
  (* np.array(list(elements_data.values())), its min/max, np.reshape and
     xr.DataArray(...) for one event *)
  event_array : string -> dict Series -> answer DataArray;
  (* msg % args, as logging.info(msg, args) formats a message that holds a
     % with a dict: the text, or nothing when the formatting raises *)
  percent_format : string -> dict Series -> option string;
  (* xr.concat(arrays, dim="event") *)
  xr_concat : list DataArray -> answer DataArray;
  (* xr.Dataset({name: da}, attrs={}) for a hashable name *)
  xr_dataset : pyval -> DataArray -> answer Dataset;
  (* dt.to_zarr(S3Map(dest), "a") *)
  to_zarr : string -> DataTree -> answer unit;
}.

(** A computation: its result and the events it performed. *)
Record io (A : Type) := IO { result : outcome A; trace : list event }.
Arguments IO {A} result trace.
Arguments result {A} _.
Arguments trace {A} _.

Global Instance io_ret : MRet io := fun A a => IO (Returns a) [].
Global Instance io_bind : MBind io := fun A B k m =>
  match result m with
  | Returns a => let r := k a in IO (result r) (trace m ++ trace r)
  | Raises e => IO (Raises e) (trace m)
  end.

Definition lift {A} (o : outcome A) : io A := IO o [].
Definition call {A} (r : answer A) : io A := lift (of_answer r).
Definition raise {A} (e : exn) : io A := IO (Raises e) [].
Definition emit (ev : event) : io unit := IO (Returns ()) [ev].

(** [try: a = m / except classes as e: handler(e)] followed by [k a], where
    the handler leaves the function with its result. *)
Definition try_except {A B} (m : io A) (classes : list exn_class)
    (handler : exn -> io B) (k : A -> io B) : io B :=
  match result m with
  | Returns a => let r := k a in IO (result r) (trace m ++ trace r)
  | Raises e =>
      if bool_decide (class_of e ∈ classes)
      then let r := handler e in IO (result r) (trace m ++ trace r)
      else IO (Raises e) (trace m)
  end.

Context {order : SetOrder}.
Variable w : World.

(** ** utils/aws_tools.py *)

(** [check_file_exists(s3_client, bucket, key)]. *)
Definition check_file_exists (bucket key : pyval) : io unit :=
  match key with
  | PStr k =>
      if negb (String.eqb (path_suffix k) ".dss") then raise (ValueError_not_dss k)
      else
        _ ← emit (HeadObject bucket k);
        if head_object_ok w bucket k then mret ()
        else raise (KeyError_no_access k bucket)
  | _ => raise (TypeError_path key)
  end.

(** ** utils/dss_tools.py, continued *)

(** [read_dss_data(dss_file, dss_pathname)]. *)
Definition read_dss_data (dss_key dss_pathname : string) : io Series :=
  _ ← emit (ReadTs dss_pathname);
  call (read_ts w dss_key dss_pathname).

(** The [for pathname in pathnames] loop of [extract_data_from_dss]. *)
Fixpoint extract_loop (dss_key : string) (parser_string_part : pyval)
    (custom_parser : option (string -> pyval -> outcome string))
    (pathnames : list string) (dss_data : dict (dict Series))
    : io (dict (dict Series)) :=
  match pathnames with
  | [] => mret dss_data
  | pathname :: rest =>
      f_part ← lift (get_path_part pathname "F");
      b_part ← lift (get_path_part pathname "B");
      data ← read_dss_data dss_key pathname;
      new_entry ← match custom_parser with
                  | Some parser => lift (parser f_part parser_string_part)
                  | None => mret f_part
                  end;
      extract_loop dss_key parser_string_part custom_parser rest
        (store_entry new_entry b_part data dss_data)
  end.

(** [extract_data_from_dss(dss_key, dss_internal_pathname_pattern, fs,
    parser_string_part=None, custom_parser=None)]. *)
Definition extract_data_from_dss (dss_key dss_internal_pathname_pattern : string)
    (parser_string_part : pyval)
    (custom_parser : option (string -> pyval -> outcome string))
    : io (dict (dict Series)) :=
  _ ← emit (FsGet dss_key);
  _ ← call (fs_get w dss_key);
  _ ← emit (GetPathnameList dss_internal_pathname_pattern);
  dss_internal_pathnames ← call (getPathnameList w dss_key dss_internal_pathname_pattern);
  pathnames ← lift (remove_date dss_internal_pathnames);
  extract_loop dss_key parser_string_part custom_parser pathnames [].

(** ** dss_to_zarr.py *)

(** [params[k]]. *)
Definition getitem (params : gmap string pyval) (k : string) : io pyval :=
  match params !! k with
  | Some v => mret v
  | None => raise (KeyError_param k)
  end.

(** The text [logging.info(msg, args)] records for a dict [args].  The
    record holds [args] itself when the dict is not empty and the tuple
    [(args,)] when it is, and the handler formats [msg % args]: a message
    without [%] is unchanged by a dict and refuses a tuple ("not all
    arguments converted"); a message with a [%] is formatted from the values.
    When the formatting raises, the handler reports it on stderr, nothing is
    raised and the record is lost. *)
Definition log_text (msg : string) (args : dict Series) : option string :=
  if in_chars "%" msg then percent_format w msg args
  else match args with
       | [] => None
       | _ :: _ => Some msg
       end.

(** [logging.info(msg, args)]. *)
Definition log_info_args (msg : string) (args : dict Series) : io unit :=
  match log_text msg args with
  | Some text => emit (LogInfo text)
  | None => mret ()
  end.

(** The [for event, elements_data in data_dict.items()] loop of [main]; the
    [debug] record is below the configured level. *)
Fixpoint assemble_loop (items : dict (dict Series)) (arrays : list DataArray)
    : io (list DataArray) :=
  match items with
  | [] => mret arrays
  | (event, elements_data) :: rest =>
      _ ← log_info_args event elements_data;
      arr ← call (event_array w event elements_data);
      assemble_loop rest (arrays ++ [arr])
  end.

(** [xr.Dataset({name: da}, attrs=metadata)]: the dict display raises
    [TypeError] for a list, which is not hashable. *)
Definition new_dataset (name : pyval) (da : DataArray) : io Dataset :=
  match name with
  | PEmptyList => raise (TypeError_unhashable name)
  | _ => call (xr_dataset w name da)
  end.

(** The tail of [main] that both branches of [if use_custom_parser] reach
    (from "Write collected data to zarr using xarray" to the final
    [return]). *)
Definition write_dataset (c_part_variable group_id sub_group_name dss_input_key : pyval)
    (zarr_output : string) (data_dict : dict (dict Series)) : io (option main_result) :=
  arrays ← assemble_loop data_dict [];
  (* create data array *)
  da ← call (xr_concat w arrays);
  (* add data array to a dataset *)
  ds ← new_dataset c_part_variable da;
  (* add dataset to datatree *)
  _ ← call (new_node w sub_group_name);
  let dt :=
    Node group_id {| data_vars := []; attrs := [] |}
      [Node group_id {| data_vars := []; attrs := [] |}
         [Node sub_group_name ds []]] in
  _ ← emit (LogInfo ("finished reading dss file: " +:+ py_str dss_input_key));
  (* write datatree to s3 *)
  _ ← emit (LogInfo ("started writing " +:+ zarr_output));
  _ ← emit (ToZarr zarr_output dt "a");
  _ ← call (to_zarr w zarr_output dt);
  _ ← emit (LogInfo ("finished writing " +:+ zarr_output));
  mret (Some {| zarr_s3_key := zarr_output; success := []; failures := [] |}).

(** [main(params)]; [None] stands for the bare [return]. *)
Definition main (params : gmap string pyval) : io (option main_result) :=
  (* Required *)
  let dss_input_bucket := default (PStr "") (params !! "dss_input_bucket") in
  let dss_input_key := default (PStr "") (params !! "dss_input_key") in
  let zarr_output_bucket := default (PStr "") (params !! "zarr_output_bucket") in
  let zarr_output_prefix := default PEmptyList (params !! "zarr_output_prefix") in
  (* Optional *)
  let c_part_variable := default (PStr "FLOW") (params !! "simplify") in
  let group_id := default (PStr "main_group") (params !! "group_id") in
  let use_custom_parser := default (PBool false) (params !! "use_custom_parser") in
  let sub_group_name := default (PStr "sub_group") (params !! "sub_group_name") in
  b_in ← getitem params "dss_input_bucket";
  b_out ← getitem params "zarr_output_bucket";
  if negb (bool_decide (b_in = b_out)) then raise NotImplementedError_multi_bucket
  else if negb (bool_decide ("AWS_ACCESS_KEY_ID" ∈ dom (environ w)))
  then raise (ValueError_env "AWS_ACCESS_KEY_ID")
  else if negb (bool_decide ("AWS_SECRET_ACCESS_KEY" ∈ dom (environ w)))
  then raise (ValueError_env "AWS_SECRET_ACCESS_KEY")
  else
  try_except (check_file_exists dss_input_bucket dss_input_key)
    [CValueError; CKeyError]
    (fun e => _ ← emit (LogError e); mret None)
    (fun _ =>
  (* construct output key *)
  let zarr_output := "s3://" +:+ py_str zarr_output_bucket +:+ "/" +:+ py_str zarr_output_prefix in
  (* construct pathname pattern *)
  let dss_internal_pathname_pattern := "/*/*/" +:+ py_str c_part_variable +:+ "/*/*/*/" in
  let dss_key := "s3://" +:+ py_str dss_input_bucket +:+ "/" +:+ py_str dss_input_key in
  (* initiate datatree *)
  _ ← call (new_node w group_id);
  _ ← call (new_node w group_id);
  _ ← emit (LogInfo ("reading from dss file: " +:+ py_str dss_input_key));
  _ ← emit (LogInfo ("looking for " +:+ py_str dss_input_bucket +:+ "/" +:+ py_str dss_input_key));
  if truthy use_custom_parser then
    try_except
      (extract_data_from_dss dss_key dss_internal_pathname_pattern
         sub_group_name (Some custom_f_part_parser))
      [CValueError]
      (fun e => _ ← emit (LogError e); mret None)
      (write_dataset c_part_variable group_id sub_group_name dss_input_key zarr_output)
  else
    data_dict ← extract_data_from_dss dss_key dss_internal_pathname_pattern PNone None;
    write_dataset c_part_variable group_id sub_group_name dss_input_key zarr_output
      data_dict).

End World.

Arguments Build_Dataset {_} _ _.
Arguments data_vars {_} _.
Arguments attrs {_} _.
Arguments Node {_} _ _ _.
Arguments LogError {_} _.
Arguments LogInfo {_} _.
Arguments HeadObject {_} _ _.
Arguments FsGet {_} _.
Arguments GetPathnameList {_} _.
Arguments ReadTs {_} _.
Arguments ToZarr {_} _ _ _.
Arguments environ {_ _} _.
Arguments head_object_ok {_ _} _ _ _.
Arguments fs_get {_ _} _ _.
Arguments getPathnameList {_ _} _ _ _.
Arguments read_ts {_ _} _ _ _.
Arguments new_node {_ _} _ _.
Arguments event_array {_ _} _ _ _.
Arguments percent_format {_ _} _ _ _.
Arguments xr_concat {_ _} _ _.
Arguments xr_dataset {_ _} _ _ _.
Arguments to_zarr {_ _} _ _ _.
Arguments IO {_ _} _ _.
Arguments result {_ _} _.
Arguments trace {_ _} _.
Arguments lift {_ _} _.
Arguments call {_ _} _.
Arguments raise {_ _} _.
Arguments emit {_} _.
Arguments try_except {_ _ _} _ _ _ _.
Arguments check_file_exists {_ _} _ _ _.
Arguments read_dss_data {_ _} _ _ _.
Arguments extract_loop {_ _} _ _ _ _ _ _.
Arguments extract_data_from_dss {_ _ _} _ _ _ _ _.
Arguments getitem {_} _ _.
Arguments log_text {_ _} _ _ _.
Arguments log_info_args {_ _} _ _ _.
Arguments assemble_loop {_ _} _ _ _.
Arguments new_dataset {_ _} _ _ _.
Arguments write_dataset {_ _} _ _ _ _ _ _ _.
Arguments main {_ _ _} _ _.

(** ** Vocabulary of the statements *)

(** Every space of [s] turned into an underscore, character by character. *)
Fixpoint underscore_spaces (s : string) : string :=
  match s with
  | EmptyString => EmptyString
  | String a s' =>
      String (if Ascii.eqb a " "%char then "_"%char else a) (underscore_spaces s')
  end.

(** The fields joined by [/]. *)
Fixpoint join_slash (fields : list string) : string :=
  match fields with
  | [] => EmptyString
  | f :: fields' =>
      match fields' with
      | [] => f
      | _ :: _ => f +:+ String ch_slash (join_slash fields')
      end
  end.

(** The pathname [/f1/f2/.../fn] with the given fields. *)
Definition pathname_of_fields (fields : list string) : string :=
  String ch_slash (join_slash fields).

(** Number of occurrences of [c] in [s]. *)
Fixpoint count_char (c : ascii) (s : string) : nat :=
  match s with
  | EmptyString => 0
  | String a s' => (if Ascii.eqb a c then 1 else 0) + count_char c s'
  end.

(** The run-identifier field with the literal prefix [RUN:] stripped, as
    the specification words it; [custom_f_part_parser] uses [lstrip]. *)
Definition prefix_stripped (f_part : string) : string :=
  if String.prefix "RUN:" f_part then drop_chars 4 f_part else f_part.

(** Two pathnames are the same in every field but D (segment 4). *)
Definition same_but_part_d (p q : string) : Prop :=
  <[4 := ""]> (split ch_slash p) = <[4 := ""]> (split ch_slash q).

(** The (Event Key, Element Key) pair one pathname resolves to in the loop of
    [extract_data_from_dss]. *)
Definition resolve (parser_string_part : pyval)
    (custom_parser : option (string -> pyval -> outcome string))
    (pathname : string) : outcome (string * string) :=
  f_part ← get_path_part pathname "F";
  b_part ← get_path_part pathname "B";
  new_entry ← match custom_parser with
              | Some parser => parser f_part parser_string_part
              | None => Returns f_part
              end;
  Returns (new_entry, b_part).

(** Names of the leaves of a tree. *)
Fixpoint leaf_names {DataArray} (t : DataTree DataArray) : list pyval :=
  match t with
  | Node name _ children =>
      match children with
      | [] => [name]
      | _ :: _ => concat (map leaf_names children)
      end
  end.

(** Names of the data variables stored in the leaves of a tree. *)
Fixpoint leaf_variables {DataArray} (t : DataTree DataArray) : list pyval :=
  match t with
  | Node _ data children =>
      match children with
      | [] => (data_vars data).*1
      | _ :: _ => concat (map leaf_variables children)
      end
  end.

(** ** Concrete inputs used by the examples *)

(** The pathname of the docstring of [get_path_part]. *)
Definition docstring_pathname : string :=
  "//Alderson/FLOW/14Jan1996 - 07Feb1996/1Hour/RUN:Jan 1996 - Calibration/".

(** Two records of one gage that differ in their D part only; the text of
    the first one's D part also occurs in the F part. *)
Definition january_pathname : string := "/BASIN/GAGE/FLOW/01JAN2000/1DAY/RUN:01JAN2000/".
Definition february_pathname : string := "/BASIN/GAGE/FLOW/01FEB2000/1DAY/RUN:01JAN2000/".

(** Two records of two basins with the same element (B) and run (F) parts. *)
Definition north_pathname : string := "/NORTH/GAGE/FLOW/01JAN2000/1DAY/RUN:Y001-E0001/".
Definition south_pathname : string := "/SOUTHWEST/GAGE/FLOW/01JAN2000/1DAY/RUN:Y001-E0001/".

Definition demo_environ : gmap string string :=
  <["AWS_ACCESS_KEY_ID" := "id"]> (<["AWS_SECRET_ACCESS_KEY" := "secret"]> ∅).

(** A world in which every call succeeds: the container lists [names], a
    series is the one-element list holding the length of its pathname,
    arrays are kept as the nested dicts they are built from and a dataset
    holds its array under the name given, unless that is the name of a
    dimension; the log handler loses every record whose message holds a
    [%]. *)
Definition demo_world (names : list string)
    : World (list nat) (dict (dict (list nat))) :=
  {| environ := demo_environ;
     head_object_ok := fun _ _ => true;
     fs_get := fun _ => Answer ();
     getPathnameList := fun _ _ => Answer names;
     read_ts := fun _ pathname => Answer [String.length pathname];
     new_node := fun _ => Answer ();
     event_array := fun event elements_data => Answer [(event, elements_data)];
     percent_format := fun _ _ => None;
     xr_concat := fun arrays => Answer (concat arrays);
     xr_dataset := fun name da =>
       if bool_decide (name ∈ [PStr "event"; PStr "element"; PStr "time_index"])
       then Answer {| data_vars := []; attrs := [] |}
       else Answer {| data_vars := [(name, da)]; attrs := [] |};
     to_zarr := fun _ _ => Answer () |}.

(** The invocation of the [__main__] block, with the commented options. *)
Definition demo_params : gmap string pyval :=
  <["dss_input_bucket" := PStr "wy-ble"]>
    (<["dss_input_key" := PStr "realizations/realization-1/hms_output/Y001/HUC14040102/Y001.dss"]>
       (<["zarr_output_bucket" := PStr "wy-ble"]>
          (<["zarr_output_prefix" := PStr "realizations/realization-1/post_processing/test22.zarr"]> ∅))).

(** The patterns handed to [getPathnameList] in a trace. *)
Definition patterns_listed {DataArray} (t : list (event DataArray)) : list string :=
  omap (fun ev => match ev with GetPathnameList pattern => Some pattern | _ => None end) t.

(** The names of the data variables written by [to_zarr] in a trace. *)
Definition variables_written {DataArray} (t : list (event DataArray)) : list pyval :=
  concat (omap (fun ev => match ev with
                          | ToZarr _ tree _ => Some (leaf_variables tree)
                          | _ => None
                          end) t).

(** The invocation of [demo_params] in custom mode for the year [Y001]. *)
Definition custom_params : gmap string pyval :=
  <["use_custom_parser" := PBool true]> (<["sub_group_name" := PStr "Y001"]> demo_params).

(** The invocation of [demo_params] with the variable option set. *)
Definition stage_params : gmap string pyval :=
  <["c_part_variable" := PStr "STAGE"]> demo_params.


(** The events of reading a series. *)
Definition is_read {DataArray} (ev : event DataArray) : Prop :=
  match ev with ReadTs _ => True | _ => False end.

(** ** utils/aws_tools.py: listing keys *)

(** A response of [list_objects_v2], as far as [list_keys] reads it: the
    entries [Contents] (a list of objects, each the dict that describes it)
    and [NextContinuationToken], either of which may be missing. *)
Record response := {
  Contents : option (list (gmap string string));
  NextContinuationToken : option string;
}.

(** [d[k]] on a dict; a missing key is the [KeyError] of a subscript. *)
Definition subscript (d : gmap string string) (k : string) : outcome string :=
  match d !! k with
  | Some v => Returns v
  | None => Raises (KeyError_param k)
  end.

(** [[obj["Key"] for obj in contents if obj["Key"].endswith(suffix)]]. *)
Fixpoint matching_keys (suffix : string) (contents : list (gmap string string))
    : outcome (list string) :=
  match contents with
  | [] => Returns []
  | obj :: rest =>
      tested ← subscript obj "Key";
      if endswith tested suffix then
        key ← subscript obj "Key";
        keys ← matching_keys suffix rest;
        Returns (key :: keys)
      else matching_keys suffix rest
  end.

(** [resp["Contents"]]. *)
Definition contents_of (resp : response) : outcome (list (gmap string string)) :=
  match Contents resp with
  | Some contents => Returns contents
  | None => Raises (KeyError_param "Contents")
  end.

Section ListKeys.

(** [s3_client.list_objects_v2(Bucket=bucket, Prefix=prefix)], with
    [ContinuationToken=token] when [kwargs] holds one. *)
Variable list_objects_v2 : string -> string -> option string -> answer response.

(** The [while True] loop of [list_keys], run for at most [fuel] requests;
    [None] when it has not ended by then.  [token] is the
    [ContinuationToken] entry of [kwargs]. *)
Fixpoint list_keys_loop (fuel : nat) (bucket prefix suffix : string)
    (token : option string) (keys : list string) : option (outcome (list string)) :=
  match fuel with
  | O => None
  | S fuel' =>
      match list_objects_v2 bucket prefix token with
      | Fault c msg => Some (Raises (External c msg))
      | Answer resp =>
          match contents ← contents_of resp; matching_keys suffix contents with
          | Raises e => Some (Raises e)
          | Returns new =>
              match NextContinuationToken resp with
              | Some next => list_keys_loop fuel' bucket prefix suffix (Some next) (keys ++ new)
              | None => Some (Returns (keys ++ new))
              end
          end
      end
  end.

(** [list_keys(s3_client, bucket, prefix, suffix)]. *)
Definition list_keys (fuel : nat) (bucket prefix suffix : string)
    : option (outcome (list string)) :=
  list_keys_loop fuel bucket prefix suffix None [].

(** The pages served from [token] on: each response answers the request
    that carries the token of the one before, and the last one has none. *)
Inductive walk (bucket prefix : string) : option string -> list response -> Prop :=
| walk_last token resp :
    list_objects_v2 bucket prefix token = Answer resp ->
    NextContinuationToken resp = None ->
    walk bucket prefix token [resp]
| walk_next token resp next rest :
    list_objects_v2 bucket prefix token = Answer resp ->
    NextContinuationToken resp = Some next ->
    walk bucket prefix (Some next) rest ->
    walk bucket prefix token (resp :: rest).

End ListKeys.

(** ** Vocabulary of the further properties *)

(** The members of [xs] in the order of their first occurrence. *)
Fixpoint first_seen (xs : list string) : list string :=
  match xs with
  | [] => []
  | x :: xs' => x :: filter (fun y => y <> x) (first_seen xs')
  end.

(** [acc] with [key] appended unless it is there already. *)
Definition add_key (acc : list string) (key : string) : list string :=
  if bool_decide (key ∈ acc) then acc else acc ++ [key].

(** The event keys the pathnames resolve to, in order. *)
Definition events_resolved (psp : pyval)
    (custom : option (string -> pyval -> outcome string))
    (pathnames : list string) : list string :=
  omap (fun p => match resolve psp custom p with
                 | Returns (event, _) => Some event
                 | Raises _ => None
                 end) pathnames.

(** The element keys of the pathnames that resolve to [event], in order. *)
Definition elements_resolved (psp : pyval)
    (custom : option (string -> pyval -> outcome string))
    (event : string) (pathnames : list string) : list string :=
  omap (fun p => match resolve psp custom p with
                 | Returns (event', element) =>
                     if bool_decide (event' = event) then Some element else None
                 | Raises _ => None
                 end) pathnames.

(** Every round of the loop of [extract_data_from_dss] over [pathnames]
    succeeds: the pathname resolves to a pair of keys and its series is
    read. *)
Definition all_rounds_succeed {Series DataArray} (w : World Series DataArray)
    (dss_key : string) (psp : pyval)
    (custom : option (string -> pyval -> outcome string))
    (pathnames : list string) : Prop :=
  forall p, p ∈ pathnames ->
    exists k v, resolve psp custom p = Returns k /\ read_ts w dss_key p = Answer v.

(** The events of writing to the destination. *)
Definition is_write {DataArray} (ev : event DataArray) : Prop :=
  match ev with ToZarr _ _ _ => True | _ => False end.

(** The keys of the objects of a list of pages, in order. *)
Definition keys_of_pages (resps : list response) : list string :=
  resp ← resps; omap (fun obj : gmap string string => obj !! "Key") (default [] (Contents resp)).

(** Every page has its [Contents] and every object its [Key]. *)
Definition well_formed (resp : response) : Prop :=
  exists contents,
    Contents resp = Some contents /\
    Forall (fun obj : gmap string string => is_Some (obj !! "Key")) contents.

(** ** Further concrete inputs *)

(** A world like [demo_world] in which the object store refuses
    [head_object]. *)
Definition denied_world (names : list string)
    : World (list nat) (dict (dict (list nat))) :=
  {| environ := demo_environ;
     head_object_ok := fun _ _ => false;
     fs_get := fun _ => Answer ();
     getPathnameList := fun _ _ => Answer names;
     read_ts := fun _ pathname => Answer [String.length pathname];
     new_node := fun _ => Answer ();
     event_array := fun event elements_data => Answer [(event, elements_data)];
     percent_format := fun _ _ => None;
     xr_concat := fun arrays => Answer (concat arrays);
     xr_dataset := fun name da =>
       if bool_decide (name ∈ [PStr "event"; PStr "element"; PStr "time_index"])
       then Answer {| data_vars := []; attrs := [] |}
       else Answer {| data_vars := [(name, da)]; attrs := [] |};
     to_zarr := fun _ _ => Answer () |}.

(** A bucket served in two pages, and one that holds nothing under the
    prefix. *)
Definition two_pages (bucket prefix : string) (token : option string) : answer response :=
  match token with
  | None =>
      Answer {| Contents := Some [{["Key" := "runs/Y001.dss"]}; {["Key" := "runs/notes.txt"]}];
                NextContinuationToken := Some "page-2" |}
  | Some _ =>
      Answer {| Contents := Some [{["Key" := "runs/Y002.dss"]}];
                NextContinuationToken := None |}
  end.

Definition nothing_listed (bucket prefix : string) (token : option string) : answer response :=
  Answer {| Contents := None; NextContinuationToken := None |}.

(** A service that hands out a token with every page. *)
Definition endless (bucket prefix : string) (token : option string) : answer response :=
  Answer {| Contents := Some [{["Key" := prefix +:+ "Y001.dss"]}];
            NextContinuationToken := Some "more" |}.

(** * Facts about the embedding *)

#[local] Arguments String.append : simpl nomatch.
#[local] Arguments replace : simpl never.

(** ** Characters and segments *)

Lemma ascii_eqb_sym (a b : ascii) : Ascii.eqb a b = Ascii.eqb b a.
Proof.
  destruct (Ascii.eqb_spec a b) as [->|Hne].
  - by rewrite Ascii.eqb_refl.
  - symmetry. apply Ascii.eqb_neq. congruence.
Qed.

Lemma string_app_assoc (s1 s2 s3 : string) : (s1 +:+ s2) +:+ s3 = s1 +:+ (s2 +:+ s3).
Proof. induction s1 as [|a s1 IH]; simpl; [done | by rewrite IH]. Qed.

Lemma string_app_nil_r (s : string) : s +:+ "" = s.
Proof. induction s as [|a s IH]; simpl; [done | by rewrite IH]. Qed.

Lemma in_chars_app c s1 s2 : in_chars c (s1 +:+ s2) = in_chars c s1 || in_chars c s2.
Proof.
  induction s1 as [|a s1 IH]; simpl; [done|].
  rewrite IH. by rewrite orb_assoc.
Qed.

Lemma split_nonempty c s : split c s <> [].
Proof.
  destruct s as [|a s]; simpl; [done|].
  destruct (Ascii.eqb a c); [done|]. by destruct (split c s).
Qed.

Lemma split_cons c s : exists seg segs, split c s = seg :: segs.
Proof.
  destruct (split c s) as [|seg segs] eqn:E.
  - by apply split_nonempty in E.
  - eauto.
Qed.

Lemma split_sep_cons c s : split c (String c s) = "" :: split c s.
Proof. simpl. by rewrite Ascii.eqb_refl. Qed.

Lemma split_no_sep c s : in_chars c s = false -> split c s = [s].
Proof.
  induction s as [|a s IH]; simpl; [done|].
  intros [Ha Hs]%orb_false_elim.
  rewrite ascii_eqb_sym, Ha. by rewrite IH.
Qed.

Lemma split_app_head c u s seg segs :
  in_chars c u = false -> split c s = seg :: segs ->
  split c (u +:+ s) = (u +:+ seg) :: segs.
Proof.
  intros Hu Hs. induction u as [|a u IH]; simpl in *; [done|].
  apply orb_false_elim in Hu as [Ha Hu].
  rewrite ascii_eqb_sym, Ha. by rewrite IH.
Qed.

Lemma split_app_sep c s1 s2 :
  in_chars c s1 = false -> split c (s1 +:+ String c s2) = s1 :: split c s2.
Proof.
  intros Hs1.
  rewrite (split_app_head c s1 (String c s2) "" (split c s2)); [|done|].
  - by rewrite string_app_nil_r.
  - simpl. by rewrite Ascii.eqb_refl.
Qed.

Lemma split_segment_no_sep c s seg : seg ∈ split c s -> in_chars c seg = false.
Proof.
  revert seg. induction s as [|a s IH]; simpl; intros seg.
  - intros ->%list_elem_of_singleton. done.
  - destruct (Ascii.eqb a c) eqn:Ha.
    + intros [->|Hin]%elem_of_cons; [done | by apply IH].
    + destruct (split_cons c s) as (h & t & E). rewrite E in *.
      intros [->|Hin]%elem_of_cons.
      * simpl. rewrite ascii_eqb_sym, Ha. apply IH. left.
      * apply IH. by right.
Qed.

Lemma split_head_prefix c s seg segs :
  split c s = seg :: segs -> exists r, s = seg +:+ r.
Proof.
  revert seg segs. induction s as [|a s IH]; simpl; intros seg segs.
  - intros [= <- <-]. by exists "".
  - destruct (Ascii.eqb a c).
    + intros [= <- <-]. by eexists.
    + destruct (split_cons c s) as (h & t & E). rewrite E.
      intros [= <- <-]. destruct (IH _ _ E) as [r ->]. by exists r.
Qed.

Lemma length_split c s : length (split c s) = S (count_char c s).
Proof.
  induction s as [|a s IH]; simpl; [done|].
  destruct (Ascii.eqb a c); simpl; [by rewrite IH|].
  destruct (split_cons c s) as (h & t & E). rewrite E in *. simpl in *. done.
Qed.

Lemma split_join_slash (fields : list string) :
  fields <> [] -> Forall (fun f => in_chars ch_slash f = false) fields ->
  split ch_slash (join_slash fields) = fields.
Proof.
  induction fields as [|f fields IH]; [done|].
  intros _ Hall. apply Forall_cons in Hall as [Hf Hall].
  destruct fields as [|g fields].
  - simpl. by apply split_no_sep.
  - change (join_slash (f :: g :: fields))
      with (f +:+ String ch_slash (join_slash (g :: fields))).
    rewrite split_app_sep by done. by rewrite IH.
Qed.

Lemma split_pathname_of_fields (fields : list string) :
  fields <> [] -> Forall (fun f => in_chars ch_slash f = false) fields ->
  split ch_slash (pathname_of_fields fields) = "" :: fields.
Proof.
  intros Hne Hall. unfold pathname_of_fields.
  rewrite split_sep_cons. by rewrite split_join_slash.
Qed.

Lemma split_singleton c s seg : split c s = [seg] -> s = seg.
Proof.
  revert seg. induction s as [|a s IH]; simpl; intros seg.
  - by intros [= <-].
  - destruct (Ascii.eqb a c).
    + intros [= _ E]. by apply split_nonempty in E.
    + destruct (split_cons c s) as (h & t & E). rewrite E in *.
      intros [= <- ->]. by rewrite (IH h).
Qed.

Lemma last_split_suffix c s :
  exists pre, s = pre +:+ default "" (last (split c s)).
Proof.
  induction s as [|a s [pre IH]]; simpl.
  - by exists "".
  - destruct (split_cons c s) as (h & t & E). rewrite E in *.
    destruct (Ascii.eqb a c).
    + exists (String a pre). simpl. by rewrite <-IH.
    + destruct t as [|h' t].
      * exists "". simpl. by rewrite (split_singleton c s h).
      * exists (String a pre). simpl in *. by rewrite <-IH.
Qed.

(** ** Replacement *)

Lemma string_length_app (s1 s2 : string) :
  String.length (s1 +:+ s2) = String.length s1 + String.length s2.
Proof. induction s1 as [|a s1 IH]; simpl; [done | by rewrite IH]. Qed.

Lemma prefix_app old r : String.prefix old (old +:+ r) = true.
Proof.
  induction old as [|a old IH]; simpl; [by destruct r|].
  by destruct (ascii_dec a a).
Qed.

Lemma prefix_true_app old s : String.prefix old s = true -> exists r, s = old +:+ r.
Proof.
  revert s. induction old as [|a old IH]; intros s.
  - intros _. by exists s.
  - destruct s as [|b s]; simpl; [done|].
    destruct (ascii_dec a b) as [->|]; [|done].
    intros [r ->]%IH. by exists r.
Qed.

Lemma prefix_extend old s r : String.prefix old s = true -> String.prefix old (s +:+ r) = true.
Proof.
  intros [r' ->]%prefix_true_app. rewrite string_app_assoc. apply prefix_app.
Qed.

Lemma replace_from_skip old new u r :
  replace_from old new (String.length u) (u +:+ r) = replace_from old new 0 r.
Proof.
  induction u as [|a u IH]; simpl; [|done].
  destruct r; done.
Qed.

Lemma replace_from_match old new r :
  old <> "" ->
  replace_from old new 0 (old +:+ r) = new +:+ replace_from old new 0 r.
Proof.
  destruct old as [|a old]; [done|]. intros _.
  change (String a old +:+ r) with (String a (old +:+ r)).
  cbn [replace_from].
  change (String a (old +:+ r)) with (String a old +:+ r).
  rewrite prefix_app. cbn [String.length]. rewrite Nat.sub_1_r. cbn [Nat.pred].
  by rewrite replace_from_skip.
Qed.

Lemma replace_from_nomatch old new a s :
  String.prefix old (String a s) = false ->
  replace_from old new 0 (String a s) = String a (replace_from old new 0 s).
Proof. intros Hp. cbn [replace_from]. by rewrite Hp. Qed.

Lemma follow_each_empty s : follow_each "" s = s.
Proof. induction s as [|a s IH]; simpl; [done | by rewrite IH]. Qed.

Lemma replace_empty_empty s : replace "" "" s = s.
Proof. unfold replace. simpl. apply follow_each_empty. Qed.

Lemma replace_self old : replace old "" old = "".
Proof.
  destruct old as [|a old]; [done|]. unfold replace.
  rewrite <-(string_app_nil_r (String a old)) at 2.
  by rewrite replace_from_match.
Qed.

Lemma replace_space_underscore s : replace " " "_" s = underscore_spaces s.
Proof.
  unfold replace. induction s as [|a s IH]; [done|].
  cbn [replace_from underscore_spaces String.prefix].
  destruct (ascii_dec " " a) as [<-|Hne].
  - assert (String.prefix "" s = true) as -> by (by destruct s).
    simpl. by rewrite IH.
  - rewrite IH. apply Ascii.eqb_neq in Hne. rewrite ascii_eqb_sym in Hne. by rewrite Hne.
Qed.

(** Deleting the occurrences of a text that holds no separator works
    segment by segment. *)
Lemma split_replace_from c D s :
  D <> "" -> in_chars c D = false ->
  split c (replace_from D "" 0 s) = map (replace_from D "" 0) (split c s).
Proof.
  intros HD Hc.
  remember (String.length s) as n eqn:Hn.
  revert s Hn. induction (lt_wf n) as [n _ IH]. intros s ->.
  destruct s as [|b s]; [done|].
  destruct (String.prefix D (String b s)) eqn:Hp.
  - apply prefix_true_app in Hp as [r Hr]. rewrite Hr.
    rewrite replace_from_match by done. simpl ("" +:+ _).
    destruct (split_cons c r) as (h & t & E).
    rewrite (split_app_head c D r h t) by done.
    rewrite (IH (String.length r)) with (s := r);
      [|rewrite Hr, string_length_app; destruct D; [done|simpl; lia]|done].
    rewrite E. simpl. f_equal.
    by rewrite replace_from_match.
  - rewrite replace_from_nomatch by done.
    cbn [split]. destruct (Ascii.eqb b c) eqn:Hb.
    + rewrite (IH (String.length s)) with (s := s); [|simpl; lia|done].
      done.
    + rewrite (IH (String.length s)) with (s := s); [|simpl; lia|done].
      destruct (split_cons c s) as (h & t & E). rewrite E. cbn [map]. f_equal.
      rewrite replace_from_nomatch; [done|].
      destruct (String.prefix D (String b h)) eqn:Hp'; [|done].
      apply split_head_prefix in E as [r ->].
      apply (prefix_extend _ _ r) in Hp'.
      change (String b h +:+ r) with (String b (h +:+ r)) in Hp'. congruence.
Qed.

(** ** Stripping *)

Lemma lstrip_length chars s : String.length (lstrip chars s) <= String.length s.
Proof.
  induction s as [|a s IH]; simpl; [done|].
  destruct (in_chars a chars); simpl; lia.
Qed.

Lemma lstrip_fixed_head chars a s :
  lstrip chars (String a s) = String a s -> in_chars a chars = false.
Proof.
  simpl. destruct (in_chars a chars); [|done].
  intros E. pose proof (lstrip_length chars s) as Hl.
  rewrite E in Hl. simpl in Hl. lia.
Qed.

Lemma lstrip_app_stop chars c s rest :
  in_chars c chars = false ->
  lstrip chars (s +:+ String c rest) = lstrip chars s +:+ String c rest.
Proof.
  intros Hc. induction s as [|a s IH]; simpl.
  - by rewrite Hc.
  - by destruct (in_chars a chars).
Qed.

Lemma count_char_lstrip chars c s :
  in_chars c chars = false -> count_char c (lstrip chars s) = count_char c s.
Proof.
  intros Hc. induction s as [|a s IH]; simpl; [done|].
  destruct (in_chars a chars) eqn:Ha; [|done].
  rewrite IH. destruct (Ascii.eqb_spec a c) as [->|]; [congruence | done].
Qed.

Lemma in_chars_lstrip chars c s :
  in_chars c s = false -> in_chars c (lstrip chars s) = false.
Proof.
  induction s as [|a s IH]; [done|]. intros Hs. cbn [lstrip].
  destruct (in_chars a chars); [|done].
  apply IH. cbn [in_chars] in Hs. by apply orb_false_elim in Hs as [_ ?].
Qed.

(** ** The custom resolver *)

(** For an F part [RUN:<context>-<suffix>] the resolver compares the expected
    context with what [lstrip] leaves of [<context>]. *)
Lemma custom_f_part_parser_prefixed (context suffix : string) (string_part : pyval) :
  in_chars ch_dash context = false -> in_chars ch_dash suffix = false ->
  custom_f_part_parser ("RUN:" +:+ context +:+ String ch_dash suffix) string_part
  = if bool_decide (string_part = PStr (lstrip "RUN:" context))
    then Returns suffix
    else Raises (ValueError_year (lstrip "RUN:" context) string_part).
Proof.
  intros Hctx Hsuf. unfold custom_f_part_parser.
  assert (lstrip "RUN:" ("RUN:" +:+ context +:+ String ch_dash suffix)
          = lstrip "RUN:" context +:+ String ch_dash suffix) as ->.
  { change ("RUN:" +:+ context +:+ String ch_dash suffix)
      with (String "R" (String "U" (String "N" (String ":" (context +:+ String ch_dash suffix))))).
    cbn [lstrip in_chars Ascii.eqb Bool.eqb orb].
    by apply lstrip_app_stop. }
  rewrite split_app_sep.
  - rewrite (split_no_sep _ suffix) by done. simpl.
    by destruct (bool_decide _).
  - by apply in_chars_lstrip.
Qed.

(** When the context does not start with one of [R], [U], [N], [:], the
    resolver returns the suffix. *)
Lemma custom_f_part_parser_returns (context suffix : string) :
  in_chars ch_dash context = false -> in_chars ch_dash suffix = false ->
  lstrip "RUN:" context = context ->
  custom_f_part_parser ("RUN:" +:+ context +:+ String ch_dash suffix) (PStr context)
  = Returns suffix.
Proof.
  intros Hctx Hsuf Hfix. rewrite custom_f_part_parser_prefixed by done.
  rewrite Hfix. by rewrite bool_decide_eq_true_2.
Qed.

(** ** Fields of a pathname *)

Lemma path_parts_lookup i part :
  path_parts !! i = Some part ->
  bool_decide (part ∈ path_parts) = true /\ list_index part path_parts = Some i.
Proof.
  intros Hi. do 8 (destruct i as [|i]; [simplify_eq/=; by vm_compute|]). done.
Qed.

Lemma get_path_part_segment pathname part i :
  path_parts !! i = Some part ->
  get_path_part pathname part
  = seg ← py_index (split ch_slash pathname) (i + 1); Returns (replace " " "_" seg).
Proof.
  intros [Hin Hidx]%path_parts_lookup. unfold get_path_part.
  by rewrite Hin, Hidx.
Qed.

(** ** Removing part D *)

Lemma remove_part_d_idem pathname stem :
  remove_part_d pathname = Returns stem -> remove_part_d stem = Returns stem.
Proof.
  unfold remove_part_d, py_index.
  destruct (split ch_slash pathname !! 4) as [d|] eqn:Hd; [|done].
  simpl. intros [= <-].
  destruct d as [|a d].
  - rewrite replace_empty_empty, Hd. simpl. by rewrite replace_empty_empty.
  - assert (in_chars ch_slash (String a d) = false) as Hc.
    { eapply split_segment_no_sep, list_elem_of_lookup_2, Hd. }
    change (replace (String a d) "" pathname)
      with (replace_from (String a d) "" 0 pathname).
    rewrite split_replace_from by done.
    rewrite list_lookup_fmap, Hd. cbn -[replace_from replace].
    change (replace_from (String a d) "" 0 (String a d))
      with (replace (String a d) "" (String a d)).
    rewrite replace_self. by rewrite replace_empty_empty.
Qed.

Lemma no_part_d_pathnames_Forall2 pathnames stems :
  no_part_d_pathnames pathnames = Returns stems <->
  Forall2 (fun p s => remove_part_d p = Returns s) pathnames stems.
Proof.
  revert stems. induction pathnames as [|p ps IH]; intros stems; simpl.
  - split; [intros [= <-]; constructor | by intros ->%Forall2_nil_inv_l].
  - split.
    + destruct (remove_part_d p) as [s|] eqn:Hs; [|done]. simpl.
      destruct (no_part_d_pathnames ps) as [ss|] eqn:Hss; [|done]. simpl.
      intros [= <-]. constructor; [done | by apply IH].
    + intros (s & ss & Hs & Hss & ->)%Forall2_cons_inv_l.
      apply IH in Hss. rewrite Hs. simpl. by rewrite Hss.
Qed.

Lemma no_part_d_pathnames_fixed stems :
  Forall (fun s => remove_part_d s = Returns s) stems ->
  no_part_d_pathnames stems = Returns stems.
Proof.
  intros Hall. apply no_part_d_pathnames_Forall2.
  induction Hall; by constructor.
Qed.

Lemma no_part_d_pathnames_total pathnames :
  Forall (fun p => 5 <= length (split ch_slash p)) pathnames ->
  exists stems, no_part_d_pathnames pathnames = Returns stems.
Proof.
  induction 1 as [|p ps Hp _ [stems IH]]; simpl; [by eexists|].
  unfold remove_part_d, py_index.
  destruct (lookup_lt_is_Some_2 (split ch_slash p) 4) as [d ->]; [lia|].
  simpl. rewrite IH. simpl. by eexists.
Qed.

(** ** Dicts *)

Section DictFacts.
Context {V : Type}.
Implicit Types (d : dict V) (k : string) (v : V).

Lemma dict_get_set_eq k v d : dict_get k (dict_set k v d) = Some v.
Proof.
  induction d as [|[k' v'] d IH]; simpl.
  - by rewrite String.eqb_refl.
  - destruct (String.eqb k k') eqn:E; simpl; rewrite ?String.eqb_refl, ?E; done.
Qed.

Lemma dict_get_set_ne k k' v d : k <> k' -> dict_get k' (dict_set k v d) = dict_get k' d.
Proof.
  intros Hne. induction d as [|[k0 v0] d IH]; simpl.
  - apply String.eqb_neq in Hne. rewrite String.eqb_sym in Hne. by rewrite Hne.
  - destruct (String.eqb_spec k k0) as [->|Hk]; simpl.
    + destruct (String.eqb_spec k' k0) as [->|]; [done|done].
    + by rewrite IH.
Qed.

Lemma dict_keys_cons k v d : dict_keys ((k, v) :: d) = k :: dict_keys d.
Proof. done. Qed.

Lemma dict_keys_set k v d :
  dict_keys (dict_set k v d)
  = if bool_decide (k ∈ dict_keys d) then dict_keys d else dict_keys d ++ [k].
Proof.
  induction d as [|[k0 v0] d IH]; [done|]. cbn [dict_set].
  destruct (String.eqb_spec k k0) as [->|Hk]; rewrite !dict_keys_cons.
  - rewrite bool_decide_eq_true_2; [done | left].
  - rewrite IH. case_bool_decide as H1; case_bool_decide as H2; try done.
    + exfalso. apply H2. by right.
    + exfalso. apply elem_of_cons in H2 as [?|?]; done.
Qed.


Lemma dict_get_None k d : k ∉ dict_keys d -> dict_get k d = None.
Proof.
  induction d as [|[k0 v0] d IH]; [done|]. rewrite dict_keys_cons. cbn [dict_get].
  intros Hn. apply not_elem_of_cons in Hn as [Hne Hn].
  apply String.eqb_neq in Hne. rewrite Hne. by apply IH.
Qed.

Lemma dict_get_is_Some k d : k ∈ dict_keys d -> is_Some (dict_get k d).
Proof.
  induction d as [|[k0 v0] d IH].
  - by intros ?%elem_of_nil.
  - rewrite dict_keys_cons. cbn [dict_get].
    destruct (String.eqb_spec k k0) as [->|Hk]; [by eexists|].
    intros [?|?]%elem_of_cons; [done | by apply IH].
Qed.

End DictFacts.

Section StoreFacts.
Context {V : Type}.
Implicit Types (d : dict (dict V)) (v : V).

Lemma store_entry_get_eq event element v d :
  dict_get2 event element (store_entry event element v d) = Some v.
Proof.
  unfold dict_get2, store_entry. rewrite dict_get_set_eq. simpl.
  apply dict_get_set_eq.
Qed.

Lemma store_entry_inner event element v d :
  dict_get event (store_entry event element v d)
  = Some (dict_set element v (default [] (dict_get event d))).
Proof.
  unfold store_entry. rewrite dict_get_set_eq. do 2 f_equal.
  case_bool_decide as Hin; simpl; [done|].
  rewrite dict_get_set_eq. by rewrite dict_get_None.
Qed.

Lemma store_entry_other_event event event' element v d :
  event <> event' ->
  dict_get event' (store_entry event element v d) = dict_get event' d.
Proof.
  intros Hne. unfold store_entry. rewrite dict_get_set_ne by done.
  case_bool_decide; simpl; [done|]. by rewrite dict_get_set_ne.
Qed.

Lemma store_entry_get_ne event element event' element' v d :
  (event, element) <> (event', element') ->
  dict_get2 event' element' (store_entry event element v d)
  = dict_get2 event' element' d.
Proof.
  intros Hne. unfold dict_get2.
  destruct (decide (event = event')) as [<-|Hev].
  - rewrite store_entry_inner. simpl.
    rewrite dict_get_set_ne by congruence.
    by destruct (dict_get event d).
  - by rewrite store_entry_other_event.
Qed.


End StoreFacts.


(** ** Computations *)

Section Driver.
Context {Series DataArray : Type} {order : SetOrder}.
Variable w : World Series DataArray.

Lemma result_bind {A B} (m : io DataArray A) (k : A -> io DataArray B) :
  result (m ≫= k)
  = match result m with Returns a => result (k a) | Raises e => Raises e end.
Proof. unfold mbind, io_bind. by destruct (result m). Qed.

Lemma trace_bind {A B} (m : io DataArray A) (k : A -> io DataArray B) :
  trace (m ≫= k)
  = match result m with Returns a => trace m ++ trace (k a) | Raises _ => trace m end.
Proof. unfold mbind, io_bind. by destruct (result m). Qed.

Lemma resolve_inv psp custom pathname event element :
  resolve psp custom pathname = Returns (event, element) ->
  exists f_part,
    get_path_part pathname "F" = Returns f_part /\
    get_path_part pathname "B" = Returns element /\
    match custom with
    | Some parser => parser f_part psp
    | None => Returns f_part
    end = Returns event.
Proof.
  unfold resolve.
  destruct (get_path_part pathname "F") as [f|] eqn:Hf; [|done].
  destruct (get_path_part pathname "B") as [b|] eqn:Hb; [|done].
  cbn [mbind outcome_bind].
  destruct (match custom with Some parser => parser f psp | None => Returns f end)
    as [e|] eqn:He; [|done].
  cbn [mbind outcome_bind]. intros [= <- <-]. eauto.
Qed.

(** One successful round of the loop stores its series and goes on. *)
Lemma extract_loop_step dss_key psp custom pathname rest d event element v :
  resolve psp custom pathname = Returns (event, element) ->
  read_ts w dss_key pathname = Answer v ->
  result (extract_loop w dss_key psp custom (pathname :: rest) d)
  = result (extract_loop w dss_key psp custom rest (store_entry event element v d)).
Proof.
  intros (f & Hf & Hb & He)%resolve_inv Hv.
  cbn [extract_loop]. rewrite Hf, Hb.
  rewrite !result_bind. cbn [lift result].
  rewrite !result_bind. cbn [lift result].
  unfold read_dss_data. rewrite !result_bind. cbn [emit result].
  rewrite Hv. cbn [call lift of_answer result].
  rewrite !result_bind.
  destruct custom as [parser|]; cbn [lift result mret io_ret]; [by rewrite He|].
  by injection He as ->.
Qed.


End Driver.

Section Driver2.
Context {Series DataArray : Type} {order : SetOrder}.
Variable w : World Series DataArray.
Implicit Types (ev : event DataArray).

Lemma result_bind_Returns {A B} (m : io DataArray A) (k : A -> io DataArray B) b :
  result (m ≫= k) = Returns b ->
  exists a, result m = Returns a /\ result (k a) = Returns b.
Proof. rewrite result_bind. destruct (result m); [eauto | done]. Qed.

Lemma result_bind_Raises {A B} (m : io DataArray A) (k : A -> io DataArray B) e :
  result (m ≫= k) = Raises e ->
  result m = Raises e \/ exists a, result m = Returns a /\ result (k a) = Raises e.
Proof.
  rewrite result_bind. destruct (result m) as [a|e']; [eauto|].
  intros [= ->]. by left.
Qed.

Lemma elem_of_trace_bind {A B} (m : io DataArray A) (k : A -> io DataArray B) ev :
  ev ∈ trace (m ≫= k) ->
  ev ∈ trace m \/ exists a, result m = Returns a /\ ev ∈ trace (k a).
Proof.
  rewrite trace_bind. destruct (result m); [|by left].
  intros [?|?]%elem_of_app; eauto.
Qed.

Lemma result_try_except_Returns {A B} (m : io DataArray A) classes
    (handler : exn -> io DataArray B) (k : A -> io DataArray B) b :
  result (try_except m classes handler k) = Returns b ->
  (exists a, result m = Returns a /\ result (k a) = Returns b) \/
  (exists e, result m = Raises e /\ class_of e ∈ classes /\ result (handler e) = Returns b).
Proof.
  unfold try_except. destruct (result m) as [a|e]; [eauto|].
  case_bool_decide; [eauto 6 | done].
Qed.

Lemma elem_of_trace_try_except {A B} (m : io DataArray A) classes
    (handler : exn -> io DataArray B) (k : A -> io DataArray B) ev :
  ev ∈ trace (try_except m classes handler k) ->
  ev ∈ trace m \/
  (exists a, result m = Returns a /\ ev ∈ trace (k a)) \/
  (exists e, result m = Raises e /\ class_of e ∈ classes /\ ev ∈ trace (handler e)).
Proof.
  unfold try_except. destruct (result m) as [a|e].
  - intros [?|?]%elem_of_app; eauto.
  - case_bool_decide; [|by left].
    intros [?|?]%elem_of_app; eauto 7.
Qed.

(** ** What the parts can raise *)

Lemma get_path_part_Raises pathname part e :
  get_path_part pathname part = Raises e -> e = ValueError_part part \/ e = IndexError.
Proof.
  unfold get_path_part. destruct (negb _); [intros [= <-]; by left|].
  destruct (list_index part path_parts); [|intros [= <-]; by left].
  unfold py_index. destruct (_ !! _); [done|]. intros [= <-]. by right.
Qed.

Lemma custom_f_part_parser_Raises f_part string_part e :
  custom_f_part_parser f_part string_part = Raises e ->
  (exists parts, e = ValueError_parts parts) \/
  (exists part_1, e = ValueError_year part_1 string_part).
Proof.
  unfold custom_f_part_parser.
  destruct (negb _); [intros [= <-]; eauto|].
  destruct (split _ _) as [|p1 [|p2 [|? ?]]]; try (intros [= <-]; eauto).
  destruct (negb _); [intros [= <-]; eauto | done].
Qed.

Lemma no_part_d_pathnames_Raises pathnames e :
  no_part_d_pathnames pathnames = Raises e -> e = IndexError.
Proof.
  induction pathnames as [|p ps IH]; [done|]. cbn [no_part_d_pathnames].
  unfold remove_part_d, py_index.
  destruct (_ !! _); cbn [mbind outcome_bind]; [|by intros [= <-]].
  destruct (no_part_d_pathnames ps); cbn [mbind outcome_bind]; [done|].
  intros [= <-]. by apply IH.
Qed.

(** ** The extraction loop in custom mode *)

Lemma extract_loop_trace dss_key psp custom pathnames d ev :
  ev ∈ trace (extract_loop w dss_key psp custom pathnames d) -> is_read ev.
Proof.
  revert d. induction pathnames as [|p ps IH]; intros d.
  - by intros ?%elem_of_nil.
  - cbn [extract_loop].
    intros [H|(f & _ & H)]%elem_of_trace_bind; [by apply elem_of_nil in H|].
    apply elem_of_trace_bind in H as [H|(b & _ & H)]; [by apply elem_of_nil in H|].
    apply elem_of_trace_bind in H as [H|(v & _ & H)].
    { unfold read_dss_data in H.
      apply elem_of_trace_bind in H as [H|(? & _ & H)].
      - by apply list_elem_of_singleton in H as ->.
      - by apply elem_of_nil in H. }
    apply elem_of_trace_bind in H as [H|(e & _ & H)].
    { destruct custom; by apply elem_of_nil in H. }
    by eapply IH.
Qed.

Lemma extract_loop_Raises_year dss_key psp pathnames d part_1 sp :
  result (extract_loop w dss_key psp (Some custom_f_part_parser) pathnames d)
    = Raises (ValueError_year part_1 sp) ->
  sp = psp.
Proof.
  revert d. induction pathnames as [|p ps IH]; intros d; [done|].
  cbn [extract_loop].
  intros [H|(f & _ & H)]%result_bind_Raises.
  { cbn in H. by apply get_path_part_Raises in H as [?|?]. }
  apply result_bind_Raises in H as [H|(b & _ & H)].
  { cbn in H. by apply get_path_part_Raises in H as [?|?]. }
  apply result_bind_Raises in H as [H|(v & _ & H)].
  { unfold read_dss_data in H. apply result_bind_Raises in H as [H|(? & _ & H)]; [done|].
    cbn in H. by destruct (read_ts _ _ _). }
  apply result_bind_Raises in H as [H|(e & _ & H)].
  { cbn in H. apply custom_f_part_parser_Raises in H as [[? ?]|[? ?]]; congruence. }
  by eapply IH.
Qed.

Lemma extract_loop_Returns dss_key psp custom pathnames d d' :
  result (extract_loop w dss_key psp custom pathnames d) = Returns d' ->
  forall p, p ∈ pathnames ->
    exists f_part event,
      get_path_part p "F" = Returns f_part /\
      match custom with
      | Some parser => parser f_part psp
      | None => Returns f_part
      end = Returns event.
Proof.
  revert d. induction pathnames as [|p ps IH]; intros d; [by intros _ ? ?%elem_of_nil|].
  cbn [extract_loop].
  intros (f & Hf & H)%result_bind_Returns.
  apply result_bind_Returns in H as (b & Hb & H).
  apply result_bind_Returns in H as (v & Hv & H).
  apply result_bind_Returns in H as (e & He & H).
  intros q [->|Hq]%elem_of_cons; [|by eapply IH].
  exists f, e. split; [done|]. destruct custom; cbn in He; [done|].
  by injection He as ->.
Qed.

End Driver2.

Section Driver3.
Context {Series DataArray : Type} {order : SetOrder}.
Variable w : World Series DataArray.
Implicit Types (ev : event DataArray).

Lemma result_call_Returns {A} (r : answer A) (a : A) :
  result (call (DataArray := DataArray) r) = Returns a -> r = Answer a.
Proof. destruct r; cbn; congruence. Qed.

Lemma result_call_Raises {A} (r : answer A) e :
  result (call (DataArray := DataArray) r) = Raises e -> exists c msg, e = External c msg.
Proof. destruct r; cbn; [done|]. intros [= <-]. eauto. Qed.

Lemma check_file_exists_Raises bucket key e :
  result (check_file_exists w bucket key) = Raises e ->
  (exists k, e = ValueError_not_dss k) \/ (exists k b, e = KeyError_no_access k b) \/
  (exists k, e = TypeError_path k).
Proof.
  unfold check_file_exists. destruct key as [|?|k|]; try (intros [= <-]; eauto).
  destruct (negb _); [intros [= <-]; eauto|].
  rewrite result_bind. cbn. destruct (head_object_ok _ _ _); [done|].
  intros [= <-]. eauto.
Qed.

Lemma check_file_exists_trace bucket key ev :
  ev ∈ trace (check_file_exists w bucket key) -> exists b k, ev = HeadObject b k.
Proof.
  unfold check_file_exists. destruct key as [|?|k|]; try by intros ?%elem_of_nil.
  destruct (negb _); [by intros ?%elem_of_nil|].
  intros H. apply elem_of_trace_bind in H as [H|(? & ? & H)].
  - apply list_elem_of_singleton in H. eauto.
  - destruct (head_object_ok _ _ _); by apply elem_of_nil in H.
Qed.

Lemma assemble_loop_trace items arrays ev :
  ev ∈ trace (assemble_loop w items arrays) -> exists msg, ev = LogInfo msg.
Proof.
  revert arrays. induction items as [|[event elements_data] items IH]; intros arrays.
  - by intros ?%elem_of_nil.
  - cbn [assemble_loop]. intros H.
    apply elem_of_trace_bind in H as [H|(? & ? & H)].
    { unfold log_info_args in H. destruct (log_text _ _ _).
      - apply list_elem_of_singleton in H. eauto.
      - by apply elem_of_nil in H. }
    apply elem_of_trace_bind in H as [H|(? & ? & H)].
    { destruct (event_array _ _ _); by apply elem_of_nil in H. }
    by eapply IH.
Qed.

Lemma extract_data_from_dss_trace dss_key pattern psp custom ev :
  ev ∈ trace (extract_data_from_dss w dss_key pattern psp custom) ->
  ev = FsGet dss_key \/ ev = GetPathnameList pattern \/ is_read ev.
Proof.
  unfold extract_data_from_dss. intros H.
  apply elem_of_trace_bind in H as [H|(? & ? & H)].
  { apply list_elem_of_singleton in H. auto. }
  apply elem_of_trace_bind in H as [H|(? & ? & H)].
  { destruct (fs_get _ _); by apply elem_of_nil in H. }
  apply elem_of_trace_bind in H as [H|(? & ? & H)].
  { apply list_elem_of_singleton in H. auto. }
  apply elem_of_trace_bind in H as [H|(? & ? & H)].
  { destruct (getPathnameList _ _ _); by apply elem_of_nil in H. }
  apply elem_of_trace_bind in H as [H|(? & ? & H)].
  { by apply elem_of_nil in H. }
  apply extract_loop_trace in H. auto.
Qed.

Lemma extract_data_from_dss_Raises_year dss_key pattern psp part_1 sp :
  result (extract_data_from_dss w dss_key pattern psp (Some custom_f_part_parser))
    = Raises (ValueError_year part_1 sp) ->
  sp = psp.
Proof.
  unfold extract_data_from_dss.
  intros [H|(? & _ & H)]%result_bind_Raises; [done|].
  apply result_bind_Raises in H as [H|(? & _ & H)].
  { by apply result_call_Raises in H as (? & ? & ?). }
  apply result_bind_Raises in H as [H|(? & _ & H)]; [done|].
  apply result_bind_Raises in H as [H|(names & _ & H)].
  { by apply result_call_Raises in H as (? & ? & ?). }
  apply result_bind_Raises in H as [H|(stems & _ & H)].
  { cbn in H. unfold remove_date in H.
    destruct (no_part_d_pathnames names) eqn:E; [done|].
    apply no_part_d_pathnames_Raises in E. cbn in H. congruence. }
  by eapply extract_loop_Raises_year.
Qed.

Lemma extract_data_from_dss_Returns dss_key pattern psp custom d :
  result (extract_data_from_dss w dss_key pattern psp custom) = Returns d ->
  exists names stems,
    getPathnameList w dss_key pattern = Answer names /\
    remove_date names = Returns stems /\
    forall p, p ∈ stems ->
      exists f_part event,
        get_path_part p "F" = Returns f_part /\
        match custom with
        | Some parser => parser f_part psp
        | None => Returns f_part
        end = Returns event.
Proof.
  unfold extract_data_from_dss.
  intros (? & _ & H)%result_bind_Returns.
  apply result_bind_Returns in H as (? & _ & H).
  apply result_bind_Returns in H as (? & _ & H).
  apply result_bind_Returns in H as (names & Hn%result_call_Returns & H).
  apply result_bind_Returns in H as (stems & Hs & H).
  exists names, stems. split_and!; [done|done|].
  by eapply extract_loop_Returns.
Qed.


End Driver3.

Section Driver4.
Context {Series DataArray : Type} {order : SetOrder}.
Variable w : World Series DataArray.
Implicit Types (ev : event DataArray) (params : gmap string pyval).

Lemma getitem_trace params k : trace (getitem (DataArray := DataArray) params k) = [].
Proof. unfold getitem. by destruct (params !! k). Qed.

(** The tail of [main] logs progress and writes one tree, whose single leaf
    has the given name and holds the dataset made for the given variable. *)
Lemma write_dataset_trace variable group leaf key dest data_dict ev :
  ev ∈ trace (write_dataset w variable group leaf key dest data_dict) ->
  (exists msg, ev = LogInfo msg) \/
  (exists tree, ev = ToZarr dest tree "a" /\
     leaf_names tree = [leaf] /\
     exists da ds, xr_dataset w variable da = Answer ds /\
                   leaf_variables tree = (data_vars ds).*1).
Proof.
  unfold write_dataset. intros H.
  apply elem_of_trace_bind in H as [H|(? & _ & H)].
  { left. by eapply assemble_loop_trace. }
  apply elem_of_trace_bind in H as [H|(da & _ & H)].
  { destruct (xr_concat _ _); by apply elem_of_nil in H. }
  apply elem_of_trace_bind in H as [H|(ds & Hds & H)].
  { unfold new_dataset in H. destruct variable; try by apply elem_of_nil in H.
    all: destruct (xr_dataset _ _ _); by apply elem_of_nil in H. }
  assert (xr_dataset w variable da = Answer ds) as Hmade.
  { unfold new_dataset in Hds.
    destruct variable; first [by apply result_call_Returns in Hds | by cbn in Hds]. }
  apply elem_of_trace_bind in H as [H|(? & _ & H)].
  { destruct (new_node _ _); by apply elem_of_nil in H. }
  apply elem_of_trace_bind in H as [H|(? & _ & H)].
  { apply list_elem_of_singleton in H. eauto. }
  apply elem_of_trace_bind in H as [H|(? & _ & H)].
  { apply list_elem_of_singleton in H. eauto. }
  apply elem_of_trace_bind in H as [H|(? & _ & H)].
  { apply list_elem_of_singleton in H. right. eexists. split; [exact H|].
    split; [reflexivity|]. exists da, ds. split; [exact Hmade|].
    cbn. by rewrite !app_nil_r. }
  apply elem_of_trace_bind in H as [H|(? & _ & H)].
  { destruct (to_zarr _ _ _); by apply elem_of_nil in H. }
  apply elem_of_trace_bind in H as [H|(? & _ & H)].
  { apply list_elem_of_singleton in H. eauto. }
  by apply elem_of_nil in H.
Qed.

(** [main] never looks the key [c_part_variable] up. *)
Lemma main_ignores_c_part_variable params v :
  main w (<["c_part_variable" := v]> params) = main w params.
Proof.
  unfold main, getitem. by rewrite !lookup_insert_ne by done.
Qed.

End Driver4.

(** ** Suffixes *)

Lemma endswith_refl s : endswith s s = true.
Proof. destruct s; simpl; [done|]. by rewrite Ascii.eqb_refl, String.eqb_refl. Qed.

Lemma endswith_app pre suffix : endswith (pre +:+ suffix) suffix = true.
Proof.
  induction pre as [|a pre IH]; [apply endswith_refl|].
  change (String a pre +:+ suffix) with (String a (pre +:+ suffix)).
  cbn [endswith]. rewrite IH. apply orb_true_r.
Qed.

Lemma drop_chars_suffix i s : exists pre, s = pre +:+ drop_chars i s.
Proof.
  revert s. induction i as [|i IH]; intros s; [by exists ""|].
  destruct s as [|a s]; [by exists ""|].
  destruct (IH s) as [pre Hpre]. exists (String a pre). simpl. by rewrite <-Hpre.
Qed.

Lemma last_filter {A} (P : A -> Prop) `{!forall x, Decision (P x)} (l : list A) x :
  last l = Some x -> P x -> last (filter P l) = Some x.
Proof.
  intros [l' ->]%last_Some HP.
  rewrite filter_app, filter_cons_True by done.
  rewrite filter_nil. apply last_snoc.
Qed.

Lemma path_name_last key seg :
  last (split ch_slash key) = Some seg -> seg <> "" -> seg <> "." ->
  path_name key = seg.
Proof.
  intros Hlast H1 H2. unfold path_name.
  by rewrite (last_filter _ _ seg).
Qed.

(** Unless the key ends in [/] or [/.], a [.dss] suffix of [Path(key)] is a
    [.dss] ending of the key itself. *)
Lemma path_suffix_endswith key seg :
  last (split ch_slash key) = Some seg -> seg <> "" -> seg <> "." ->
  path_suffix key = ".dss" -> endswith key ".dss" = true.
Proof.
  intros Hlast H1 H2. unfold path_suffix.
  rewrite (path_name_last key seg) by done.
  destruct (rfind "." seg) as [i|]; [|done].
  destruct (_ && _); [|done].
  intros Hdrop.
  destruct (last_split_suffix ch_slash key) as [pre Hkey].
  rewrite Hlast in Hkey. cbn [default from_option id] in Hkey.
  destruct (drop_chars_suffix i seg) as [pre' Hseg].
  rewrite Hdrop in Hseg. rewrite Hkey, Hseg, <-string_app_assoc.
  apply endswith_app.
Qed.

(** Stems are fixed points of the removal, so a second [remove_date] only
    reorders them. *)
Lemma remove_date_again (o1 o2 : SetOrder) (pathnames stems : list string) :
  @remove_date o1 pathnames = Returns stems ->
  exists stems', @remove_date o2 stems = Returns stems' /\ stems' ≡ₚ stems.
Proof.
  unfold remove_date.
  destruct (no_part_d_pathnames pathnames) as [raw|] eqn:Hraw; [|done].
  cbn [mbind outcome_bind]. intros [= <-].
  assert (Forall (fun s => remove_part_d s = Returns s) (@list_of_set o1 raw)) as Hfix.
  { apply Forall_forall. intros s Hs.
    apply (proj1 (@list_of_set_elem o1 raw s)) in Hs.
    apply no_part_d_pathnames_Forall2 in Hraw.
    destruct (proj1 (list_elem_of_lookup _ _) Hs) as [i Hi].
    destruct (Forall2_lookup_r _ _ _ _ _ Hraw Hi) as (p & _ & Hp).
    by eapply remove_part_d_idem. }
  rewrite (no_part_d_pathnames_fixed _ Hfix). cbn [mbind outcome_bind].
  eexists. split; [done|].
  apply NoDup_Permutation; [apply list_of_set_NoDup..|].
  intros s. apply list_of_set_elem.
Qed.

(** * The claims *)

(** C6.  For a pathname made of eight slash-free fields (followed by
    anything slash-separated, such as the closing slash), [get_path_part] at
    the role in position [i] of [A..H] returns field [i] with every space
    turned into an underscore. *)
Theorem get_path_part_returns_field (fields extra : list string) (i : nat)
    (part field : string) :
  length fields = 8 ->
  Forall (fun f => in_chars ch_slash f = false) (fields ++ extra) ->
  path_parts !! i = Some part ->
  fields !! i = Some field ->
  get_path_part (pathname_of_fields (fields ++ extra)) part
  = Returns (underscore_spaces field).
Proof.
  intros Hlen Hall Hpart Hfield.
  rewrite (get_path_part_segment _ _ i) by done.
  rewrite split_pathname_of_fields; [|by destruct fields|done].
  unfold py_index. rewrite Nat.add_1_r. cbn [lookup list_lookup].
  rewrite (lookup_app_l_Some _ _ _ _ Hfield). cbn [mbind outcome_bind].
  by rewrite replace_space_underscore.
Qed.

Lemma get_path_part_returns_field_witness :
  Forall (fun f => in_chars ch_slash f = false)
    (["BASIN"; "GAGE 7"; "FLOW"; "01JAN2000"; "1DAY"; "RUN:Jan 1996"; "G"; "H"] ++ [""]) /\
  get_path_part "/BASIN/GAGE 7/FLOW/01JAN2000/1DAY/RUN:Jan 1996/G/H/" "F"
  = Returns "RUN:Jan_1996".
Proof.
  assert (Forall (fun f => in_chars ch_slash f = false)
    (["BASIN"; "GAGE 7"; "FLOW"; "01JAN2000"; "1DAY"; "RUN:Jan 1996"; "G"; "H"] ++ [""]))
    as Hall by (repeat constructor).
  split; [exact Hall|].
  exact (get_path_part_returns_field
           ["BASIN"; "GAGE 7"; "FLOW"; "01JAN2000"; "1DAY"; "RUN:Jan 1996"; "G"; "H"]
           [""] 5 "F" "RUN:Jan 1996" eq_refl Hall eq_refl eq_refl).
Defined.

(** C9, as stated, fails: the six-field pathname of the docstring has eight
    segments, and role [G] reads its empty last segment without error. *)
Lemma get_path_part_G_docstring :
  length (split ch_slash docstring_pathname) = 8 /\
  get_path_part docstring_pathname "G" = Returns "".
Proof. split; by vm_compute. Qed.

(** C9, amended.  With fewer than nine segments role [H] raises
    [IndexError]; role [G] raises it with fewer than eight segments, and with
    exactly eight it returns the last segment (underscored). *)
Theorem get_path_part_index_error (pathname : string) :
  length (split ch_slash pathname) < 9 ->
  get_path_part pathname "H" = Raises IndexError /\
  (length (split ch_slash pathname) < 8 ->
   get_path_part pathname "G" = Raises IndexError) /\
  (length (split ch_slash pathname) = 8 ->
   exists seg, last (split ch_slash pathname) = Some seg /\
     get_path_part pathname "G" = Returns (underscore_spaces seg)).
Proof.
  intros Hlen. split_and!.
  - rewrite (get_path_part_segment _ _ 7) by done. unfold py_index.
    by rewrite lookup_ge_None_2 by (simpl; lia).
  - intros Hlen'. rewrite (get_path_part_segment _ _ 6) by done. unfold py_index.
    by rewrite lookup_ge_None_2 by (simpl; lia).
  - intros Hlen'. rewrite (get_path_part_segment _ _ 6) by done. unfold py_index.
    destruct (split ch_slash pathname) as [|s0 [|s1 [|s2 [|s3 [|s4 [|s5 [|s6 [|s7 [|? ?]]]]]]]]];
      try done.
    exists s7. split; [done|]. cbn. by rewrite replace_space_underscore.
Qed.

Lemma get_path_part_index_error_witness :
  length (split ch_slash docstring_pathname) < 9 /\
  get_path_part docstring_pathname "H" = Raises IndexError.
Proof.
  assert (length (split ch_slash docstring_pathname) < 9) as Hlen by (vm_compute; lia).
  split; [exact Hlen|].
  exact (proj1 (get_path_part_index_error docstring_pathname Hlen)).
Defined.

(** The errors of the custom resolver on the field as the code strips it:
    the [ValueError] of line 99 whenever what [lstrip] leaves does not split
    into two parts on [-], which is whenever the F part does not hold
    exactly one [-]; and the [ValueError] of line 103 whenever it splits into
    two parts and the first differs from the expected context. *)
Lemma custom_f_part_parser_errors (f_part : string) (string_part : pyval) :
  let parts := split ch_dash (lstrip "RUN:" f_part) in
  (length parts <> 2 ->
   custom_f_part_parser f_part string_part = Raises (ValueError_parts parts)) /\
  (count_char ch_dash f_part <> 1 ->
   custom_f_part_parser f_part string_part = Raises (ValueError_parts parts)) /\
  (forall part_1 part_2,
     parts = [part_1; part_2] -> string_part <> PStr part_1 ->
     custom_f_part_parser f_part string_part = Raises (ValueError_year part_1 string_part)) /\
  custom_f_part_parser "RUN:Y001-E0001" (PStr "Y002")
    = Raises (ValueError_year "Y001" (PStr "Y002")) /\
  custom_f_part_parser "RUN:Y001-E0001-X" string_part
    = Raises (ValueError_parts ["Y001"; "E0001"; "X"]).
Proof.
  intros parts.
  assert (length parts <> 2 ->
    custom_f_part_parser f_part string_part = Raises (ValueError_parts parts)) as Hlen.
  { intros Hne. unfold custom_f_part_parser. fold parts.
    apply Nat.eqb_neq in Hne. by rewrite Hne. }
  split_and!; [done| | |done|done].
  - intros Hcount. apply Hlen. unfold parts.
    rewrite length_split, count_char_lstrip by done. lia.
  - intros part_1 part_2 Hparts Hne. unfold custom_f_part_parser. fold parts.
    rewrite Hparts. cbn. by rewrite bool_decide_eq_false_2.
Qed.

Lemma count_char_prefix_stripped f_part :
  count_char ch_dash (prefix_stripped f_part) = count_char ch_dash f_part.
Proof.
  unfold prefix_stripped. destruct (String.prefix "RUN:" f_part) eqn:Hp; [|done].
  apply prefix_true_app in Hp as [r ->]. done.
Qed.

(** C4, at the failing inputs.  The first half of the claim holds: when
    the prefix-stripped field does not split into two parts, the resolver
    raises the [ValueError] of line 99 (FormatError), as it does for
    [RUN:Y001-E0001-X]; and [RUN:Y001-E0001] against [Y002] raises the
    [ValueError] of line 103 (ContextMismatchError).  The second half fails:
    [RUN:R001-E0001] prefix-stripped splits into [R001] and [E0001], and
    [URN:Y001-E0001] into [URN:Y001] and [E0001]; the first parts differ from
    the expected contexts [001] and [Y001], yet the resolver returns
    [E0001]. *)
Theorem custom_f_part_parser_accepts_mismatch :
  (forall f_part string_part,
     length (split ch_dash (prefix_stripped f_part)) <> 2 ->
     exists parts,
       custom_f_part_parser f_part string_part = Raises (ValueError_parts parts)) /\
  (forall string_part,
     custom_f_part_parser "RUN:Y001-E0001-X" string_part
     = Raises (ValueError_parts ["Y001"; "E0001"; "X"])) /\
  custom_f_part_parser "RUN:Y001-E0001" (PStr "Y002")
    = Raises (ValueError_year "Y001" (PStr "Y002")) /\
  split ch_dash (prefix_stripped "RUN:R001-E0001") = ["R001"; "E0001"] /\
  String.eqb "R001" "001" = false /\
  custom_f_part_parser "RUN:R001-E0001" (PStr "001") = Returns "E0001" /\
  split ch_dash (prefix_stripped "URN:Y001-E0001") = ["URN:Y001"; "E0001"] /\
  String.eqb "URN:Y001" "Y001" = false /\
  custom_f_part_parser "URN:Y001-E0001" (PStr "Y001") = Returns "E0001".
Proof.
  split_and!; try (vm_compute; reflexivity).
  intros f_part string_part Hlen. eexists.
  apply (custom_f_part_parser_errors f_part string_part).
  rewrite length_split, count_char_prefix_stripped in Hlen. lia.
Qed.

(** C2, at the failing input.  For the F part [RUN:R001-E0001] and the
    expected context [R001], [lstrip] also eats the [R] of the context, and
    the resolver raises the [ValueError] of line 103 instead of returning
    [E0001]. *)
Theorem custom_f_part_parser_overstrips :
  lstrip "RUN:" "RUN:R001-E0001" = "001-E0001" /\
  custom_f_part_parser "RUN:R001-E0001" (PStr "R001")
  = Raises (ValueError_year "001" (PStr "R001")).
Proof. split; vm_compute; reflexivity. Qed.

(** C3, at the failing input.  The two pathnames differ in part D only, but
    the text of the first one's part D is also removed from its part F:
    their stems differ, and [remove_date] keeps both. *)
Theorem remove_date_keeps_both (order : SetOrder) :
  same_but_part_d january_pathname february_pathname /\
  exists stems,
    remove_date [january_pathname; february_pathname] = Returns stems /\
    length stems = 2 /\
    "/BASIN/GAGE/FLOW//1DAY/RUN:/" ∈ stems /\
    "/BASIN/GAGE/FLOW//1DAY/RUN:01JAN2000/" ∈ stems.
Proof.
  split; [by vm_compute|].
  unfold remove_date.
  assert (no_part_d_pathnames [january_pathname; february_pathname]
          = Returns ["/BASIN/GAGE/FLOW//1DAY/RUN:/"; "/BASIN/GAGE/FLOW//1DAY/RUN:01JAN2000/"])
    as -> by (by vm_compute).
  cbn [mbind outcome_bind]. eexists. split; [done|].
  split_and!; [|apply list_of_set_elem; set_solver..].
  change 2 with (length ["/BASIN/GAGE/FLOW//1DAY/RUN:/"; "/BASIN/GAGE/FLOW//1DAY/RUN:01JAN2000/"]).
  apply Permutation_length.
  apply NoDup_Permutation; [apply list_of_set_NoDup| |apply list_of_set_elem].
  apply NoDup_cons. split; [|apply NoDup_singleton].
  by intros [=]%list_elem_of_singleton.
Qed.

(** C8.  On pathnames with a part D (at least five segments),
    [remove_date] returns, applying it to its own output returns too, and
    both results hold the same stems. *)
Theorem remove_date_idempotent (o1 o2 : SetOrder) (pathnames : list string) :
  Forall (fun p => 5 <= length (split ch_slash p)) pathnames ->
  exists stems stems',
    @remove_date o1 pathnames = Returns stems /\
    @remove_date o2 stems = Returns stems' /\
    stems' ≡ₚ stems.
Proof.
  intros [raw Hraw]%no_part_d_pathnames_total.
  assert (@remove_date o1 pathnames = Returns (@list_of_set o1 raw)) as Hfirst.
  { unfold remove_date. by rewrite Hraw. }
  destruct (remove_date_again o1 o2 _ _ Hfirst) as (stems' & Hsecond & Hperm).
  eauto.
Qed.

Lemma remove_date_idempotent_witness :
  Forall (fun p => 5 <= length (split ch_slash p))
    [january_pathname; february_pathname; january_pathname] /\
  exists stems stems',
    @remove_date remove_dups_order [january_pathname; february_pathname; january_pathname]
      = Returns stems /\
    @remove_date remove_dups_order stems = Returns stems' /\
    stems' ≡ₚ stems.
Proof.
  assert (Forall (fun p => 5 <= length (split ch_slash p))
            [january_pathname; february_pathname; january_pathname]) as Hall.
  { repeat (apply Forall_cons; split; [vm_compute; lia|]). apply Forall_nil_2. }
  split; [exact Hall|].
  exact (remove_date_idempotent remove_dups_order remove_dups_order _ Hall).
Defined.

Section Claims.
Context {Series DataArray : Type}.


End Claims.


Section DriverClaims.
Context {Series DataArray : Type} {order : SetOrder}.
Variable w : World Series DataArray.
Implicit Types (ev : event DataArray) (params : gmap string pyval).

(** What a trace of [main] in custom mode tells: a logged context-mismatch
    error names the [sub_group_name] option (default [sub_group]) as the
    expected year, and a written tree has that value as the name of its leaf
    and the resolver accepted the run identifier of every stem against it. *)
Lemma main_custom_trace_context params :
  truthy (default (PBool false) (params !! "use_custom_parser")) = true ->
  let sgn := default (PStr "sub_group") (params !! "sub_group_name") in
  (forall part_1 sp,
     LogError (ValueError_year part_1 sp) ∈ trace (main w params) -> sp = sgn) /\
  (forall dest tree mode,
     ToZarr dest tree mode ∈ trace (main w params) ->
     leaf_names tree = [sgn] /\
     exists dss_key pattern names stems,
       getPathnameList w dss_key pattern = Answer names /\
       remove_date names = Returns stems /\
       forall p, p ∈ stems ->
         exists f_part event,
           get_path_part p "F" = Returns f_part /\
           custom_f_part_parser f_part sgn = Returns event).
Proof.
  intros Hucp sgn. unfold main. rewrite Hucp. split.
  - intros part_1 sp H.
    apply elem_of_trace_bind in H as [H|(b_in & _ & H)].
    { by rewrite getitem_trace in H; apply elem_of_nil in H. }
    apply elem_of_trace_bind in H as [H|(b_out & _ & H)].
    { by rewrite getitem_trace in H; apply elem_of_nil in H. }
    destruct (negb _); [by apply elem_of_nil in H|].
    destruct (negb _); [by apply elem_of_nil in H|].
    destruct (negb _); [by apply elem_of_nil in H|].
    apply elem_of_trace_try_except in H as [H|[(? & _ & H)|(e & He & _ & H)]].
    { by apply check_file_exists_trace in H as (? & ? & ?). }
    2:{ apply elem_of_trace_bind in H as [H|(? & _ & H)]; [|by apply elem_of_nil in H].
        apply list_elem_of_singleton in H. injection H as <-.
        apply check_file_exists_Raises in He as [[? ?]|[(? & ? & ?)|[? ?]]]; done. }
    apply elem_of_trace_bind in H as [H|(? & _ & H)].
    { destruct (new_node _ _); by apply elem_of_nil in H. }
    apply elem_of_trace_bind in H as [H|(? & _ & H)].
    { destruct (new_node _ _); by apply elem_of_nil in H. }
    apply elem_of_trace_bind in H as [H|(? & _ & H)].
    { by apply list_elem_of_singleton in H. }
    apply elem_of_trace_bind in H as [H|(? & _ & H)].
    { by apply list_elem_of_singleton in H. }
    apply elem_of_trace_try_except in H as [H|[(d & _ & H)|(e & He & _ & H)]].
    + by apply extract_data_from_dss_trace in H as [?|[?|?]].
    + by apply write_dataset_trace in H as [[? ?]|(? & ? & _)].
    + apply elem_of_trace_bind in H as [H|(? & _ & H)]; [|by apply elem_of_nil in H].
      apply list_elem_of_singleton in H. injection H as <-.
      by apply extract_data_from_dss_Raises_year in He.
  - intros dest tree mode H.
    apply elem_of_trace_bind in H as [H|(b_in & _ & H)].
    { by rewrite getitem_trace in H; apply elem_of_nil in H. }
    apply elem_of_trace_bind in H as [H|(b_out & _ & H)].
    { by rewrite getitem_trace in H; apply elem_of_nil in H. }
    destruct (negb _); [by apply elem_of_nil in H|].
    destruct (negb _); [by apply elem_of_nil in H|].
    destruct (negb _); [by apply elem_of_nil in H|].
    apply elem_of_trace_try_except in H as [H|[(? & _ & H)|(e & He & _ & H)]].
    { by apply check_file_exists_trace in H as (? & ? & ?). }
    2:{ apply elem_of_trace_bind in H as [H|(? & _ & H)]; [|by apply elem_of_nil in H].
        by apply list_elem_of_singleton in H. }
    apply elem_of_trace_bind in H as [H|(? & _ & H)].
    { destruct (new_node _ _); by apply elem_of_nil in H. }
    apply elem_of_trace_bind in H as [H|(? & _ & H)].
    { destruct (new_node _ _); by apply elem_of_nil in H. }
    apply elem_of_trace_bind in H as [H|(? & _ & H)].
    { by apply list_elem_of_singleton in H. }
    apply elem_of_trace_bind in H as [H|(? & _ & H)].
    { by apply list_elem_of_singleton in H. }
    apply elem_of_trace_try_except in H as [H|[(d & Hd & H)|(e & He & _ & H)]].
    + by apply extract_data_from_dss_trace in H as [?|[?|?]].
    + apply write_dataset_trace in H as [[? ?]|(tree' & [= -> -> ->] & Hleaf & _)]; [done|].
      split; [done|].
      apply extract_data_from_dss_Returns in Hd as (names & stems & ? & ? & ?).
      eauto 10.
    + apply elem_of_trace_bind in H as [H|(? & _ & H)]; [|by apply elem_of_nil in H].
      by apply list_elem_of_singleton in H.
Qed.

(** C5, amended.  Once the configuration checks are passed (both bucket
    options present and equal, both credentials in the environment), a key
    whose [pathlib] suffix is not [.dss] makes [check_file_exists] raise with
    no call to the object store, and [main] logs that error and returns
    nothing: no download, no write. *)
Theorem main_rejects_non_dss_suffix params bucket key :
  params !! "dss_input_bucket" = Some bucket ->
  params !! "zarr_output_bucket" = Some bucket ->
  "AWS_ACCESS_KEY_ID" ∈ dom (environ w) ->
  "AWS_SECRET_ACCESS_KEY" ∈ dom (environ w) ->
  default (PStr "") (params !! "dss_input_key") = PStr key ->
  path_suffix key <> ".dss" ->
  check_file_exists w bucket (PStr key) = IO (Raises (ValueError_not_dss key)) [] /\
  main w params = IO (Returns None) [LogError (ValueError_not_dss key)].
Proof.
  intros Hin Hout Hid Hsecret Hkey Hsuffix.
  assert (check_file_exists w bucket (PStr key) = IO (Raises (ValueError_not_dss key)) [])
    as Hcheck.
  { unfold check_file_exists. apply String.eqb_neq in Hsuffix. by rewrite Hsuffix. }
  split; [done|].
  unfold main, getitem. rewrite Hin, Hout, Hkey. cbn [default from_option id].
  unfold mbind at 1, io_bind at 1. cbn [result trace mret io_ret].
  unfold mbind at 1, io_bind at 1. cbn [result trace mret io_ret].
  rewrite !bool_decide_eq_true_2 by done. cbn [negb].
  unfold try_except.
  rewrite Hcheck. cbn.
  rewrite !bool_decide_eq_true_2 by (done || left). done.
Qed.

End DriverClaims.

Lemma main_rejects_non_dss_suffix_witness :
  path_suffix "notes.txt" <> ".dss" /\
  @main _ _ remove_dups_order (demo_world [north_pathname; south_pathname])
     (<["dss_input_key" := PStr "notes.txt"]> demo_params)
  = IO (Returns None) [LogError (ValueError_not_dss "notes.txt")].
Proof.
  assert (path_suffix "notes.txt" <> ".dss") as Hsuffix by (vm_compute; congruence).
  split; [exact Hsuffix|].
  refine (proj2 (@main_rejects_non_dss_suffix _ _ remove_dups_order
                   (demo_world [north_pathname; south_pathname])
                   (<["dss_input_key" := PStr "notes.txt"]> demo_params)
                   (PStr "wy-ble") "notes.txt" _ _ _ _ _ Hsuffix)).
  - vm_compute; reflexivity.
  - vm_compute; reflexivity.
  - apply elem_of_dom. vm_compute. by eexists.
  - apply elem_of_dom. vm_compute. by eexists.
  - vm_compute; reflexivity.
Defined.

(** C5, as stated, fails in two ways.  With different buckets [main] raises
    before the pre-flight check and logs nothing, whatever the key; and the
    key [Y001.dss/] does not end in [.dss], yet [Path] drops the closing
    slash, the suffix test passes and [head_object] is called. *)
Lemma main_non_dss_key_not_rejected :
  endswith "notes.txt" ".dss" = false /\
  @main _ _ remove_dups_order (demo_world [north_pathname; south_pathname])
     (<["zarr_output_bucket" := PStr "elsewhere"]>
        (<["dss_input_key" := PStr "notes.txt"]> demo_params))
  = IO (Raises NotImplementedError_multi_bucket) [] /\
  endswith "Y001.dss/" ".dss" = false /\
  check_file_exists (demo_world [north_pathname; south_pathname])
     (PStr "wy-ble") (PStr "Y001.dss/")
  = IO (Returns ()) [HeadObject (PStr "wy-ble") "Y001.dss/"].
Proof. split_and!; by vm_compute. Qed.

(** C1, at the failing input.  With [c_part_variable] set to [STAGE] (and
    no [simplify] key), the pattern [main] lists pathnames with and the
    variable it writes are both [FLOW]. *)
Theorem main_uses_FLOW_for_STAGE :
  stage_params !! "c_part_variable" = Some (PStr "STAGE") /\
  stage_params !! "simplify" = None /\
  patterns_listed
    (trace (@main _ _ remove_dups_order (demo_world [north_pathname; south_pathname])
              stage_params))
  = ["/*/*/FLOW/*/*/*/"] /\
  variables_written
    (trace (@main _ _ remove_dups_order (demo_world [north_pathname; south_pathname])
              stage_params))
  = [PStr "FLOW"].
Proof.
  split; [vm_compute; reflexivity|].
  split; [vm_compute; reflexivity|].
  split; vm_compute; reflexivity.
Qed.

(** * Further properties of the code *)

(** ** More on segments *)

Lemma join_slash_cons x y l :
  join_slash (x :: y :: l) = x +:+ String ch_slash (join_slash (y :: l)).
Proof. done. Qed.

Lemma join_slash_split s : join_slash (split ch_slash s) = s.
Proof.
  induction s as [|a s IH]; [done|]. cbn [split].
  destruct (split_cons ch_slash s) as (h & t & E). rewrite E in *.
  destruct (Ascii.eqb_spec a ch_slash) as [->|Hne].
  - by rewrite join_slash_cons, IH.
  - destruct t as [|h' t].
    + by rewrite <-IH.
    + rewrite join_slash_cons. rewrite join_slash_cons in IH. by rewrite <-IH.
Qed.

Lemma split_cons_tail c s h t :
  split c s = h :: t -> t <> [] ->
  exists r, s = h +:+ String c r /\ split c r = t.
Proof.
  revert h t. induction s as [|a s IH]; intros h t; cbn [split].
  - by intros [= <- <-].
  - destruct (Ascii.eqb_spec a c) as [->|Hne].
    + intros [= <- <-] _. by exists s.
    + destruct (split_cons c s) as (h' & t' & E). rewrite E.
      intros [= <- <-] Ht. destruct (IH _ _ E Ht) as (r & -> & Hr).
      by exists r.
Qed.

Lemma split_pair c s a b : split c s = [a; b] -> s = a +:+ String c b.
Proof.
  intros E. destruct (split_cons_tail c s a [b] E) as (r & -> & Hr); [done|].
  by rewrite (split_singleton c r b).
Qed.

Lemma lstrip_suffix chars s : exists pre, s = pre +:+ lstrip chars s.
Proof.
  induction s as [|a s [pre IH]]; [by exists ""|]. cbn [lstrip].
  destruct (in_chars a chars); [|by exists ""].
  exists (String a pre). simpl. by rewrite <-IH.
Qed.

Lemma underscore_spaces_no_space s : in_chars " " (underscore_spaces s) = false.
Proof.
  induction s as [|a s IH]; [done|]. cbn [underscore_spaces in_chars].
  rewrite IH, orb_false_r.
  destruct (Ascii.eqb_spec a " ") as [->|Hne]; [done|].
  apply Ascii.eqb_neq. congruence.
Qed.

Lemma underscore_spaces_slash s :
  in_chars ch_slash (underscore_spaces s) = in_chars ch_slash s.
Proof.
  induction s as [|a s IH]; [done|]. cbn [underscore_spaces in_chars].
  rewrite IH. by destruct (Ascii.eqb_spec a " ") as [->|Hne].
Qed.

Lemma get_path_part_not_role pathname part :
  part ∉ path_parts -> get_path_part pathname part = Raises (ValueError_part part).
Proof. intros Hnot. unfold get_path_part. by rewrite bool_decide_eq_false_2. Qed.

(** X1.  [get_path_part] raises its own [ValueError] exactly for the roles
    outside [A..H], whatever the pathname is (also a malformed one). *)
Theorem get_path_part_invalid_role (pathname part : string) :
  part ∉ path_parts <-> get_path_part pathname part = Raises (ValueError_part part).
Proof.
  split.
  - apply get_path_part_not_role.
  - intros Hraise Hin.
    apply list_elem_of_lookup in Hin as [i Hi].
    rewrite (get_path_part_segment _ _ i) in Hraise by done.
    unfold py_index in Hraise. by destruct (_ !! _).
Qed.

(** X2.  A value returned by [get_path_part] holds no space and no slash. *)
Theorem get_path_part_value_clean (pathname part value : string) :
  get_path_part pathname part = Returns value ->
  in_chars " " value = false /\ in_chars ch_slash value = false.
Proof.
  intros Hret.
  destruct (decide (part ∈ path_parts)) as [Hin|Hnot].
  - apply list_elem_of_lookup in Hin as [i Hi].
    rewrite (get_path_part_segment _ _ i) in Hret by done.
    unfold py_index in Hret.
    destruct (split ch_slash pathname !! (i + 1)) as [seg|] eqn:Hseg; [|done].
    cbn [mbind outcome_bind] in Hret. rewrite replace_space_underscore in Hret.
    injection Hret as <-. split; [apply underscore_spaces_no_space|].
    rewrite underscore_spaces_slash.
    eapply split_segment_no_sep, list_elem_of_lookup_2, Hseg.
  - rewrite get_path_part_not_role in Hret by done. congruence.
Qed.

Lemma get_path_part_value_clean_witness :
  get_path_part docstring_pathname "F" = Returns "RUN:Jan_1996_-_Calibration" /\
  in_chars " " "RUN:Jan_1996_-_Calibration" = false /\
  in_chars ch_slash "RUN:Jan_1996_-_Calibration" = false.
Proof.
  assert (get_path_part docstring_pathname "F" = Returns "RUN:Jan_1996_-_Calibration")
    as Hret by (vm_compute; reflexivity).
  split; [exact Hret|].
  exact (get_path_part_value_clean docstring_pathname "F" _ Hret).
Defined.

(** X3.  The stem [remove_date] makes of a pathname has as many segments as
    the pathname, and its part D (segment 4) is empty. *)
Theorem remove_part_d_shape (pathname stem : string) :
  remove_part_d pathname = Returns stem ->
  length (split ch_slash stem) = length (split ch_slash pathname) /\
  split ch_slash stem !! 4 = Some "".
Proof.
  unfold remove_part_d, py_index.
  destruct (split ch_slash pathname !! 4) as [d|] eqn:Hd; [|done].
  cbn [mbind outcome_bind]. intros [= <-].
  destruct d as [|a d].
  - by rewrite replace_empty_empty.
  - assert (in_chars ch_slash (String a d) = false) as Hc.
    { eapply split_segment_no_sep, list_elem_of_lookup_2, Hd. }
    change (replace (String a d) "" pathname)
      with (replace_from (String a d) "" 0 pathname).
    rewrite split_replace_from by done. split; [by rewrite length_fmap|].
    rewrite list_lookup_fmap, Hd. cbn -[replace_from replace].
    change (replace_from (String a d) "" 0 (String a d))
      with (replace (String a d) "" (String a d)).
    by rewrite replace_self.
Qed.

Lemma remove_part_d_shape_witness :
  remove_part_d january_pathname = Returns "/BASIN/GAGE/FLOW//1DAY/RUN:/" /\
  length (split ch_slash "/BASIN/GAGE/FLOW//1DAY/RUN:/")
    = length (split ch_slash january_pathname) /\
  split ch_slash "/BASIN/GAGE/FLOW//1DAY/RUN:/" !! 4 = Some "".
Proof.
  assert (remove_part_d january_pathname = Returns "/BASIN/GAGE/FLOW//1DAY/RUN:/")
    as Hstem by (vm_compute; reflexivity).
  split; [exact Hstem|].
  exact (remove_part_d_shape january_pathname _ Hstem).
Defined.

Lemma no_part_d_pathnames_Raises_short pathnames e :
  no_part_d_pathnames pathnames = Raises e ->
  Exists (fun p => length (split ch_slash p) < 5) pathnames.
Proof.
  intros Hraise.
  destruct (decide (Forall (fun p => 5 <= length (split ch_slash p)) pathnames))
    as [Hall|Hex].
  - apply no_part_d_pathnames_total in Hall as [stems Hs]. congruence.
  - apply not_Forall_Exists in Hex; [|apply _].
    eapply Exists_impl; [exact Hex|]. intros p Hp. simpl in Hp. lia.
Qed.

(** X4.  [remove_date] raises [IndexError] exactly when one of the pathnames
    has fewer than five segments (no part D); it raises nothing else. *)
Theorem remove_date_raises_iff (order : SetOrder) (pathnames : list string) :
  (Exists (fun p => length (split ch_slash p) < 5) pathnames
   <-> remove_date pathnames = Raises IndexError) /\
  (forall e, remove_date pathnames = Raises e -> e = IndexError).
Proof.
  assert (forall e, remove_date pathnames = Raises e ->
            no_part_d_pathnames pathnames = Raises e) as Hinv.
  { intros e. unfold remove_date. by destruct (no_part_d_pathnames pathnames). }
  split; [split|].
  - intros Hex. unfold remove_date.
    destruct (no_part_d_pathnames pathnames) as [stems|e] eqn:Hs.
    + exfalso. apply no_part_d_pathnames_Forall2 in Hs.
      apply Exists_exists in Hex as (p & Hp & Hlen).
      apply list_elem_of_lookup in Hp as [i Hi].
      destruct (Forall2_lookup_l _ _ _ _ _ Hs Hi) as (s & _ & Hps).
      unfold remove_part_d, py_index in Hps.
      rewrite lookup_ge_None_2 in Hps by lia. done.
    + by rewrite (no_part_d_pathnames_Raises _ _ Hs).
  - intros Hraise%Hinv. by eapply no_part_d_pathnames_Raises_short.
  - intros e Hraise%Hinv. by eapply no_part_d_pathnames_Raises.
Qed.

Lemma remove_part_d_fields fields d :
  fields !! 3 = Some d ->
  Forall (fun f => in_chars ch_slash f = false) fields ->
  (forall i f, i <> 3 -> fields !! i = Some f -> replace d "" f = f) ->
  remove_part_d (pathname_of_fields fields)
  = Returns (pathname_of_fields (<[3 := ""]> fields)).
Proof.
  intros Hd Hall Hclean. unfold remove_part_d, py_index.
  rewrite split_pathname_of_fields; [|by destruct fields|done].
  change (("" :: fields) !! 4) with (fields !! 3).
  rewrite Hd. cbn [mbind outcome_bind]. f_equal.
  destruct d as [|a d].
  { rewrite replace_empty_empty. by rewrite list_insert_id. }
  assert (in_chars ch_slash (String a d) = false) as Hc.
  { eapply Forall_lookup_1 in Hall; [exact Hall|exact Hd]. }
  rewrite <-(join_slash_split (replace _ _ _)).
  change (replace (String a d) "" (pathname_of_fields fields))
    with (replace_from (String a d) "" 0 (pathname_of_fields fields)).
  rewrite split_replace_from by done.
  rewrite split_pathname_of_fields; [|by destruct fields|done].
  rewrite fmap_cons.
  assert (replace_from (String a d) "" 0 <$> fields = <[3 := ""]> fields) as ->.
  { apply list_eq. intros i. rewrite list_lookup_fmap.
    destruct (decide (i = 3)) as [->|Hi].
    - rewrite Hd, list_lookup_insert_eq by (by eapply lookup_lt_Some).
      cbn -[replace_from].
      change (replace_from (String a d) "" 0 (String a d))
        with (replace (String a d) "" (String a d)).
      by rewrite replace_self.
    - rewrite list_lookup_insert_ne by done.
      destruct (fields !! i) as [f|] eqn:Hf; [|done]. cbn -[replace_from].
      f_equal. by apply (Hclean i f). }
  change (replace_from (String a d) "" 0 "") with "".
  unfold pathname_of_fields.
  destruct (<[3 := ""]> fields) as [|x l] eqn:E.
  { apply (f_equal length) in E. rewrite length_insert in E.
    apply lookup_lt_Some in Hd. simpl in E. lia. }
  by rewrite join_slash_cons.
Qed.

(** X5.  Two pathnames that differ in part D only collapse to one stem when
    neither part D occurs as text in the other fields. *)
Theorem remove_date_collapses_clean_pair (order : SetOrder)
    (fields1 fields2 : list string) (d1 d2 : string) :
  fields1 !! 3 = Some d1 -> fields2 !! 3 = Some d2 ->
  <[3 := ""]> fields1 = <[3 := ""]> fields2 ->
  Forall (fun f => in_chars ch_slash f = false) fields1 ->
  Forall (fun f => in_chars ch_slash f = false) fields2 ->
  (forall i f, i <> 3 -> fields1 !! i = Some f ->
     replace d1 "" f = f /\ replace d2 "" f = f) ->
  same_but_part_d (pathname_of_fields fields1) (pathname_of_fields fields2) /\
  remove_date [pathname_of_fields fields1; pathname_of_fields fields2]
  = Returns [pathname_of_fields (<[3 := ""]> fields1)].
Proof.
  intros Hd1 Hd2 Hsame Hall1 Hall2 Hclean.
  assert (forall i f, i <> 3 -> fields2 !! i = Some f -> fields1 !! i = Some f) as H21.
  { intros i f Hi Hf.
    rewrite <-(list_lookup_insert_ne fields1 3 i "") by done.
    rewrite Hsame. by rewrite list_lookup_insert_ne. }
  split.
  { unfold same_but_part_d.
    rewrite !split_pathname_of_fields; [|by destruct fields2|done|by destruct fields1|done].
    change (<[4:=""]> ("" :: fields1)) with ("" :: <[3:=""]> fields1).
    change (<[4:=""]> ("" :: fields2)) with ("" :: <[3:=""]> fields2).
    by rewrite Hsame. }
  unfold remove_date. cbn [no_part_d_pathnames].
  rewrite (remove_part_d_fields fields1 d1), (remove_part_d_fields fields2 d2);
    [|done|done|..|done|done|].
  2:{ intros i f Hi Hf. by apply (Hclean i f), H21. }
  2:{ intros i f Hi Hf. by apply (Hclean i f). }
  cbn [mbind outcome_bind]. rewrite <-Hsame. f_equal.
  set (stem := pathname_of_fields (<[3:=""]> fields1)).
  pose proof (list_of_set_NoDup [stem; stem]) as Hnd.
  pose proof (list_of_set_elem [stem; stem]) as Hel.
  assert (forall z, z ∈ [stem; stem] -> z = stem) as Hpair.
  { intros z [->|[->|[]%elem_of_nil]%elem_of_cons]%elem_of_cons; done. }
  destruct (list_of_set [stem; stem]) as [|x [|y l]].
  - exfalso. apply (elem_of_nil stem), Hel. left.
  - f_equal. apply Hpair, Hel. left.
  - exfalso. apply NoDup_cons in Hnd as [Hx Hnd]. apply Hx.
    rewrite (Hpair x) by (apply Hel; left).
    rewrite (Hpair y) by (apply Hel; right; left). left.
Qed.

Lemma remove_date_collapses_clean_pair_witness :
  @remove_date remove_dups_order
    ["/BASIN/GAGE/FLOW/01JAN2000/1DAY/RUN:Y001-E0001/";
     "/BASIN/GAGE/FLOW/01FEB2000/1DAY/RUN:Y001-E0001/"]
  = Returns ["/BASIN/GAGE/FLOW//1DAY/RUN:Y001-E0001/"].
Proof.
  refine (proj2 (remove_date_collapses_clean_pair remove_dups_order
            ["BASIN"; "GAGE"; "FLOW"; "01JAN2000"; "1DAY"; "RUN:Y001-E0001"; ""]
            ["BASIN"; "GAGE"; "FLOW"; "01FEB2000"; "1DAY"; "RUN:Y001-E0001"; ""]
            "01JAN2000" "01FEB2000" eq_refl eq_refl eq_refl _ _ _)).
  - repeat constructor.
  - repeat constructor.
  - intros i f Hi Hf.
    do 7 (destruct i as [|i];
          [try done; injection Hf as <-; split; vm_compute; reflexivity|]).
    done.
Defined.

Lemma custom_f_part_parser_split (f_part : string) (string_part : pyval)
    (event : string) :
  custom_f_part_parser f_part string_part = Returns event ->
  exists part_1,
    split ch_dash (lstrip "RUN:" f_part) = [part_1; event] /\
    string_part = PStr part_1.
Proof.
  unfold custom_f_part_parser.
  destruct (negb _); [done|].
  destruct (split ch_dash (lstrip "RUN:" f_part)) as [|p1 [|p2 [|? ?]]] eqn:E;
    try done.
  case_bool_decide as Hsp; [|done]. cbn [negb]. intros [= <-]. by exists p1.
Qed.

(** X6.  When the custom resolver returns an event key, the run identifier
    holds exactly one [-], ends in [-] followed by that key, and the key
    itself holds no [-]; the expected context was a string. *)
Theorem custom_f_part_parser_event_shape (f_part : string) (string_part : pyval)
    (event : string) :
  custom_f_part_parser f_part string_part = Returns event ->
  count_char ch_dash f_part = 1 /\
  endswith f_part (String ch_dash event) = true /\
  in_chars ch_dash event = false /\
  exists part_1,
    string_part = PStr part_1 /\
    lstrip "RUN:" f_part = part_1 +:+ String ch_dash event.
Proof.
  intros (p1 & E & Hsp)%custom_f_part_parser_split.
  pose proof (split_pair _ _ _ _ E) as Hstrip.
  split_and!.
  - rewrite <-(count_char_lstrip "RUN:") by done.
    pose proof (length_split ch_dash (lstrip "RUN:" f_part)) as Hlen.
    rewrite E in Hlen. simpl in Hlen. lia.
  - destruct (lstrip_suffix "RUN:" f_part) as [pre Hpre].
    rewrite Hpre, Hstrip, <-string_app_assoc. apply endswith_app.
  - eapply split_segment_no_sep. rewrite E. right. left.
  - by exists p1.
Qed.

Lemma custom_f_part_parser_event_shape_witness :
  custom_f_part_parser "RUN:Y001-E0001" (PStr "Y001") = Returns "E0001" /\
  count_char ch_dash "RUN:Y001-E0001" = 1 /\
  endswith "RUN:Y001-E0001" "-E0001" = true.
Proof.
  assert (custom_f_part_parser "RUN:Y001-E0001" (PStr "Y001") = Returns "E0001")
    as Hret by (vm_compute; reflexivity).
  split; [exact Hret|].
  destruct (custom_f_part_parser_event_shape _ _ _ Hret) as (Hcount & Hends & _).
  exact (conj Hcount Hends).
Defined.

(** X7.  With an expected context that is not a string (such as the default
    [None] of [parser_string_part]) the custom resolver never returns: it
    raises one of its two [ValueError]s. *)
Theorem custom_f_part_parser_needs_string (f_part : string) (string_part : pyval) :
  (forall s, string_part <> PStr s) ->
  exists e, custom_f_part_parser f_part string_part = Raises e /\
            class_of e = CValueError.
Proof.
  intros Hnot. destruct (custom_f_part_parser f_part string_part) as [event|e] eqn:E.
  - apply custom_f_part_parser_split in E as (p1 & _ & ->).
    by destruct (Hnot p1).
  - exists e. split; [done|].
    by apply custom_f_part_parser_Raises in E as [[? ->]|[? ->]].
Qed.

Lemma custom_f_part_parser_needs_string_witness :
  exists e, custom_f_part_parser "RUN:Y001-E0001" PNone = Raises e /\
            class_of e = CValueError.
Proof.
  refine (custom_f_part_parser_needs_string "RUN:Y001-E0001" PNone _).
  intros s. discriminate.
Defined.

(** ** First occurrences *)

Lemma filter_filter_ne (P : string -> Prop) `{!forall x, Decision (P x)} x (l : list string) :
  ~ P x -> filter P (filter (fun y => y <> x) l) = filter P l.
Proof.
  intros Hx. induction l as [|y l IH]; [done|].
  destruct (decide (y = x)) as [->|Hne].
  - rewrite (filter_cons_False (fun y => y <> x)) by (intros ?; done).
    by rewrite (filter_cons_False P).
  - rewrite (filter_cons_True (fun y => y <> x)) by done.
    destruct (decide (P y)).
    + rewrite !(filter_cons_True P) by done. by rewrite IH.
    + by rewrite !(filter_cons_False P) by done.
Qed.

Lemma filter_comm_ne (P : string -> Prop) `{!forall x, Decision (P x)} x (l : list string) :
  filter P (filter (fun y => y <> x) l) = filter (fun y => y <> x) (filter P l).
Proof.
  induction l as [|y l IH]; [done|].
  destruct (decide (P y)) as [HP|HP]; destruct (decide (y = x)) as [->|Hne].
  - rewrite (filter_cons_False (fun y => y <> x)) by (intros ?; done).
    rewrite (filter_cons_True P) by done.
    by rewrite (filter_cons_False (fun y => y <> x)) by (intros ?; done).
  - rewrite (filter_cons_True (fun y => y <> x)) by done.
    rewrite !(filter_cons_True P) by done.
    rewrite (filter_cons_True (fun y => y <> x)) by done. by rewrite IH.
  - rewrite (filter_cons_False (fun y => y <> x)) by (intros ?; done).
    by rewrite (filter_cons_False P) by done.
  - rewrite (filter_cons_True (fun y => y <> x)) by done.
    by rewrite !(filter_cons_False P) by done.
Qed.

Lemma first_seen_filter (P : string -> Prop) `{!forall x, Decision (P x)} (l : list string) :
  first_seen (filter P l) = filter P (first_seen l).
Proof.
  induction l as [|x l IH]; [done|]. cbn [first_seen].
  destruct (decide (P x)) as [HP|HP].
  - rewrite !(filter_cons_True P) by done. cbn [first_seen].
    by rewrite IH, filter_comm_ne.
  - rewrite !(filter_cons_False P) by done.
    by rewrite IH, filter_filter_ne.
Qed.

Lemma foldl_add_key acc l :
  foldl add_key acc l = acc ++ first_seen (filter (fun x => x ∉ acc) l).
Proof.
  revert acc. induction l as [|e l IH]; intros acc; cbn [foldl].
  - by rewrite filter_nil, app_nil_r.
  - unfold add_key at 2. case_bool_decide as Hin.
    + rewrite IH. by rewrite filter_cons_False by (intros ?; done).
    + rewrite IH, filter_cons_True by done. cbn [first_seen].
      rewrite <-app_assoc. cbn [app]. do 2 f_equal.
      rewrite <-first_seen_filter. f_equal.
      rewrite list_filter_filter. apply list_filter_iff.
      intros x. rewrite elem_of_app, list_elem_of_singleton. tauto.
Qed.

Lemma foldl_add_key_nil l : foldl add_key [] l = first_seen l.
Proof.
  rewrite foldl_add_key. cbn [app]. f_equal.
  induction l as [|x l IH]; [done|].
  rewrite filter_cons_True by apply not_elem_of_nil. by rewrite IH.
Qed.

Lemma dict_keys_set_add_key {V} k (v : V) d :
  dict_keys (dict_set k v d) = add_key (dict_keys d) k.
Proof. apply dict_keys_set. Qed.

Lemma store_entry_keys {V} event element (v : V) d :
  dict_keys (store_entry event element v d) = add_key (dict_keys d) event.
Proof.
  unfold store_entry, add_key.
  destruct (decide (event ∈ dict_keys d)) as [Hin|Hnot].
  - rewrite !bool_decide_eq_true_2 by done. cbn [negb].
    by rewrite dict_keys_set, bool_decide_eq_true_2.
  - rewrite !bool_decide_eq_false_2 by done. cbn [negb].
    rewrite !dict_keys_set. rewrite !(bool_decide_eq_false_2 (event ∈ dict_keys d)) by done.
    rewrite bool_decide_eq_true_2; [done|].
    apply elem_of_app. right. left.
Qed.

Section LoopFacts.
Context {Series DataArray : Type} {order : SetOrder}.
Variable w : World Series DataArray.
Implicit Types (d : dict (dict Series)).

Lemma store_entry_inner_keys event element event' (v : Series) d :
  dict_keys (default [] (dict_get event' (store_entry event element v d)))
  = if bool_decide (event = event')
    then add_key (dict_keys (default [] (dict_get event' d))) element
    else dict_keys (default [] (dict_get event' d)).
Proof.
  case_bool_decide as He.
  - subst event'. rewrite store_entry_inner. cbn [default from_option id].
    apply dict_keys_set.
  - by rewrite store_entry_other_event.
Qed.

(** Shape of the dict the loop returns when every round succeeds. *)
Lemma extract_loop_shape dss_key psp custom pathnames d :
  all_rounds_succeed w dss_key psp custom pathnames ->
  exists d',
    result (extract_loop w dss_key psp custom pathnames d) = Returns d' /\
    dict_keys d' = foldl add_key (dict_keys d) (events_resolved psp custom pathnames) /\
    (forall event,
       dict_keys (default [] (dict_get event d'))
       = foldl add_key (dict_keys (default [] (dict_get event d)))
           (elements_resolved psp custom event pathnames)) /\
    (forall event element,
       is_Some (dict_get2 event element d') <->
       is_Some (dict_get2 event element d) \/
       exists p, p ∈ pathnames /\ resolve psp custom p = Returns (event, element)).
Proof.
  revert d. induction pathnames as [|p ps IH]; intros d Hok.
  - exists d. split_and!; [done..|].
    intros event element. split; [by left|].
    intros [?|(p & []%elem_of_nil & _)]. done.
  - destruct (Hok p) as ([e0 b0] & v0 & Hr & Hv); [left|].
    destruct (IH (store_entry e0 b0 v0 d)) as (d' & Hres & Hkeys & Hinner & Hpairs).
    { intros q Hq. apply Hok. by right. }
    exists d'. split_and!.
    + by rewrite (extract_loop_step _ _ _ _ _ _ _ e0 b0 v0).
    + rewrite Hkeys, store_entry_keys. unfold events_resolved.
      cbn [omap list_omap]. by rewrite Hr.
    + intros event. rewrite Hinner, store_entry_inner_keys.
      unfold elements_resolved. cbn [omap list_omap]. rewrite Hr.
      by case_bool_decide.
    + intros event element. rewrite Hpairs. split.
      * intros [Hsome|(q & Hq & Hqr)].
        -- destruct (decide ((e0, b0) = (event, element))) as [[= <- <-]|Hne].
           ++ right. exists p. split; [left|done].
           ++ left. by rewrite store_entry_get_ne in Hsome.
        -- right. exists q. split; [by right|done].
      * intros [Hsome|(q & Hq & Hqr)].
        -- left. destruct (decide ((e0, b0) = (event, element))) as [[= <- <-]|Hne].
           ++ by rewrite store_entry_get_eq.
           ++ by rewrite store_entry_get_ne.
        -- apply elem_of_cons in Hq as [->|Hq].
           ++ left. rewrite Hr in Hqr. injection Hqr as <- <-.
              by rewrite store_entry_get_eq.
           ++ right. eauto.
Qed.

(** One round of the loop, as a whole. *)
Lemma extract_loop_cons dss_key psp custom p ps d :
  extract_loop w dss_key psp custom (p :: ps) d
  = match get_path_part p "F" with
    | Raises e => IO (Raises e) []
    | Returns f_part =>
        match get_path_part p "B" with
        | Raises e => IO (Raises e) []
        | Returns b_part =>
            match read_ts w dss_key p with
            | Fault c msg => IO (Raises (External c msg)) [ReadTs p]
            | Answer data =>
                match match custom with
                      | Some parser => parser f_part psp
                      | None => Returns f_part
                      end with
                | Raises e => IO (Raises e) [ReadTs p]
                | Returns new_entry =>
                    let r := extract_loop w dss_key psp custom ps
                               (store_entry new_entry b_part data d) in
                    IO (result r) (ReadTs p :: trace r)
                end
            end
        end
    end.
Proof.
  cbn [extract_loop].
  destruct (get_path_part p "F") as [f|e]; [|done].
  destruct (get_path_part p "B") as [b|e]; [|done].
  unfold read_dss_data, call, lift, emit, mbind, io_bind. cbn.
  destruct (read_ts w dss_key p) as [v|c msg]; [|done]. cbn.
  destruct custom as [parser|]; cbn; [|done].
  by destruct (parser f psp).
Qed.

(** The loop reads the pathnames in order and stops at the first round that
    fails. *)
Lemma extract_loop_reads dss_key psp custom pathnames d :
  exists k,
    trace (extract_loop w dss_key psp custom pathnames d)
      = ReadTs <$> take k pathnames /\
    (forall d', result (extract_loop w dss_key psp custom pathnames d) = Returns d' ->
       k = length pathnames).
Proof.
  revert d. induction pathnames as [|p ps IH]; intros d.
  - exists 0. by split.
  - rewrite extract_loop_cons.
    destruct (get_path_part p "F") as [f|e]; [|exists 0; by split].
    destruct (get_path_part p "B") as [b|e]; [|exists 0; by split].
    destruct (read_ts w dss_key p) as [v|c msg]; [|exists 1; by split].
    destruct (match custom with
              | Some parser => parser f psp
              | None => Returns f
              end) as [event|e]; [|exists 1; by split].
    destruct (IH (store_entry event b v d)) as (k & Htrace & Hlen).
    exists (S k). cbn. split; [by rewrite Htrace|].
    intros d' Hd. by rewrite (Hlen d').
Qed.

End LoopFacts.

Section ExtractFacts.
Context {Series DataArray : Type} {order : SetOrder}.
Variable w : World Series DataArray.
Implicit Types (d : dict (dict Series)).

(** [extract_data_from_dss] as a whole. *)
Lemma extract_data_from_dss_eq dss_key pattern psp custom :
  extract_data_from_dss w dss_key pattern psp custom
  = match fs_get w dss_key with
    | Fault c msg => IO (Raises (External c msg)) [FsGet dss_key]
    | Answer _ =>
        match getPathnameList w dss_key pattern with
        | Fault c msg =>
            IO (Raises (External c msg)) [FsGet dss_key; GetPathnameList pattern]
        | Answer names =>
            match remove_date names with
            | Raises e => IO (Raises e) [FsGet dss_key; GetPathnameList pattern]
            | Returns pathnames =>
                let r := extract_loop w dss_key psp custom pathnames [] in
                IO (result r) (FsGet dss_key :: GetPathnameList pattern :: trace r)
            end
        end
    end.
Proof.
  unfold extract_data_from_dss, call, lift, emit, mbind, io_bind. cbn.
  destruct (fs_get w dss_key) as [[]|c msg]; [|done]. cbn.
  destruct (getPathnameList w dss_key pattern) as [names|c msg]; [|done]. cbn.
  by destruct (remove_date names).
Qed.

Lemma list_of_set_nil : list_of_set [] = [].
Proof.
  destruct (list_of_set []) as [|x l] eqn:E; [done|].
  exfalso. apply (elem_of_nil x), list_of_set_elem. rewrite E. left.
Qed.

(** X8.  When every round succeeds, the dict returned by
    [extract_data_from_dss] holds a series for exactly the (event, element)
    pairs some stem resolves to. *)
Theorem extract_groups_resolved_pairs dss_key pattern psp custom names stems :
  fs_get w dss_key = Answer () ->
  getPathnameList w dss_key pattern = Answer names ->
  remove_date names = Returns stems ->
  all_rounds_succeed w dss_key psp custom stems ->
  exists d,
    result (extract_data_from_dss w dss_key pattern psp custom) = Returns d /\
    forall event element,
      is_Some (dict_get2 event element d) <->
      exists p, p ∈ stems /\ resolve psp custom p = Returns (event, element).
Proof.
  intros Hget Hnames Hstems Hok.
  destruct (extract_loop_shape w dss_key psp custom stems [] Hok)
    as (d & Hres & _ & _ & Hpairs).
  exists d. split.
  - by rewrite extract_data_from_dss_eq, Hget, Hnames, Hstems.
  - intros event element. rewrite Hpairs. split; [|by right].
    intros [Hsome|?]; [|done]. by destruct Hsome.
Qed.

(** X9.  When every round succeeds, the event keys of the returned dict
    are in the order in which the stems first resolve to them, and so are the
    element keys within each event. *)
Theorem extract_keys_first_seen dss_key pattern psp custom names stems :
  fs_get w dss_key = Answer () ->
  getPathnameList w dss_key pattern = Answer names ->
  remove_date names = Returns stems ->
  all_rounds_succeed w dss_key psp custom stems ->
  exists d,
    result (extract_data_from_dss w dss_key pattern psp custom) = Returns d /\
    dict_keys d = first_seen (events_resolved psp custom stems) /\
    forall event,
      dict_keys (default [] (dict_get event d))
      = first_seen (elements_resolved psp custom event stems).
Proof.
  intros Hget Hnames Hstems Hok.
  destruct (extract_loop_shape w dss_key psp custom stems [] Hok)
    as (d & Hres & Hkeys & Hinner & _).
  exists d. split_and!.
  - by rewrite extract_data_from_dss_eq, Hget, Hnames, Hstems.
  - by rewrite Hkeys, foldl_add_key_nil.
  - intros event. by rewrite Hinner, foldl_add_key_nil.
Qed.

(** X10.  [extract_data_from_dss] downloads once, lists once, and then reads
    the stems in order, each at most once, stopping at the first stem that
    fails; when it returns it has read every stem. *)
Theorem extract_reads_in_order dss_key pattern psp custom names stems :
  fs_get w dss_key = Answer () ->
  getPathnameList w dss_key pattern = Answer names ->
  remove_date names = Returns stems ->
  exists k,
    trace (extract_data_from_dss w dss_key pattern psp custom)
      = FsGet dss_key :: GetPathnameList pattern :: (ReadTs <$> take k stems) /\
    (forall d,
       result (extract_data_from_dss w dss_key pattern psp custom) = Returns d ->
       k = length stems).
Proof.
  intros Hget Hnames Hstems.
  destruct (extract_loop_reads w dss_key psp custom stems []) as (k & Htrace & Hlen).
  exists k. rewrite extract_data_from_dss_eq, Hget, Hnames, Hstems. cbn.
  split; [by rewrite Htrace|done].
Qed.

(** X11.  A failure before the loop is raised as it is, and nothing is read:
    after a failed download nothing is listed either; a listed pathname with
    fewer than five segments gives [IndexError]. *)
Theorem extract_fails_before_reading dss_key pattern psp custom :
  (forall c msg,
     fs_get w dss_key = Fault c msg ->
     extract_data_from_dss w dss_key pattern psp custom
     = IO (Raises (External c msg)) [FsGet dss_key]) /\
  (forall c msg,
     fs_get w dss_key = Answer () ->
     getPathnameList w dss_key pattern = Fault c msg ->
     extract_data_from_dss w dss_key pattern psp custom
     = IO (Raises (External c msg)) [FsGet dss_key; GetPathnameList pattern]) /\
  (forall names,
     fs_get w dss_key = Answer () ->
     getPathnameList w dss_key pattern = Answer names ->
     Exists (fun p => length (split ch_slash p) < 5) names ->
     extract_data_from_dss w dss_key pattern psp custom
     = IO (Raises IndexError) [FsGet dss_key; GetPathnameList pattern]).
Proof.
  split_and!.
  - intros c msg Hget. by rewrite extract_data_from_dss_eq, Hget.
  - intros c msg Hget Hnames. by rewrite extract_data_from_dss_eq, Hget, Hnames.
  - intros names Hget Hnames Hshort.
    rewrite extract_data_from_dss_eq, Hget, Hnames.
    unfold remove_date.
    destruct (no_part_d_pathnames names) as [stems|e] eqn:Hs.
    + exfalso. apply no_part_d_pathnames_Forall2 in Hs.
      apply Exists_exists in Hshort as (p & Hp & Hlen).
      apply list_elem_of_lookup in Hp as [i Hi].
      destruct (Forall2_lookup_l _ _ _ _ _ Hs Hi) as (s & _ & Hps).
      unfold remove_part_d, py_index in Hps.
      rewrite lookup_ge_None_2 in Hps by lia. done.
    + by rewrite (no_part_d_pathnames_Raises _ _ Hs).
Qed.

(** X12.  When the pattern matches no pathname, [extract_data_from_dss]
    returns the empty dict without reading anything. *)
Theorem extract_nothing_listed dss_key pattern psp custom :
  fs_get w dss_key = Answer () ->
  getPathnameList w dss_key pattern = Answer [] ->
  extract_data_from_dss w dss_key pattern psp custom
  = IO (Returns []) [FsGet dss_key; GetPathnameList pattern].
Proof.
  intros Hget Hnames. rewrite extract_data_from_dss_eq, Hget, Hnames.
  unfold remove_date. cbn. by rewrite list_of_set_nil.
Qed.

End ExtractFacts.

(** The two stems of the demo container: two basins, both resolving to the
    same (event, element) pair by default, read without failure. *)
Lemma demo_rounds_succeed :
  all_rounds_succeed (demo_world [north_pathname; south_pathname])
    "s3://wy-ble/Y001.dss" PNone None
    ["/NORTH/GAGE/FLOW//1DAY/RUN:Y001-E0001/";
     "/SOUTHWEST/GAGE/FLOW//1DAY/RUN:Y001-E0001/"].
Proof.
  intros p Hp. apply elem_of_cons in Hp as [->|Hp].
  { eexists _, _. split; [vm_compute|]; reflexivity. }
  apply elem_of_cons in Hp as [->|Hp].
  { eexists _, _. split; [vm_compute|]; reflexivity. }
  by apply elem_of_nil in Hp.
Qed.

Lemma extract_groups_resolved_pairs_witness :
  exists d,
    result (@extract_data_from_dss _ _ remove_dups_order
              (demo_world [north_pathname; south_pathname])
              "s3://wy-ble/Y001.dss" "/*/*/FLOW/*/*/*/" PNone None) = Returns d /\
    forall event element,
      is_Some (dict_get2 event element d) <->
      exists p,
        p ∈ ["/NORTH/GAGE/FLOW//1DAY/RUN:Y001-E0001/";
             "/SOUTHWEST/GAGE/FLOW//1DAY/RUN:Y001-E0001/"] /\
        resolve PNone None p = Returns (event, element).
Proof.
  refine (@extract_groups_resolved_pairs _ _ remove_dups_order
            (demo_world [north_pathname; south_pathname])
            "s3://wy-ble/Y001.dss" "/*/*/FLOW/*/*/*/" PNone None
            [north_pathname; south_pathname] _ eq_refl eq_refl _ demo_rounds_succeed).
  vm_compute; reflexivity.
Defined.

Lemma extract_keys_first_seen_witness :
  exists d,
    result (@extract_data_from_dss _ _ remove_dups_order
              (demo_world [north_pathname; south_pathname])
              "s3://wy-ble/Y001.dss" "/*/*/FLOW/*/*/*/" PNone None) = Returns d /\
    dict_keys d = ["RUN:Y001-E0001"] /\
    dict_keys (default [] (dict_get "RUN:Y001-E0001" d)) = ["GAGE"].
Proof.
  destruct (@extract_keys_first_seen _ _ remove_dups_order
              (demo_world [north_pathname; south_pathname])
              "s3://wy-ble/Y001.dss" "/*/*/FLOW/*/*/*/" PNone None
              [north_pathname; south_pathname]
              ["/NORTH/GAGE/FLOW//1DAY/RUN:Y001-E0001/";
               "/SOUTHWEST/GAGE/FLOW//1DAY/RUN:Y001-E0001/"]
              eq_refl eq_refl) as (d & Hres & Hkeys & Hinner).
  - vm_compute; reflexivity.
  - exact demo_rounds_succeed.
  - exists d. split_and!; [exact Hres|exact Hkeys|exact (Hinner "RUN:Y001-E0001")].
Defined.

Lemma extract_reads_in_order_witness :
  exists k,
    trace (@extract_data_from_dss _ _ remove_dups_order
             (demo_world [north_pathname; south_pathname])
             "s3://wy-ble/Y001.dss" "/*/*/FLOW/*/*/*/" PNone None)
    = FsGet "s3://wy-ble/Y001.dss" :: GetPathnameList "/*/*/FLOW/*/*/*/"
        :: (ReadTs <$> take k ["/NORTH/GAGE/FLOW//1DAY/RUN:Y001-E0001/";
                               "/SOUTHWEST/GAGE/FLOW//1DAY/RUN:Y001-E0001/"]).
Proof.
  destruct (@extract_reads_in_order _ _ remove_dups_order
              (demo_world [north_pathname; south_pathname])
              "s3://wy-ble/Y001.dss" "/*/*/FLOW/*/*/*/" PNone None
              [north_pathname; south_pathname]
              ["/NORTH/GAGE/FLOW//1DAY/RUN:Y001-E0001/";
               "/SOUTHWEST/GAGE/FLOW//1DAY/RUN:Y001-E0001/"]
              eq_refl eq_refl) as (k & Htrace & _).
  - vm_compute; reflexivity.
  - exists k. exact Htrace.
Defined.

Lemma extract_nothing_listed_witness :
  @extract_data_from_dss _ _ remove_dups_order (demo_world [])
    "s3://wy-ble/Y001.dss" "/*/*/STAGE/*/*/*/" PNone None
  = IO (Returns []) [FsGet "s3://wy-ble/Y001.dss"; GetPathnameList "/*/*/STAGE/*/*/*/"].
Proof.
  exact (@extract_nothing_listed _ _ remove_dups_order (demo_world [])
           "s3://wy-ble/Y001.dss" "/*/*/STAGE/*/*/*/" PNone None eq_refl eq_refl).
Defined.

Section MainFacts.
Context {Series DataArray : Type} {order : SetOrder}.
Variable w : World Series DataArray.
Implicit Types (ev : event DataArray) (params : gmap string pyval).

(** ** The monad, by equations *)

Lemma io_eta {A} (r : io DataArray A) : IO (result r) (trace r) = r.
Proof. by destruct r. Qed.

Lemma bind_mret {A B} (a : A) (k : A -> io DataArray B) : mret a ≫= k = k a.
Proof. unfold mbind, io_bind. cbn. apply io_eta. Qed.

Lemma bind_emit {B} ev (k : unit -> io DataArray B) :
  emit ev ≫= k = IO (result (k ())) (ev :: trace (k ())).
Proof. done. Qed.

Lemma bind_call {A B} (r : answer A) (k : A -> io DataArray B) :
  call r ≫= k
  = match r with
    | Answer a => k a
    | Fault c msg => IO (Raises (External c msg)) []
    end.
Proof. destruct r; [|done]. unfold call, lift, mbind, io_bind. cbn. apply io_eta. Qed.

Lemma bind_lift {A B} (o : outcome A) (k : A -> io DataArray B) :
  lift o ≫= k
  = match o with
    | Returns a => k a
    | Raises e => IO (Raises e) []
    end.
Proof. destruct o; [|done]. unfold lift, mbind, io_bind. cbn. apply io_eta. Qed.

Lemma bind_io {A B} (m : io DataArray A) (k : A -> io DataArray B) :
  m ≫= k
  = match result m with
    | Returns a => IO (result (k a)) (trace m ++ trace (k a))
    | Raises e => IO (Raises e) (trace m)
    end.
Proof. unfold mbind, io_bind. by destruct (result m). Qed.

Lemma try_except_io {A B} (m : io DataArray A) classes
    (handler : exn -> io DataArray B) (k : A -> io DataArray B) :
  try_except m classes handler k
  = match result m with
    | Returns a => IO (result (k a)) (trace m ++ trace (k a))
    | Raises e =>
        if bool_decide (class_of e ∈ classes)
        then IO (result (handler e)) (trace m ++ trace (handler e))
        else IO (Raises e) (trace m)
    end.
Proof. unfold try_except. by destruct (result m). Qed.

(** The loop of [main] over the events, as one round. *)
Lemma assemble_loop_cons event elements_data rest arrays :
  assemble_loop w ((event, elements_data) :: rest) arrays
  = let logged := LogInfo <$> option_list (log_text w event elements_data) in
    match event_array w event elements_data with
    | Fault c msg => IO (Raises (External c msg)) logged
    | Answer arr =>
        let r := assemble_loop w rest (arrays ++ [arr]) in
        IO (result r) (logged ++ trace r)
    end.
Proof.
  cbn [assemble_loop]. unfold log_info_args.
  destruct (log_text w event elements_data) as [text|].
  - rewrite bind_emit, bind_call.
    by destruct (event_array w event elements_data).
  - rewrite bind_mret, bind_call.
    destruct (event_array w event elements_data); [|done].
    cbn. by rewrite io_eta.
Qed.

Lemma new_dataset_trace name (da : DataArray) : trace (new_dataset w name da) = [].
Proof. unfold new_dataset. destruct name; try done; by destruct (xr_dataset w _ da). Qed.

(** The tail of [main], as a whole. *)
Lemma write_dataset_eq variable group leaf key dest data_dict :
  write_dataset w variable group leaf key dest data_dict
  = let a := assemble_loop w data_dict [] in
    match result a with
    | Raises e => IO (Raises e) (trace a)
    | Returns arrays =>
        match xr_concat w arrays with
        | Fault c msg => IO (Raises (External c msg)) (trace a)
        | Answer da =>
            match result (new_dataset w variable da) with
            | Raises e => IO (Raises e) (trace a)
            | Returns ds =>
                match new_node w leaf with
                | Fault c msg => IO (Raises (External c msg)) (trace a)
                | Answer _ =>
                    let tree :=
                      Node group {| data_vars := []; attrs := [] |}
                        [Node group {| data_vars := []; attrs := [] |}
                           [Node leaf ds []]] in
                    let progress :=
                      [LogInfo ("finished reading dss file: " +:+ py_str key);
                       LogInfo ("started writing " +:+ dest);
                       ToZarr dest tree "a"] in
                    match to_zarr w dest tree with
                    | Fault c msg => IO (Raises (External c msg)) (trace a ++ progress)
                    | Answer _ =>
                        IO (Returns (Some {| zarr_s3_key := dest; success := [];
                                             failures := [] |}))
                           (trace a ++ progress ++ [LogInfo ("finished writing " +:+ dest)])
                    end
                end
            end
        end
    end.
Proof.
  unfold write_dataset. cbn zeta. rewrite bind_io.
  destruct (result (assemble_loop w data_dict [])) as [arrays|e]; [|done].
  rewrite bind_call.
  destruct (xr_concat w arrays) as [da|c msg]; cbn beta iota delta [result trace];
    [|by rewrite app_nil_r].
  rewrite bind_io, new_dataset_trace.
  destruct (result (new_dataset w variable da)) as [ds|e];
    cbn beta iota delta [result trace app]; [|by rewrite app_nil_r].
  rewrite bind_call.
  destruct (new_node w leaf) as [[]|c msg]; cbn beta iota delta [result trace];
    [|by rewrite app_nil_r].
  rewrite !bind_emit. cbn beta iota delta [result trace]. rewrite bind_call.
  destruct (to_zarr w dest _) as [[]|c msg]; cbn beta iota delta [result trace]; [|done].
  done.
Qed.

(** [main] once its configuration checks are passed. *)
Lemma main_configured params bucket :
  params !! "dss_input_bucket" = Some bucket ->
  params !! "zarr_output_bucket" = Some bucket ->
  "AWS_ACCESS_KEY_ID" ∈ dom (environ w) ->
  "AWS_SECRET_ACCESS_KEY" ∈ dom (environ w) ->
  let key := default (PStr "") (params !! "dss_input_key") in
  let variable := default (PStr "FLOW") (params !! "simplify") in
  let group := default (PStr "main_group") (params !! "group_id") in
  let leaf := default (PStr "sub_group") (params !! "sub_group_name") in
  let dest := "s3://" +:+ py_str bucket +:+ "/"
              +:+ py_str (default PEmptyList (params !! "zarr_output_prefix")) in
  let pattern := "/*/*/" +:+ py_str variable +:+ "/*/*/*/" in
  let dss_key := "s3://" +:+ py_str bucket +:+ "/" +:+ py_str key in
  main w params
  = let c := check_file_exists w bucket key in
    match result c with
    | Raises e =>
        if bool_decide (class_of e ∈ [CValueError; CKeyError])
        then IO (Returns None) (trace c ++ [LogError e])
        else IO (Raises e) (trace c)
    | Returns _ =>
        match new_node w group with
        | Fault c' msg => IO (Raises (External c' msg)) (trace c)
        | Answer _ =>
            let started :=
              [LogInfo ("reading from dss file: " +:+ py_str key);
               LogInfo ("looking for " +:+ py_str bucket +:+ "/" +:+ py_str key)] in
            let x :=
              if truthy (default (PBool false) (params !! "use_custom_parser"))
              then extract_data_from_dss w dss_key pattern leaf (Some custom_f_part_parser)
              else extract_data_from_dss w dss_key pattern PNone None in
            match result x with
            | Returns data_dict =>
                let t := write_dataset w variable group leaf key dest data_dict in
                IO (result t) (trace c ++ started ++ trace x ++ trace t)
            | Raises e =>
                if truthy (default (PBool false) (params !! "use_custom_parser"))
                   && bool_decide (class_of e = CValueError)
                then IO (Returns None) (trace c ++ started ++ trace x ++ [LogError e])
                else IO (Raises e) (trace c ++ started ++ trace x)
            end
        end
    end.
Proof.
  intros Hin Hout Hid Hsecret. cbn zeta.
  unfold main, getitem. rewrite Hin, Hout. cbn [default from_option id].
  rewrite !bind_mret.
  rewrite !bool_decide_eq_true_2 by done. cbn [negb].
  rewrite try_except_io.
  destruct (result (check_file_exists w bucket _)) as [[]|e].
  2:{ case_bool_decide; [|done]. by rewrite bind_emit. }
  rewrite bind_call.
  destruct (new_node w _) as [[]|c msg]; cbn beta iota delta [result trace];
    [|by rewrite app_nil_r].
  rewrite bind_call. rewrite !bind_emit. cbn beta iota delta [result trace].
  destruct (truthy _); cbn [andb].
  - rewrite try_except_io.
    destruct (result (extract_data_from_dss w _ _ _ (Some custom_f_part_parser)))
      as [data_dict|e]; cbn [result trace].
    + done.
    + destruct (decide (class_of e = CValueError)) as [He|He].
      * rewrite bool_decide_eq_true_2 by (rewrite He; left).
        rewrite bool_decide_eq_true_2 by done. by rewrite bind_emit.
      * rewrite bool_decide_eq_false_2 by (by intros ?%list_elem_of_singleton).
        rewrite bool_decide_eq_false_2 by done. done.
  - rewrite bind_io.
    by destruct (result (extract_data_from_dss w _ _ PNone None)).
Qed.

End MainFacts.

Section MainProps.
Context {Series DataArray : Type} {order : SetOrder}.
Variable w : World Series DataArray.
Implicit Types (ev : event DataArray) (params : gmap string pyval).

Lemma check_file_exists_no_write bucket key :
  Forall (fun ev => ~ is_write ev) (trace (check_file_exists w bucket key)).
Proof.
  apply Forall_forall. intros ev Hev.
  apply check_file_exists_trace in Hev as (? & ? & ->). intros [].
Qed.

Lemma extract_data_from_dss_no_write dss_key pattern psp custom :
  Forall (fun ev => ~ is_write ev)
    (trace (extract_data_from_dss w dss_key pattern psp custom)).
Proof.
  apply Forall_forall. intros ev Hev.
  apply extract_data_from_dss_trace in Hev as [->|[->|Hev]]; [intros []..|].
  destruct ev; try done; intros [].
Qed.

Lemma assemble_loop_no_write items arrays :
  Forall (fun ev => ~ is_write ev) (trace (assemble_loop w items arrays)).
Proof.
  apply Forall_forall. intros ev Hev.
  apply assemble_loop_trace in Hev as [? ->]. intros [].
Qed.

Lemma write_dataset_not_None variable group leaf key dest data_dict :
  result (write_dataset w variable group leaf key dest data_dict) <> Returns None.
Proof.
  rewrite write_dataset_eq. cbn zeta.
  destruct (result (assemble_loop _ _ _)); [|done].
  destruct (xr_concat _ _); [|done].
  destruct (result (new_dataset _ _ _)); [|done].
  destruct (new_node _ _); [|done].
  by destruct (to_zarr _ _ _).
Qed.

(** A result of [main] means that its configuration checks were passed. *)
Lemma main_Returns_configured params o :
  result (main w params) = Returns o ->
  exists bucket,
    params !! "dss_input_bucket" = Some bucket /\
    params !! "zarr_output_bucket" = Some bucket /\
    "AWS_ACCESS_KEY_ID" ∈ dom (environ w) /\
    "AWS_SECRET_ACCESS_KEY" ∈ dom (environ w).
Proof.
  unfold main, getitem.
  destruct (params !! "dss_input_bucket") as [b_in|]; [|done].
  destruct (params !! "zarr_output_bucket") as [b_out|]; [|done].
  rewrite !bind_mret.
  case_bool_decide as Hb; [|done]. subst b_out. cbn [negb].
  case_bool_decide as Hid; [|done]. cbn [negb].
  case_bool_decide as Hsecret; [|done]. cbn [negb].
  intros _. by exists b_in.
Qed.

(** X13.  [main] checks its configuration before it touches anything, in
    this order: a missing [dss_input_bucket] or [zarr_output_bucket] is a
    [KeyError], two different buckets a [NotImplementedError], a missing
    credential a [ValueError]; in each case nothing is logged and no call to
    the object store is made. *)
Theorem main_configuration_errors params :
  (params !! "dss_input_bucket" = None ->
   main w params = IO (Raises (KeyError_param "dss_input_bucket")) []) /\
  (forall b_in,
     params !! "dss_input_bucket" = Some b_in ->
     params !! "zarr_output_bucket" = None ->
     main w params = IO (Raises (KeyError_param "zarr_output_bucket")) []) /\
  (forall b_in b_out,
     params !! "dss_input_bucket" = Some b_in ->
     params !! "zarr_output_bucket" = Some b_out ->
     (b_in <> b_out ->
      main w params = IO (Raises NotImplementedError_multi_bucket) []) /\
     (b_in = b_out -> "AWS_ACCESS_KEY_ID" ∉ dom (environ w) ->
      main w params = IO (Raises (ValueError_env "AWS_ACCESS_KEY_ID")) []) /\
     (b_in = b_out -> "AWS_ACCESS_KEY_ID" ∈ dom (environ w) ->
      "AWS_SECRET_ACCESS_KEY" ∉ dom (environ w) ->
      main w params = IO (Raises (ValueError_env "AWS_SECRET_ACCESS_KEY")) [])).
Proof.
  split_and!.
  - intros Hin. unfold main, getitem. by rewrite Hin.
  - intros b_in Hin Hout. unfold main, getitem. by rewrite Hin, Hout.
  - intros b_in b_out Hin Hout.
    assert (main w params
            = if negb (bool_decide (b_in = b_out))
              then raise NotImplementedError_multi_bucket
              else if negb (bool_decide ("AWS_ACCESS_KEY_ID" ∈ dom (environ w)))
              then raise (ValueError_env "AWS_ACCESS_KEY_ID")
              else if negb (bool_decide ("AWS_SECRET_ACCESS_KEY" ∈ dom (environ w)))
              then raise (ValueError_env "AWS_SECRET_ACCESS_KEY")
              else main w params) as Heq.
    { unfold main at 1, getitem. rewrite Hin, Hout. rewrite !bind_mret.
      repeat (case_bool_decide; cbn [negb]; [|done]).
      unfold main, getitem. rewrite Hin, Hout. rewrite !bind_mret.
      by rewrite !bool_decide_eq_true_2 by done. }
    split_and!.
    + intros Hne. rewrite Heq. by rewrite (bool_decide_eq_false_2 _ Hne).
    + intros Hb Hid. rewrite Heq.
      by rewrite (bool_decide_eq_true_2 _ Hb), (bool_decide_eq_false_2 _ Hid).
    + intros Hb Hid Hsecret. rewrite Heq.
      by rewrite (bool_decide_eq_true_2 _ Hb), (bool_decide_eq_true_2 _ Hid),
           (bool_decide_eq_false_2 _ Hsecret).
Qed.

(** X14.  Once the configuration checks are passed, a [.dss] key that
    [head_object] refuses makes [main] log the [KeyError] of
    [check_file_exists] and return nothing, after that single request: no
    download, no write. *)
Theorem main_inaccessible_file params bucket key :
  params !! "dss_input_bucket" = Some bucket ->
  params !! "zarr_output_bucket" = Some bucket ->
  "AWS_ACCESS_KEY_ID" ∈ dom (environ w) ->
  "AWS_SECRET_ACCESS_KEY" ∈ dom (environ w) ->
  default (PStr "") (params !! "dss_input_key") = PStr key ->
  path_suffix key = ".dss" ->
  head_object_ok w bucket key = false ->
  main w params
  = IO (Returns None)
       [HeadObject bucket key; LogError (KeyError_no_access key bucket)].
Proof.
  intros Hin Hout Hid Hsecret Hkey Hsuffix Hhead.
  rewrite (main_configured w params bucket) by done. cbn zeta.
  rewrite Hkey. unfold check_file_exists. rewrite Hsuffix. cbn [String.eqb negb].
  rewrite bind_emit, Hhead. cbn.
  by rewrite bool_decide_eq_true_2 by (right; left).
Qed.

(** X15.  When [main] returns a report, the report names the destination
    [s3://{zarr_output_bucket}/{zarr_output_prefix}] with empty [success] and
    [failures] lists; [to_zarr] was called on that destination exactly once,
    in mode [a], it succeeded, and it was the last action before the closing
    log record. *)
Theorem main_success_report params r :
  result (main w params) = Returns (Some r) ->
  let dest := "s3://" +:+ py_str (default (PStr "") (params !! "zarr_output_bucket"))
              +:+ "/" +:+ py_str (default PEmptyList (params !! "zarr_output_prefix")) in
  r = {| zarr_s3_key := dest; success := []; failures := [] |} /\
  exists tree before,
    trace (main w params)
    = before ++ [ToZarr dest tree "a"; LogInfo ("finished writing " +:+ dest)] /\
    to_zarr w dest tree = Answer () /\
    Forall (fun ev => ~ is_write ev) before.
Proof.
  intros Hres dest.
  destruct (main_Returns_configured _ _ Hres) as (bucket & Hin & Hout & Hid & Hsecret).
  revert Hres. subst dest. rewrite Hout. cbn [default from_option id].
  rewrite (main_configured w params bucket) by done. cbn zeta.
  pose proof (check_file_exists_no_write bucket
                (default (PStr "") (params !! "dss_input_key"))) as Hc.
  destruct (result (check_file_exists w bucket _)) as [[]|e].
  2:{ by case_bool_decide. }
  destruct (new_node w _) as [[]|c msg]; [|done].
  set (x := if truthy _ then _ else _).
  assert (Forall (fun ev => ~ is_write ev) (trace x)) as Hx.
  { subst x. destruct (truthy _); apply extract_data_from_dss_no_write. }
  destruct (result x) as [data_dict|e].
  2:{ by destruct (_ && _). }
  rewrite write_dataset_eq. cbn zeta.
  pose proof (assemble_loop_no_write data_dict []) as Ha.
  destruct (result (assemble_loop w data_dict [])) as [arrays|e]; [|done].
  destruct (xr_concat w arrays) as [da|c msg]; [|done].
  destruct (result (new_dataset w _ da)) as [ds|e]; [|done].
  destruct (new_node w _) as [[]|c msg]; [|done].
  destruct (to_zarr w _ _) as [[]|c msg] eqn:Hz; [|done].
  cbn [result trace]. intros [= <-]. split; [done|].
  eexists _, (trace (check_file_exists w bucket _) ++ _ :: _ :: trace x
              ++ trace (assemble_loop w data_dict []) ++ [_; _]).
  split_and!.
  - cbn [app]. rewrite <-!app_assoc. cbn [app]. rewrite <-!app_assoc. cbn [app]. done.
  - exact Hz.
  - repeat first [assumption | apply Forall_app; split | apply Forall_cons; split
                 | apply Forall_nil_2 | by intros [] ].
Qed.

(** X16.  When [main] returns nothing, the last thing it did was to log an
    error of class [ValueError] or [KeyError], and it has written nothing. *)
Theorem main_returns_nothing params :
  result (main w params) = Returns None ->
  Forall (fun ev => ~ is_write ev) (trace (main w params)) /\
  exists e before,
    trace (main w params) = before ++ [LogError e] /\
    class_of e ∈ [CValueError; CKeyError].
Proof.
  intros Hres.
  destruct (main_Returns_configured _ _ Hres) as (bucket & Hin & Hout & Hid & Hsecret).
  revert Hres.
  rewrite (main_configured w params bucket) by done. cbn zeta.
  pose proof (check_file_exists_no_write bucket
                (default (PStr "") (params !! "dss_input_key"))) as Hc.
  destruct (result (check_file_exists w bucket _)) as [[]|e].
  2:{ case_bool_decide as He; [|done]. intros _. split.
      - apply Forall_app. split; [done|]. apply Forall_cons. split; [by intros []|].
        apply Forall_nil_2.
      - by eexists _, _. }
  destruct (new_node w _) as [[]|c msg]; [|done].
  set (x := if truthy _ then _ else _).
  assert (Forall (fun ev => ~ is_write ev) (trace x)) as Hx.
  { subst x. destruct (truthy _); apply extract_data_from_dss_no_write. }
  destruct (result x) as [data_dict|e].
  { cbn [result]. intros Hnone. by apply write_dataset_not_None in Hnone. }
  destruct (truthy _); [|done]. cbn [andb].
  case_bool_decide as He; [|done]. intros _. split.
  - repeat first [assumption | apply Forall_app; split | apply Forall_cons; split
                 | apply Forall_nil_2 | by intros [] ].
  - eexists e, (trace (check_file_exists w bucket _) ++ _ :: _ :: trace x).
    split.
    + cbn [trace app]. by rewrite <-!app_assoc.
    + rewrite He. left.
Qed.

End MainProps.

Lemma main_inaccessible_file_witness :
  @main _ _ remove_dups_order (denied_world [north_pathname; south_pathname]) demo_params
  = IO (Returns None)
       [HeadObject (PStr "wy-ble")
          "realizations/realization-1/hms_output/Y001/HUC14040102/Y001.dss";
        LogError (KeyError_no_access
                    "realizations/realization-1/hms_output/Y001/HUC14040102/Y001.dss"
                    (PStr "wy-ble"))].
Proof.
  refine (@main_inaccessible_file _ _ remove_dups_order
            (denied_world [north_pathname; south_pathname]) demo_params
            (PStr "wy-ble")
            "realizations/realization-1/hms_output/Y001/HUC14040102/Y001.dss"
            _ _ _ _ _ _ _).
  - vm_compute; reflexivity.
  - vm_compute; reflexivity.
  - apply elem_of_dom. vm_compute. by eexists.
  - apply elem_of_dom. vm_compute. by eexists.
  - vm_compute; reflexivity.
  - vm_compute; reflexivity.
  - reflexivity.
Defined.

Lemma main_success_report_witness :
  result (@main _ _ remove_dups_order (demo_world [north_pathname; south_pathname])
            demo_params)
  = Returns (Some {| zarr_s3_key :=
                       "s3://wy-ble/realizations/realization-1/post_processing/test22.zarr";
                     success := []; failures := [] |}) /\
  exists tree before,
    trace (@main _ _ remove_dups_order (demo_world [north_pathname; south_pathname])
             demo_params)
    = before
      ++ [ToZarr "s3://wy-ble/realizations/realization-1/post_processing/test22.zarr"
            tree "a";
          LogInfo "finished writing s3://wy-ble/realizations/realization-1/post_processing/test22.zarr"].
Proof.
  assert (result (@main _ _ remove_dups_order
                    (demo_world [north_pathname; south_pathname]) demo_params)
          = Returns (Some {| zarr_s3_key :=
                               "s3://wy-ble/realizations/realization-1/post_processing/test22.zarr";
                             success := []; failures := [] |})) as Hres
    by (vm_compute; reflexivity).
  split; [exact Hres|].
  destruct (@main_success_report _ _ remove_dups_order
              (demo_world [north_pathname; south_pathname]) demo_params _ Hres)
    as (_ & tree & before & Htrace & _ & _).
  exists tree, before. exact Htrace.
Defined.

Lemma main_returns_nothing_witness :
  result (@main _ _ remove_dups_order (demo_world [north_pathname; south_pathname])
            (<["sub_group_name" := PStr "Y002"]> custom_params))
  = Returns None /\
  Forall (fun ev => ~ is_write ev)
    (trace (@main _ _ remove_dups_order (demo_world [north_pathname; south_pathname])
              (<["sub_group_name" := PStr "Y002"]> custom_params))).
Proof.
  assert (result (@main _ _ remove_dups_order
                    (demo_world [north_pathname; south_pathname])
                    (<["sub_group_name" := PStr "Y002"]> custom_params))
          = Returns None) as Hres by (vm_compute; reflexivity).
  split; [exact Hres|].
  exact (proj1 (@main_returns_nothing _ _ remove_dups_order
                  (demo_world [north_pathname; south_pathname]) _ Hres)).
Defined.

Section MainProps2.
Context {Series DataArray : Type} {order : SetOrder}.
Variable w : World Series DataArray.
Implicit Types (ev : event DataArray) (params : gmap string pyval).

(** X17.  After the pre-flight check, a failure of the extraction leaves
    nothing written.  In default mode [main] raises it, whatever its class,
    and logs no error; in custom mode [main] logs it and returns nothing when
    it is a [ValueError], and raises it without logging it otherwise. *)
Theorem main_extraction_failure params bucket e :
  params !! "dss_input_bucket" = Some bucket ->
  params !! "zarr_output_bucket" = Some bucket ->
  "AWS_ACCESS_KEY_ID" ∈ dom (environ w) ->
  "AWS_SECRET_ACCESS_KEY" ∈ dom (environ w) ->
  let key := default (PStr "") (params !! "dss_input_key") in
  let custom := truthy (default (PBool false) (params !! "use_custom_parser")) in
  let dss_key := "s3://" +:+ py_str bucket +:+ "/" +:+ py_str key in
  let pattern :=
    "/*/*/" +:+ py_str (default (PStr "FLOW") (params !! "simplify")) +:+ "/*/*/*/" in
  let x :=
    if custom
    then extract_data_from_dss w dss_key pattern
           (default (PStr "sub_group") (params !! "sub_group_name"))
           (Some custom_f_part_parser)
    else extract_data_from_dss w dss_key pattern PNone None in
  let caught := custom && bool_decide (class_of e = CValueError) in
  result (check_file_exists w bucket key) = Returns () ->
  new_node w (default (PStr "main_group") (params !! "group_id")) = Answer () ->
  result x = Raises e ->
  main w params
  = IO (if caught then Returns None else Raises e)
       (trace (check_file_exists w bucket key)
        ++ [LogInfo ("reading from dss file: " +:+ py_str key);
            LogInfo ("looking for " +:+ py_str bucket +:+ "/" +:+ py_str key)]
        ++ trace x
        ++ (if caught then [LogError e] else [])) /\
  Forall (fun ev => ~ is_write ev) (trace (main w params)).
Proof.
  intros Hin Hout Hid Hsecret key custom dss_key pattern x caught Hcheck Hnode Hx.
  rewrite (main_configured w params bucket) by done. cbn zeta.
  fold key custom dss_key pattern.
  pose proof (check_file_exists_no_write w bucket key) as Hc.
  rewrite Hcheck, Hnode. fold x.
  assert (Forall (fun ev => ~ is_write ev) (trace x)) as Hxt.
  { subst x. destruct custom; apply extract_data_from_dss_no_write. }
  rewrite Hx. fold caught.
  destruct caught; cbn [trace].
  - split; [done|].
    repeat first [assumption | apply Forall_app; split | apply Forall_cons; split
                 | apply Forall_nil_2 | by intros [] ].
  - rewrite app_nil_r. split; [done|].
    repeat first [assumption | apply Forall_app; split | apply Forall_cons; split
                 | apply Forall_nil_2 | by intros [] ].
Qed.

(** X18.  [main] reads its options through eight keys only, and
    [use_custom_parser] through its truth value only: two invocations that
    agree on the other seven keys and on that truth value behave alike. *)
Theorem main_reads_eight_keys params params' :
  (forall k,
     k ∈ ["dss_input_bucket"; "dss_input_key"; "zarr_output_bucket";
          "zarr_output_prefix"; "simplify"; "group_id"; "sub_group_name"] ->
     params !! k = params' !! k) ->
  truthy (default (PBool false) (params !! "use_custom_parser"))
  = truthy (default (PBool false) (params' !! "use_custom_parser")) ->
  main w params = main w params'.
Proof.
  intros Hkeys Htruth. unfold main, getitem. rewrite Htruth.
  rewrite !(Hkeys "dss_input_bucket") by (rewrite !elem_of_cons; tauto).
  rewrite !(Hkeys "dss_input_key") by (rewrite !elem_of_cons; tauto).
  rewrite !(Hkeys "zarr_output_bucket") by (rewrite !elem_of_cons; tauto).
  rewrite !(Hkeys "zarr_output_prefix") by (rewrite !elem_of_cons; tauto).
  rewrite !(Hkeys "simplify") by (rewrite !elem_of_cons; tauto).
  rewrite !(Hkeys "group_id") by (rewrite !elem_of_cons; tauto).
  rewrite !(Hkeys "sub_group_name") by (rewrite !elem_of_cons; tauto).
  done.
Qed.

(** X19.  When the loop over the events returns, it has appended one array
    per event, in the order of the dict's keys, each built from the event's
    own elements.  It has logged, in that order, the text [logging] makes of
    each event key with its elements, which is the key itself when the key
    holds no [%] and the event has an element. *)
Theorem assemble_loop_Returns items arrays arrays' :
  result (assemble_loop w items arrays) = Returns arrays' ->
  exists new,
    arrays' = arrays ++ new /\
    Forall2 (fun item arr => event_array w item.1 item.2 = Answer arr) items new /\
    trace (assemble_loop w items arrays)
    = LogInfo <$> omap (fun item => log_text w item.1 item.2) items /\
    (Forall (fun item => in_chars "%" item.1 = false /\ item.2 <> []) items ->
     trace (assemble_loop w items arrays) = LogInfo <$> dict_keys items).
Proof.
  revert arrays. induction items as [|[event elements_data] items IH]; intros arrays.
  - intros [= <-]. exists []. by rewrite app_nil_r.
  - rewrite assemble_loop_cons.
    destruct (event_array w event elements_data) as [arr|c msg] eqn:Harr; [|done].
    cbn [result trace]. intros Hres.
    destruct (IH _ Hres) as (new & -> & Hall & Htrace & Hplain).
    exists (arr :: new). split_and!.
    + by rewrite <-app_assoc.
    + by constructor.
    + rewrite Htrace. cbn [omap list_omap fst snd].
      by destruct (log_text w event elements_data).
    + intros [[Hpercent Helements] Hitems]%Forall_cons. cbn [fst snd] in *.
      rewrite (Hplain Hitems). unfold log_text. rewrite Hpercent.
      by destruct elements_data.
Qed.

End MainProps2.

Lemma main_extraction_failure_witness :
  @main _ _ remove_dups_order (demo_world ["/NORTH/GAGE/FLOW"]) demo_params
  = IO (Raises IndexError)
       [HeadObject (PStr "wy-ble")
          "realizations/realization-1/hms_output/Y001/HUC14040102/Y001.dss";
        LogInfo "reading from dss file: realizations/realization-1/hms_output/Y001/HUC14040102/Y001.dss";
        LogInfo "looking for wy-ble/realizations/realization-1/hms_output/Y001/HUC14040102/Y001.dss";
        FsGet "s3://wy-ble/realizations/realization-1/hms_output/Y001/HUC14040102/Y001.dss";
        GetPathnameList "/*/*/FLOW/*/*/*/"] /\
  @main _ _ remove_dups_order (demo_world [north_pathname])
    (<["sub_group_name" := PStr "Y002"]> custom_params)
  = IO (Returns None)
       [HeadObject (PStr "wy-ble")
          "realizations/realization-1/hms_output/Y001/HUC14040102/Y001.dss";
        LogInfo "reading from dss file: realizations/realization-1/hms_output/Y001/HUC14040102/Y001.dss";
        LogInfo "looking for wy-ble/realizations/realization-1/hms_output/Y001/HUC14040102/Y001.dss";
        FsGet "s3://wy-ble/realizations/realization-1/hms_output/Y001/HUC14040102/Y001.dss";
        GetPathnameList "/*/*/FLOW/*/*/*/";
        ReadTs "/NORTH/GAGE/FLOW//1DAY/RUN:Y001-E0001/";
        LogError (ValueError_year "Y001" (PStr "Y002"))].
Proof.
  split.
  - refine (eq_trans
              (proj1 (@main_extraction_failure _ _ remove_dups_order
                        (demo_world ["/NORTH/GAGE/FLOW"]) demo_params (PStr "wy-ble")
                        IndexError _ _ _ _ eq_refl eq_refl _)) _).
    + vm_compute; reflexivity.
    + vm_compute; reflexivity.
    + apply elem_of_dom. vm_compute. by eexists.
    + apply elem_of_dom. vm_compute. by eexists.
    + vm_compute; reflexivity.
    + vm_compute; reflexivity.
  - refine (eq_trans
              (proj1 (@main_extraction_failure _ _ remove_dups_order
                        (demo_world [north_pathname])
                        (<["sub_group_name" := PStr "Y002"]> custom_params)
                        (PStr "wy-ble") (ValueError_year "Y001" (PStr "Y002"))
                        _ _ _ _ eq_refl eq_refl _)) _).
    + vm_compute; reflexivity.
    + vm_compute; reflexivity.
    + apply elem_of_dom. vm_compute. by eexists.
    + apply elem_of_dom. vm_compute. by eexists.
    + vm_compute; reflexivity.
    + vm_compute; reflexivity.
Defined.

Lemma main_reads_eight_keys_witness :
  @main _ _ remove_dups_order (demo_world [north_pathname; south_pathname])
    (<["use_custom_parser" := PStr "False"]> stage_params)
  = @main _ _ remove_dups_order (demo_world [north_pathname; south_pathname])
      (<["use_custom_parser" := PBool true]> demo_params).
Proof.
  refine (@main_reads_eight_keys _ _ remove_dups_order
            (demo_world [north_pathname; south_pathname])
            (<["use_custom_parser" := PStr "False"]> stage_params)
            (<["use_custom_parser" := PBool true]> demo_params) _ _).
  - intros k Hk.
    repeat (apply elem_of_cons in Hk as [->|Hk]; [vm_compute; reflexivity|]).
    by apply elem_of_nil in Hk.
  - vm_compute; reflexivity.
Defined.

Lemma assemble_loop_Returns_witness :
  exists new,
    [[("E0001", [("GAGE", [1])])]; [("E0002", [("GAGE", [2])])]] = [] ++ new /\
    Forall2 (fun item arr =>
               event_array (demo_world []) item.1 item.2 = Answer arr)
      [("E0001", [("GAGE", [1])]); ("E0002", [("GAGE", [2])])] new /\
    trace (assemble_loop (demo_world [])
             [("E0001", [("GAGE", [1])]); ("E0002", [("GAGE", [2])])] [])
    = LogInfo <$> ["E0001"; "E0002"].
Proof.
  destruct (assemble_loop_Returns (demo_world [])
              [("E0001", [("GAGE", [1])]); ("E0002", [("GAGE", [2])])] [] _ eq_refl)
    as (new & Hnew & Hall & _ & Hplain).
  exists new. split_and!; [exact Hnew|exact Hall|].
  apply Hplain. repeat (apply Forall_cons; split; [by split|]). apply Forall_nil_2.
Defined.

Lemma endswith_empty s : endswith s "" = true.
Proof. induction s as [|a s IH]; [done|]. simpl. by rewrite IH. Qed.

Lemma matching_keys_filter suffix contents :
  Forall (fun obj : gmap string string => is_Some (obj !! "Key")) contents ->
  matching_keys suffix contents
  = Returns (filter (fun k => endswith k suffix = true)
               (omap (fun obj : gmap string string => obj !! "Key") contents)).
Proof.
  induction 1 as [|obj contents [key Hkey] _ IH]; [done|].
  cbn [matching_keys omap list_omap]. unfold subscript. rewrite Hkey.
  cbn [mbind outcome_bind]. rewrite IH.
  destruct (endswith key suffix) eqn:He.
  - cbn [mbind outcome_bind]. by rewrite filter_cons_True.
  - rewrite filter_cons_False; [done|]. by rewrite He.
Qed.

Lemma matching_keys_suffix suffix contents keys :
  matching_keys suffix contents = Returns keys ->
  Forall (fun k => endswith k suffix = true) keys.
Proof.
  revert keys. induction contents as [|obj contents IH]; intros keys; cbn [matching_keys].
  - intros [= <-]. constructor.
  - unfold subscript. destruct (obj !! "Key") as [key|]; [|done].
    cbn [mbind outcome_bind].
    destruct (endswith key suffix) eqn:He; [|apply IH].
    destruct (matching_keys suffix contents) as [ks|]; [|done].
    cbn [mbind outcome_bind]. intros [= <-]. constructor; [done|]. by apply IH.
Qed.

Section ListKeysFacts.
Variable list_objects_v2 : string -> string -> option string -> answer response.

Lemma list_keys_loop_suffix fuel bucket prefix suffix token keys keys' :
  Forall (fun k => endswith k suffix = true) keys ->
  list_keys_loop list_objects_v2 fuel bucket prefix suffix token keys
    = Some (Returns keys') ->
  Forall (fun k => endswith k suffix = true) keys'.
Proof.
  revert token keys. induction fuel as [|fuel IH]; intros token keys Hkeys; [done|].
  cbn [list_keys_loop].
  destruct (list_objects_v2 bucket prefix token) as [resp|]; [|done].
  destruct (contents_of resp) as [contents|]; [|done]. cbn [mbind outcome_bind].
  destruct (matching_keys suffix contents) as [new|] eqn:Hnew; [|done].
  apply matching_keys_suffix in Hnew.
  destruct (NextContinuationToken resp) as [next|].
  - apply IH. by apply Forall_app.
  - intros [= <-]. by apply Forall_app.
Qed.

Lemma list_keys_loop_walk fuel bucket prefix suffix token keys resps :
  walk list_objects_v2 bucket prefix token resps ->
  Forall well_formed resps ->
  length resps <= fuel ->
  list_keys_loop list_objects_v2 fuel bucket prefix suffix token keys
  = Some (Returns (keys ++ filter (fun k => endswith k suffix = true)
                             (keys_of_pages resps))).
Proof.
  intros Hwalk. revert fuel keys.
  induction Hwalk as [token resp Hresp Hlast|token resp next rest Hresp Hnext _ IH];
    intros fuel keys Hwf Hlen.
  - destruct fuel as [|fuel]; [simpl in Hlen; lia|].
    apply Forall_cons in Hwf as [(contents & Hc & Hkeys) _].
    cbn [list_keys_loop]. rewrite Hresp. unfold contents_of. rewrite Hc.
    cbn [mbind outcome_bind]. rewrite (matching_keys_filter _ _ Hkeys), Hlast.
    unfold keys_of_pages. cbn. rewrite Hc. cbn [default from_option id].
    by rewrite app_nil_r.
  - destruct fuel as [|fuel]; [simpl in Hlen; lia|].
    apply Forall_cons in Hwf as [(contents & Hc & Hkeys) Hwf].
    cbn [list_keys_loop]. rewrite Hresp. unfold contents_of. rewrite Hc.
    cbn [mbind outcome_bind]. rewrite (matching_keys_filter _ _ Hkeys), Hnext.
    rewrite IH; [|done|simpl in Hlen; lia].
    unfold keys_of_pages. cbn. rewrite Hc. cbn [default from_option id].
    by rewrite filter_app, app_assoc.
Qed.

(** X20.  Every key [list_keys] returns ends with the suffix asked for. *)
Theorem list_keys_suffix fuel bucket prefix suffix keys :
  list_keys list_objects_v2 fuel bucket prefix suffix = Some (Returns keys) ->
  Forall (fun k => endswith k suffix = true) keys.
Proof. apply list_keys_loop_suffix. constructor. Qed.

(** X21.  When the service hands out finitely many pages, each with its
    [Contents], [list_keys] ends after one request per page, each request
    carrying the token of the page before, and returns the keys of all the
    pages that end with the suffix, in page order; with the default suffix
    it returns them all. *)
Theorem list_keys_walk fuel bucket prefix suffix resps :
  walk list_objects_v2 bucket prefix None resps ->
  Forall well_formed resps ->
  length resps <= fuel ->
  list_keys list_objects_v2 fuel bucket prefix suffix
  = Some (Returns (filter (fun k => endswith k suffix = true) (keys_of_pages resps))) /\
  list_keys list_objects_v2 fuel bucket prefix "" = Some (Returns (keys_of_pages resps)).
Proof.
  intros Hwalk Hwf Hlen. unfold list_keys.
  rewrite !(list_keys_loop_walk _ _ _ _ _ _ resps) by done. cbn [app].
  split; [done|]. do 2 f_equal.
  induction (keys_of_pages resps) as [|k ks IH]; [done|].
  rewrite filter_cons_True; [by rewrite IH|]. apply endswith_empty.
Qed.

(** X22.  A page without [Contents], which is what the service answers for
    a prefix that matches nothing, makes [list_keys] raise [KeyError] instead
    of returning the keys collected so far (or the empty list). *)
Theorem list_keys_no_contents fuel bucket prefix suffix token keys resp :
  list_objects_v2 bucket prefix token = Answer resp ->
  Contents resp = None ->
  list_keys_loop list_objects_v2 (S fuel) bucket prefix suffix token keys
  = Some (Raises (KeyError_param "Contents")).
Proof.
  intros Hresp Hc. cbn [list_keys_loop]. unfold contents_of. by rewrite Hresp, Hc.
Qed.

(** X23.  The loop of [list_keys] has no bound of its own: while every
    response carries its [Contents] and a continuation token, no number of
    requests ends it. *)
Theorem list_keys_never_ends fuel bucket prefix suffix :
  (forall token,
     exists resp next,
       list_objects_v2 bucket prefix token = Answer resp /\
       well_formed resp /\ NextContinuationToken resp = Some next) ->
  list_keys list_objects_v2 fuel bucket prefix suffix = None.
Proof.
  intros Hall. unfold list_keys. generalize (@None string) (@nil string).
  induction fuel as [|fuel IH]; intros token keys; [done|].
  destruct (Hall token) as (resp & next & Hresp & (contents & Hc & Hkeys) & Hnext).
  cbn [list_keys_loop]. rewrite Hresp. unfold contents_of. rewrite Hc.
  cbn [mbind outcome_bind]. rewrite (matching_keys_filter _ _ Hkeys), Hnext.
  apply IH.
Qed.

End ListKeysFacts.

Lemma list_keys_suffix_witness :
  list_keys two_pages 5 "wy-ble" "runs/" ".dss"
    = Some (Returns ["runs/Y001.dss"; "runs/Y002.dss"]) /\
  Forall (fun k => endswith k ".dss" = true) ["runs/Y001.dss"; "runs/Y002.dss"].
Proof.
  assert (list_keys two_pages 5 "wy-ble" "runs/" ".dss"
          = Some (Returns ["runs/Y001.dss"; "runs/Y002.dss"])) as Hkeys
    by (vm_compute; reflexivity).
  split; [exact Hkeys|].
  exact (list_keys_suffix two_pages 5 "wy-ble" "runs/" ".dss" _ Hkeys).
Defined.

Lemma list_keys_walk_witness :
  list_keys two_pages 2 "wy-ble" "runs/" ""
  = Some (Returns ["runs/Y001.dss"; "runs/notes.txt"; "runs/Y002.dss"]).
Proof.
  refine (proj2 (list_keys_walk two_pages 2 "wy-ble" "runs/" ".dss"
                   [ {| Contents := Some [{["Key" := "runs/Y001.dss"]};
                                          {["Key" := "runs/notes.txt"]}];
                        NextContinuationToken := Some "page-2" |};
                     {| Contents := Some [{["Key" := "runs/Y002.dss"]}];
                        NextContinuationToken := None |} ] _ _ _)).
  - eapply walk_next; [reflexivity|reflexivity|]. by apply walk_last.
  - repeat (apply Forall_cons; split;
            [eexists; split; [reflexivity|];
             repeat (apply Forall_cons; split; [by eexists|]); apply Forall_nil_2|]).
    apply Forall_nil_2.
  - simpl. lia.
Defined.

Lemma list_keys_no_contents_witness :
  list_keys nothing_listed 1 "wy-ble" "runs/" ""
  = Some (Raises (KeyError_param "Contents")).
Proof.
  exact (list_keys_no_contents nothing_listed 0 "wy-ble" "runs/" "" None [] _
           eq_refl eq_refl).
Defined.

Lemma list_keys_never_ends_witness :
  list_keys endless 1000 "wy-ble" "runs/" ".dss" = None.
Proof.
  refine (list_keys_never_ends endless 1000 "wy-ble" "runs/" ".dss" _).
  intros token. eexists _, _. split; [reflexivity|]. split; [|reflexivity].
  eexists. split; [reflexivity|].
  apply Forall_cons. split; [by eexists|]. apply Forall_nil_2.
Defined.

Lemma drop_chars_split i s :
  i <= String.length s ->
  exists pre, s = pre +:+ drop_chars i s /\ String.length pre = i.
Proof.
  revert s. induction i as [|i IH]; intros s Hi; [by exists ""|].
  destruct s as [|a s]; [simpl in Hi; lia|].
  destruct (IH s) as (pre & Hpre & Hlen); [simpl in Hi; lia|].
  exists (String a pre). simpl. by rewrite <-Hpre, Hlen.
Qed.

Section CheckFacts.
Context {Series DataArray : Type}.
Variable w : World Series DataArray.

(** X24.  When [check_file_exists] returns, the key is a string whose file
    name (its last path component) is a non-empty stem followed by [.dss],
    and exactly one [head_object] request was sent, which succeeded. *)
Theorem check_file_exists_Returns bucket key :
  result (check_file_exists w bucket key) = Returns () ->
  exists k stem,
    key = PStr k /\ stem <> "" /\ path_name k = stem +:+ ".dss" /\
    head_object_ok w bucket k = true /\
    trace (check_file_exists w bucket key) = [HeadObject bucket k].
Proof.
  unfold check_file_exists. destruct key as [|b|k|]; try done.
  destruct (String.eqb_spec (path_suffix k) ".dss") as [Hs|Hs]; [|done].
  cbn [negb]. rewrite bind_emit.
  destruct (head_object_ok w bucket k) eqn:Hh; [|done]. intros _.
  unfold path_suffix in Hs.
  destruct (rfind "." (path_name k)) as [i|]; [|done].
  destruct (0 <? i) eqn:Hpos; [|done].
  destruct (i <? String.length (path_name k) - 1) eqn:Hlt; [|done].
  cbn [andb] in Hs.
  apply Nat.ltb_lt in Hpos, Hlt.
  destruct (drop_chars_split i (path_name k)) as (stem & Hname & Hlen); [lia|].
  exists k, stem. split_and!; [done| |by rewrite <-Hs|done|done].
  intros ->. simpl in Hlen. lia.
Qed.

End CheckFacts.

Lemma check_file_exists_Returns_witness :
  exists k stem,
    PStr "hms_output/Y001.dss" = PStr k /\ stem <> "" /\
    path_name k = stem +:+ ".dss" /\
    head_object_ok (demo_world []) (PStr "wy-ble") k = true /\
    trace (check_file_exists (demo_world []) (PStr "wy-ble") (PStr "hms_output/Y001.dss"))
    = [HeadObject (PStr "wy-ble") k].
Proof.
  refine (check_file_exists_Returns (demo_world []) (PStr "wy-ble")
            (PStr "hms_output/Y001.dss") _).
  vm_compute; reflexivity.
Defined.

(** * The expected context in custom mode *)

Section CustomContext.
Context {Series DataArray : Type} {order : SetOrder}.
Variable w : World Series DataArray.
Implicit Types (ev : event DataArray) (params : gmap string pyval).

(** The loop stops at the first stem the resolver rejects, after reading
    it. *)
Lemma extract_loop_rejects dss_key psp parser before p after f b v e d :
  all_rounds_succeed w dss_key psp (Some parser) before ->
  get_path_part p "F" = Returns f ->
  get_path_part p "B" = Returns b ->
  read_ts w dss_key p = Answer v ->
  parser f psp = Raises e ->
  extract_loop w dss_key psp (Some parser) (before ++ p :: after) d
  = IO (Raises e) (ReadTs <$> before ++ [p]).
Proof.
  intros Hok Hf Hb Hv He. revert d.
  induction before as [|q before IH]; intros d.
  - cbn [app]. rewrite extract_loop_cons, Hf, Hb, Hv. by rewrite He.
  - destruct (Hok q) as ([event element] & vq & Hr & Hvq); [left|].
    apply resolve_inv in Hr as (fq & Hfq & Hbq & Heq).
    cbn [app]. rewrite extract_loop_cons, Hfq, Hbq, Hvq, Heq. cbn zeta.
    rewrite IH; [done|]. intros q' Hq'. apply Hok. by right.
Qed.

(** The loop reads every stem when every round succeeds. *)
Lemma extract_loop_reads_all dss_key psp custom pathnames d :
  all_rounds_succeed w dss_key psp custom pathnames ->
  trace (extract_loop w dss_key psp custom pathnames d) = ReadTs <$> pathnames.
Proof.
  intros Hok.
  destruct (extract_loop_shape w dss_key psp custom pathnames d Hok) as (d' & Hres & _).
  destruct (extract_loop_reads w dss_key psp custom pathnames d) as (k & Htrace & Hlen).
  by rewrite Htrace, (Hlen d' Hres), take_ge.
Qed.

(** C10.  In custom mode, once the configuration checks, the pre-flight
    check, the download and the listing are passed, [main] hands the
    [sub_group_name] option (default [sub_group]) to the custom resolver as
    the expected context, for each stem in turn.  At the first stem whose run
    identifier the resolver rejects against that value, [main] has read the
    stems up to it, logs the resolver's error, which names that value as the
    expected year, and returns nothing.  When the resolver accepts every stem
    against that value, the event keys of the data are what it returned, and
    [main] goes on to write them under a leaf named by the same value.  No
    key of [params] outside the eight that [main] reads changes anything. *)
Theorem main_custom_context params bucket names stems :
  params !! "dss_input_bucket" = Some bucket ->
  params !! "zarr_output_bucket" = Some bucket ->
  "AWS_ACCESS_KEY_ID" ∈ dom (environ w) ->
  "AWS_SECRET_ACCESS_KEY" ∈ dom (environ w) ->
  truthy (default (PBool false) (params !! "use_custom_parser")) = true ->
  let sgn := default (PStr "sub_group") (params !! "sub_group_name") in
  let key := default (PStr "") (params !! "dss_input_key") in
  let variable := default (PStr "FLOW") (params !! "simplify") in
  let group := default (PStr "main_group") (params !! "group_id") in
  let dest := "s3://" +:+ py_str bucket +:+ "/"
              +:+ py_str (default PEmptyList (params !! "zarr_output_prefix")) in
  let pattern := "/*/*/" +:+ py_str variable +:+ "/*/*/*/" in
  let dss_key := "s3://" +:+ py_str bucket +:+ "/" +:+ py_str key in
  let started :=
    trace (check_file_exists w bucket key)
    ++ [LogInfo ("reading from dss file: " +:+ py_str key);
        LogInfo ("looking for " +:+ py_str bucket +:+ "/" +:+ py_str key);
        FsGet dss_key; GetPathnameList pattern] in
  result (check_file_exists w bucket key) = Returns () ->
  new_node w group = Answer () ->
  fs_get w dss_key = Answer () ->
  getPathnameList w dss_key pattern = Answer names ->
  remove_date names = Returns stems ->
  (forall before p after f b v e,
     stems = before ++ p :: after ->
     all_rounds_succeed w dss_key sgn (Some custom_f_part_parser) before ->
     get_path_part p "F" = Returns f ->
     get_path_part p "B" = Returns b ->
     read_ts w dss_key p = Answer v ->
     custom_f_part_parser f sgn = Raises e ->
     main w params
     = IO (Returns None) (started ++ (ReadTs <$> before ++ [p]) ++ [LogError e]) /\
     (forall part_1 sp, e = ValueError_year part_1 sp -> sp = sgn)) /\
  (all_rounds_succeed w dss_key sgn (Some custom_f_part_parser) stems ->
   exists d,
     result (extract_data_from_dss w dss_key pattern sgn (Some custom_f_part_parser))
       = Returns d /\
     dict_keys d = first_seen (events_resolved sgn (Some custom_f_part_parser) stems) /\
     (forall p, p ∈ stems ->
        exists f event,
          get_path_part p "F" = Returns f /\
          custom_f_part_parser f sgn = Returns event /\
          event ∈ dict_keys d) /\
     let t := write_dataset w variable group sgn key dest d in
     main w params = IO (result t) (started ++ (ReadTs <$> stems) ++ trace t) /\
     (forall r, result t = Returns (Some r) ->
        exists tree,
          ToZarr dest tree "a" ∈ trace (main w params) /\ leaf_names tree = [sgn])) /\
  (forall k v,
     k ∉ ["dss_input_bucket"; "dss_input_key"; "zarr_output_bucket";
          "zarr_output_prefix"; "simplify"; "group_id"; "use_custom_parser";
          "sub_group_name"] ->
     main w (<[k := v]> params) = main w params).
Proof.
  intros Hin Hout Hid Hsecret Hcustom sgn key variable group dest pattern dss_key started
    Hcheck Hnode Hget Hnames Hstems.
  assert (main w params
          = let x := extract_data_from_dss w dss_key pattern sgn
                       (Some custom_f_part_parser) in
            match result x with
            | Returns d =>
                let t := write_dataset w variable group sgn key dest d in
                IO (result t)
                   (trace (check_file_exists w bucket key)
                    ++ [LogInfo ("reading from dss file: " +:+ py_str key);
                        LogInfo ("looking for " +:+ py_str bucket +:+ "/" +:+ py_str key)]
                    ++ trace x ++ trace t)
            | Raises e =>
                if bool_decide (class_of e = CValueError)
                then IO (Returns None)
                       (trace (check_file_exists w bucket key)
                        ++ [LogInfo ("reading from dss file: " +:+ py_str key);
                            LogInfo ("looking for " +:+ py_str bucket +:+ "/"
                                     +:+ py_str key)]
                        ++ trace x ++ [LogError e])
                else IO (Raises e)
                       (trace (check_file_exists w bucket key)
                        ++ [LogInfo ("reading from dss file: " +:+ py_str key);
                            LogInfo ("looking for " +:+ py_str bucket +:+ "/"
                                     +:+ py_str key)]
                        ++ trace x)
            end) as Hmain.
  { rewrite (main_configured w params bucket) by done. cbn zeta.
    fold sgn key variable group dest pattern dss_key.
    by rewrite Hcheck, Hnode, Hcustom. }
  assert (extract_data_from_dss w dss_key pattern sgn (Some custom_f_part_parser)
          = let r := extract_loop w dss_key sgn (Some custom_f_part_parser) stems [] in
            IO (result r) (FsGet dss_key :: GetPathnameList pattern :: trace r)) as Hx.
  { by rewrite extract_data_from_dss_eq, Hget, Hnames, Hstems. }
  split_and!.
  - intros before p after f b v e -> Hok Hf Hb Hv He. split.
    + rewrite Hmain, Hx. cbn zeta.
      rewrite (extract_loop_rejects _ _ _ _ _ _ f b v e) by done. cbn [result trace].
      assert (class_of e = CValueError) as Hclass.
      { by apply custom_f_part_parser_Raises in He as [[? ->]|[? ->]]. }
      rewrite bool_decide_eq_true_2 by done. f_equal.
      subst started. rewrite <-!app_assoc. cbn [app]. done.
    + intros part_1 sp ->.
      apply custom_f_part_parser_Raises in He as [[? ?]|[? ?]]; congruence.
  - intros Hok.
    destruct (extract_loop_shape w dss_key sgn (Some custom_f_part_parser) stems [] Hok)
      as (d & Hres & Hkeys & _ & _).
    exists d. split_and!.
    + by rewrite Hx.
    + by rewrite Hkeys, foldl_add_key_nil.
    + intros p Hp. destruct (Hok p Hp) as ([event element] & v & Hr & _).
      pose proof Hr as (f & Hf & _ & He)%resolve_inv.
      exists f, event. split_and!; [done..|].
      rewrite Hkeys, foldl_add_key_nil.
      assert (event ∈ events_resolved sgn (Some custom_f_part_parser) stems) as Hev.
      { unfold events_resolved. apply list_elem_of_omap. exists p. split; [done|]. by rewrite Hr. }
      clear -Hev. revert Hev.
      induction (events_resolved sgn (Some custom_f_part_parser) stems) as [|x l IH];
        [by intros ?%elem_of_nil|].
      cbn [first_seen]. intros [->|Hin]%elem_of_cons; [left|].
      destruct (decide (event = x)) as [->|Hne]; [left|].
      right. apply list_elem_of_filter. split; [done|]. by apply IH.
    + assert (main w params
              = IO (result (write_dataset w variable group sgn key dest d))
                   (started ++ (ReadTs <$> stems)
                    ++ trace (write_dataset w variable group sgn key dest d))) as Heq.
      { rewrite Hmain, Hx. cbn zeta. cbn [result trace]. rewrite Hres.
        rewrite (extract_loop_reads_all _ _ _ _ _ Hok). f_equal.
        subst started. rewrite <-!app_assoc. cbn [app]. done. }
      cbn zeta. split; [exact Heq|].
      intros r Hr. rewrite Heq. cbn [trace].
      revert Hr. rewrite write_dataset_eq. cbn zeta.
      destruct (result (assemble_loop w d [])) as [arrays|?]; [|done].
      destruct (xr_concat w arrays) as [da|? ?]; [|done].
      destruct (result (new_dataset w variable da)) as [ds|?]; [|done].
      destruct (new_node w sgn) as [[]|? ?]; [|done].
      destruct (to_zarr w dest _) as [[]|? ?]; [|done].
      intros _. eexists. split.
      * cbn [trace]. rewrite !elem_of_app. right. right. right. left.
        apply elem_of_cons. right. apply elem_of_cons. right. left.
      * reflexivity.
  - intros k v Hk. unfold main, getitem.
    repeat (apply not_elem_of_cons in Hk as [? Hk]).
    by rewrite !lookup_insert_ne by done.
Qed.

End CustomContext.

Lemma main_custom_context_witness :
  @main _ _ remove_dups_order (demo_world [north_pathname])
    (<["sub_group_name" := PStr "Y002"]> custom_params)
  = IO (Returns None)
       [HeadObject (PStr "wy-ble")
          "realizations/realization-1/hms_output/Y001/HUC14040102/Y001.dss";
        LogInfo "reading from dss file: realizations/realization-1/hms_output/Y001/HUC14040102/Y001.dss";
        LogInfo "looking for wy-ble/realizations/realization-1/hms_output/Y001/HUC14040102/Y001.dss";
        FsGet "s3://wy-ble/realizations/realization-1/hms_output/Y001/HUC14040102/Y001.dss";
        GetPathnameList "/*/*/FLOW/*/*/*/";
        ReadTs "/NORTH/GAGE/FLOW//1DAY/RUN:Y001-E0001/";
        LogError (ValueError_year "Y001" (PStr "Y002"))] /\
  exists d tree,
    result (@extract_data_from_dss _ _ remove_dups_order (demo_world [north_pathname])
              "s3://wy-ble/realizations/realization-1/hms_output/Y001/HUC14040102/Y001.dss"
              "/*/*/FLOW/*/*/*/" (PStr "Y001") (Some custom_f_part_parser))
      = Returns d /\
    dict_keys d = ["E0001"] /\
    ToZarr "s3://wy-ble/realizations/realization-1/post_processing/test22.zarr" tree "a"
      ∈ trace (@main _ _ remove_dups_order (demo_world [north_pathname]) custom_params) /\
    leaf_names tree = [PStr "Y001"].
Proof.
  split.
  - refine (proj1 (proj1 (@main_custom_context _ _ remove_dups_order
                            (demo_world [north_pathname])
                            (<["sub_group_name" := PStr "Y002"]> custom_params)
                            (PStr "wy-ble") [north_pathname]
                            ["/NORTH/GAGE/FLOW//1DAY/RUN:Y001-E0001/"]
                            _ _ _ _ _ eq_refl eq_refl eq_refl eq_refl _)
                     [] "/NORTH/GAGE/FLOW//1DAY/RUN:Y001-E0001/" []
                     "RUN:Y001-E0001" "GAGE" [38]
                     (ValueError_year "Y001" (PStr "Y002")) eq_refl _ _ _ _ _)).
    + vm_compute; reflexivity.
    + vm_compute; reflexivity.
    + apply elem_of_dom. vm_compute. by eexists.
    + apply elem_of_dom. vm_compute. by eexists.
    + vm_compute; reflexivity.
    + vm_compute; reflexivity.
    + intros q Hq. by apply elem_of_nil in Hq.
    + vm_compute; reflexivity.
    + vm_compute; reflexivity.
    + vm_compute; reflexivity.
    + vm_compute; reflexivity.
  - destruct (proj1 (proj2 (@main_custom_context _ _ remove_dups_order
                              (demo_world [north_pathname]) custom_params
                              (PStr "wy-ble") [north_pathname]
                              ["/NORTH/GAGE/FLOW//1DAY/RUN:Y001-E0001/"]
                              ltac:(vm_compute; reflexivity)
                              ltac:(vm_compute; reflexivity)
                              ltac:(apply elem_of_dom; vm_compute; by eexists)
                              ltac:(apply elem_of_dom; vm_compute; by eexists)
                              ltac:(vm_compute; reflexivity)
                              eq_refl eq_refl eq_refl eq_refl
                              ltac:(vm_compute; reflexivity))))
      as (d & Hd & Hkeys & _ & _ & Hwritten).
    + intros q Hq. apply elem_of_cons in Hq as [->|Hq]; [|by apply elem_of_nil in Hq].
      eexists _, _. split; [vm_compute|]; reflexivity.
    + destruct (Hwritten {| zarr_s3_key := "s3://wy-ble/realizations/realization-1/post_processing/test22.zarr";
                            success := []; failures := [] |}) as (tree & Htree & Hleaf).
      { revert Hd. vm_compute. intros [= <-]. reflexivity. }
      exists d, tree. split_and!; [exact Hd| |exact Htree|exact Hleaf].
      rewrite Hkeys. vm_compute. reflexivity.
Defined.
